(** * Intro-to-programming-for-physicists: the three assessment scripts

    A shallow embedding of

    - Assessment 1, the bouncy ball (input validation, the bounce loop),
    - Assessment 2, the thickness of boron nitride (chi-squared, the
      hill-descent fit, the error estimate, the layer count),
    - Assessment 3, the nuclear decay (file merge, outlier filter, half-lives),

    together with the properties the specification states about them.

    Numbers are the scripts' own: Python floats and numpy float64 values are
    IEEE 754 binary64, embedded as Rocq's primitive [float] (round to nearest
    even, NaN, infinities and signed zeros included).  Python integers are [Z].
    Loops that the scripts run without a bound take a [fuel] argument and
    return [None] when it runs out. *)

From Stdlib Require Import ZArith QArith Qround Qabs Reals Lia Psatz Floats String Ascii.
From stdpp Require Import base option list sorting.

Set Warnings "-inexact-float".

(** ** Doubles *)

Module Double.

Local Open Scope float_scope.

(** A Python [int] used where a float is expected ([3], [60], [len(data) - 1]):
    converted exactly for the magnitudes the scripts use (below 2^53). *)
Definition of_int (z : Z) : float :=
  match z with
  | Z0 => 0
  | Zpos _ => of_uint63 (Uint63.of_Z z)
  | Zneg p => - of_uint63 (Uint63.of_Z (Zpos p))
  end.

(** The rational a finite double stands for; [None] for NaN and infinities. *)
Definition to_Q (x : float) : option Q :=
  match Prim2SF x with
  | S754_zero _ => Some 0%Q
  | S754_finite s m e =>
      let v := match e with
               | Zneg p => Qmake (Zpos m) (2 ^ p)%positive
               | _ => inject_Z (Zpos m * 2 ^ e)
               end in
      Some (if s then Qopp v else v)
  | S754_infinity _ | S754_nan => None
  end.

(** Rounding a rational to the nearest integer, ties to the even one: what
    Python 3's [round(x)] does with one argument. *)
Definition round_half_even (q : Q) : Z :=
  let fl := Qfloor q in
  match Qcompare (q - inject_Z fl) (1 # 2) with
  | Lt => fl
  | Gt => (fl + 1)%Z
  | Eq => if Z.even fl then fl else (fl + 1)%Z
  end.

(** [round(x)] on a float: an [int], or an exception ([None]) on NaN and
    infinities. *)
Definition py_round (x : float) : option Z := round_half_even <$> to_Q x.

(** [np.square], and [**2] on a float64. *)
Definition square (x : float) : float := x * x.

(** [np.sum] over a one-dimensional float64 array, adding from the left
    starting at 0.0 (numpy's order for arrays of fewer than 8 elements; the
    sum of an empty array is 0.0). *)
Definition np_sum (xs : list float) : float := foldl add 0 xs.

(** The sign bit of a double, read off its IEEE form: NaN, or a value whose
    sign bit is [s] (set for numbers below 0 and for -0.0). *)
Definition signed (s : bool) (x : spec_float) : Prop :=
  match x with
  | S754_nan => True
  | S754_zero s' | S754_infinity s' | S754_finite s' _ _ => s' = s
  end.

(** [np.pi], the nearest double. *)
Definition np_pi : float := 3.141592653589793.

(** A row of an array of shape (n, 3), and such an array. *)
Abbreviation row := (float * float * float)%type.
Abbreviation ndarray := (list row).

Definition col0 (r : row) : float := r.1.1.
Definition col1 (r : row) : float := r.1.2.
Definition col2 (r : row) : float := r.2.

(** numpy's order for sorting doubles: the IEEE [<], with NaN after every
    number. *)
Definition np_lt (a b : float) : bool :=
  (a <? b) || (is_nan b && negb (is_nan a)).

(** Straight insertion, as numpy's sorts run it on arrays of at most 16
    elements (their introsort falls back to it there): each element in turn
    moves left past the elements it is less than.  [placed] is the part
    already in order, last element first. *)
Section Insertion.

Context {A : Type} (lt : A -> A -> bool).

Fixpoint insert (x : A) (placed : list A) : list A :=
  match placed with
  | [] => [x]
  | y :: placed' => if lt x y then y :: insert x placed' else x :: placed
  end.

Definition insertion_sort (l : list A) : list A :=
  rev (foldl (fun placed x => insert x placed) [] l).

(** The order [placed] is kept in: no element is less than the one after it
    in [placed], which stands before it in the result. *)
Definition not_before (x y : A) : Prop := lt x y = false.

End Insertion.

(** [np.argsort(keys)]: the indices that put [keys] in order.  On longer
    arrays numpy's default is not stable, and the order it gives equal keys
    is not modelled. *)
Definition np_argsort (keys : list float) : list nat :=
  insertion_sort (fun i j => np_lt (nth i keys 0) (nth j keys 0))
                 (seq 0 (length keys)).

(** [a[order]] with an index array: a new array of the rows named. *)
Definition take_rows (a : ndarray) (order : list nat) : ndarray :=
  map (fun i => nth i a (0, 0, 0)) order.

(** The order of the rows by their first column. *)
Definition earlier (r r' : row) : bool := np_lt (col0 r) (col0 r').

End Double.

(** ** Rounding, in integers

    The IEEE operations round an exact mantissa to 53 bits.  These are the
    steps of that rounding as functions on integers; they serve to show
    that multiplying by a positive constant keeps the order of two
    doubles. *)

Module Rounding.

Local Open Scope Z_scope.

(** What [k] shifts leave of the integer [M]: its quotient by 2^k, the last
    bit shifted out, and whether a bit shifted out before it was set. *)
Definition shifted (M : Z) (k : nat) : shr_record :=
  {| shr_m := M / 2 ^ Z.of_nat k;
     shr_r := match k with
              | O => false
              | S j => Z.odd (M / 2 ^ Z.of_nat j)
              end;
     shr_s := match k with
              | O => false
              | S j => negb (M mod 2 ^ Z.of_nat j =? 0)
              end |}.

(** [M / 2^n] rounded to the nearest integer, ties to the even one. *)
Definition rne (M n : Z) : Z :=
  let q := M / 2 ^ n in
  match 2 * (M mod 2 ^ n) ?= 2 ^ n with
  | Lt => q
  | Gt => q + 1
  | Eq => if Z.even q then q else q + 1
  end.

(** The double with mantissa [r], at most 2^53, and exponent [E]: the
    second half of [binary_round_aux]. *)
Definition rounded (s : bool) (r E : Z) : spec_float :=
  if r =? 0 then S754_zero s
  else if r <? 2 ^ 53 then
    if E <=? emax - prec then S754_finite s (Z.to_pos r) E else S754_infinity s
  else
    if E + 1 <=? emax - prec then S754_finite s (Z.to_pos (2 ^ 52)) (E + 1)
    else S754_infinity s.

End Rounding.

(** ** The library functions the scripts call

    [np.exp] and [np.log] are not IEEE operations: numpy takes them from the
    platform.  The scripts are embedded over any pair of functions; a
    reference pair, used to run the scripts on concrete data, is given
    below. *)
Class Libm : Type := {
  np_exp : float -> float;
  np_log : float -> float
}.

(** The reference pair: the textbook algorithms, in doubles.  Their results
    lie within about one unit in the last place of the platform's; [log 2]
    is 0.6931471805599453, the double nearest to ln 2, as numpy's is. *)
Module Reference.

Local Open Scope float_scope.

Definition ln2 : float := 0.6931471805599453.
Definition ln2_hi : float := 0x1.62e42fee00000p-1.
Definition ln2_lo : float := 0x1.a39ef35793c76p-33.
Definition sqrt_half : float := 0.7071067811865476.

(** 1/k + z2/(k+2) + z2^2/(k+4) + ..., [n+1] terms, by Horner's rule. *)
Fixpoint atanh_series (n : nat) (k : Z) (z2 : float) : float :=
  match n with
  | O => 1 / Double.of_int k
  | S n' => 1 / Double.of_int k + z2 * atanh_series n' (k + 2) z2
  end.

(** Natural logarithm: x = m * 2^e with m in [sqrt(1/2), sqrt 2), then
    ln m = 2 atanh ((m - 1) / (m + 1)). *)
Definition log (x : float) : float :=
  if is_nan x then nan
  else if x <? 0 then nan
  else if x =? 0 then neg_infinity
  else if x =? infinity then infinity
  else
    let '(m, e) := Z.frexp x in
    let '(m, e) := if m <? sqrt_half then (2 * m, (e - 1)%Z) else (m, e) in
    let z := (m - 1) / (m + 1) in
    let s := 2 * z * atanh_series 14 1 (z * z) in
    let k := Double.of_int e in
    k * ln2_hi + (s + k * ln2_lo).

(** 1 + r/k (1 + r/(k+1) (1 + ...)), the Taylor series of exp. *)
Fixpoint exp_series (n : nat) (k : Z) (r : float) : float :=
  match n with
  | O => 1
  | S n' => 1 + r / Double.of_int k * exp_series n' (k + 1) r
  end.

(** Exponential: x = k ln 2 + r with |r| <= ln 2 / 2, then 2^k exp r. *)
Definition exp (x : float) : float :=
  if is_nan x then nan
  else if 709.782712893384 <? x then infinity
  else if x <? -745.1332191019412 then 0
  else
    match Double.py_round (x / ln2) with
    | Some k =>
        let kf := Double.of_int k in
        let r := (x - kf * ln2_hi) - kf * ln2_lo in
        Z.ldexp (exp_series 20 1 r) k
    | None => nan
    end.

Definition libm : Libm := {| np_exp := exp; np_log := log |}.

End Reference.

(** ** Assessment 1: the bouncy ball *)

Module Bounce.

Local Open Scope float_scope.

(** Standard gravitational acceleration. *)
Definition g : float := 9.80665.

(** The time from one peak of height [height] to the next, of height
    [height * efficiency]. *)
Definition bounce_time (height efficiency : float) : float :=
  let fall_time := sqrt (2 * height / g) in
  let rise_time := sqrt (2 * height * efficiency / g) in
  fall_time + rise_time.

(** What the script prints when it turns an input down. *)
Inductive message : Set :=
| heights_not_positive
| minimum_not_below_initial
| bounces_indefinitely
| does_not_bounce
| efficiency_out_of_range
| no_bounce_above_minimum
| inputs_not_floats.

Definition text (m : message) : string :=
  match m with
  | heights_not_positive => "Make sure the heights are greater than 0."%string
  | minimum_not_below_initial =>
      "Please set the minimum height to be less than the initial height."%string
  | bounces_indefinitely => "The ball keeps on bouncing indefinitely."%string
  | does_not_bounce => "The ball does not bounce."%string
  | efficiency_out_of_range =>
      "The efficiency must be greater than 0 and less than 1."%string
  | no_bounce_above_minimum => "There are no bounces above minimum height."%string
  | inputs_not_floats => "Make sure all inputs are floats."%string
  end.

Inductive verdict : Set :=
| Reject (m : message)
| Accept.

(** The [if]/[elif] chain of the error checking, in its order. *)
Definition check (initial_height minimum_height efficiency : float) : verdict :=
  if (initial_height <=? 0) || (minimum_height <=? 0) then
    Reject heights_not_positive
  else if initial_height <=? minimum_height then
    Reject minimum_not_below_initial
  else if efficiency =? 1 then
    Reject bounces_indefinitely
  else if efficiency =? 0 then
    Reject does_not_bounce
  else if (1 <? efficiency) || (efficiency <? 0) then
    Reject efficiency_out_of_range
  else if initial_height * efficiency <? minimum_height then
    Reject no_bounce_above_minimum
  else Accept.

(** The variables of the simulation. *)
Record state : Set := {
  bounces : Z;
  total_time : float;
  height : float;
  array_heights : list float;
  array_times : list float
}.

Definition initial (initial_height : float) : state :=
  {| bounces := 0;
     total_time := 0;
     height := initial_height;
     array_heights := [initial_height];
     array_times := [0] |}.

(** One turn of the [while] loop's body. *)
Definition bounce (efficiency : float) (s : state) : state :=
  let bounces' := (bounces s + 1)%Z in
  let total_time' := total_time s + bounce_time (height s) efficiency in
  let height' := height s * efficiency in
  {| bounces := bounces';
     total_time := total_time';
     height := height';
     array_heights := array_heights s ++ [height'];
     array_times := array_times s ++ [total_time'] |}.

(** [while height * efficiency >= minimum_height]. *)
Fixpoint loop (fuel : nat) (minimum_height efficiency : float) (s : state)
  : option state :=
  if minimum_height <=? height s * efficiency then
    match fuel with
    | O => None
    | S fuel' => loop fuel' minimum_height efficiency (bounce efficiency s)
    end
  else Some s.

Definition simulate (fuel : nat) (initial_height minimum_height efficiency : float)
  : option state :=
  loop fuel minimum_height efficiency (initial initial_height).

(** What the user sees. *)
Inductive prompt : Set := ask_initial_height | ask_minimum_height | ask_efficiency.

Inductive output : Set :=
| Asked (p : prompt)
| Said (m : message)
| Plotted (times heights : list float)
| Reported (bounces : Z) (total_time : float).

Inductive exit : Set :=
| Finished          (* the [break] after the results *)
| EndOfInput        (* [input] found no line left to read *)
| OutOfFuel.

Definition emit (o : output) (r : list output * exit) : list output * exit :=
  (o :: r.1, r.2).

Definition results (s : state) : list output :=
  [Plotted (array_times s) (array_heights s); Reported (bounces s) (total_time s)].

(** The script.  Each element of [inputs] is one line typed by the user,
    already through [float(...)]: [None] is a line on which [float] raises
    [ValueError].  Every turn of the outer [while True] reads up to three
    lines; a [ValueError] abandons the turn at once. *)
Fixpoint main (fuel : nat) (inputs : list (option float)) : list output * exit :=
  emit (Asked ask_initial_height)
  match inputs with
  | [] => ([], EndOfInput)
  | None :: rest => emit (Said inputs_not_floats) (main fuel rest)
  | Some initial_height :: inputs1 =>
      emit (Asked ask_minimum_height)
      match inputs1 with
      | [] => ([], EndOfInput)
      | None :: rest => emit (Said inputs_not_floats) (main fuel rest)
      | Some minimum_height :: inputs2 =>
          emit (Asked ask_efficiency)
          match inputs2 with
          | [] => ([], EndOfInput)
          | None :: rest => emit (Said inputs_not_floats) (main fuel rest)
          | Some efficiency :: rest =>
              match check initial_height minimum_height efficiency with
              | Reject m => emit (Said m) (main fuel rest)
              | Accept =>
                  match simulate fuel initial_height minimum_height efficiency with
                  | Some s => (results s, Finished)
                  | None => ([], OutOfFuel)
                  end
              end
          end
      end
  end.

(** The time of the reference run: three falls and rises, from the peaks at
    10, 5 and 2.5. *)
Definition reference_time : float :=
  (sqrt (2 * 10 / g) + sqrt (2 * 10 * 0.5 / g))
  + (sqrt (2 * 5 / g) + sqrt (2 * 5 * 0.5 / g))
  + (sqrt (2 * 2.5 / g) + sqrt (2 * 2.5 * 0.5 / g)).

(** *** The user's attempts

    What the user types in one turn of the outer loop: a line that is no
    float, after zero, one or two lines that are, or three floats. *)
Inductive attempt : Set :=
| no_float_1
| no_float_2 (initial_height : float)
| no_float_3 (initial_height minimum_height : float)
| triple (initial_height minimum_height efficiency : float).

Definition typed (a : attempt) : list (option float) :=
  match a with
  | no_float_1 => [None]
  | no_float_2 h0 => [Some h0; None]
  | no_float_3 h0 hmin => [Some h0; Some hmin; None]
  | triple h0 hmin e => [Some h0; Some hmin; Some e]
  end.

(** The message an attempt is answered with, if it is turned down. *)
Definition turned_down (a : attempt) : option message :=
  match a with
  | triple h0 hmin e =>
      match check h0 hmin e with
      | Reject m => Some m
      | Accept => None
      end
  | _ => Some inputs_not_floats
  end.

(** What the screen shows for an attempt that is turned down: the prompts
    it answered, then the message. *)
Definition prompts (a : attempt) : list output :=
  match a with
  | no_float_1 => [Asked ask_initial_height]
  | no_float_2 _ => [Asked ask_initial_height; Asked ask_minimum_height]
  | _ => [Asked ask_initial_height; Asked ask_minimum_height; Asked ask_efficiency]
  end.

Definition transcript (a : attempt) : list output :=
  prompts a ++ match turned_down a with
               | Some m => [Said m]
               | None => []
               end.

(** The condition each message reports. *)
Definition reports (m : message) (initial_height minimum_height efficiency : float)
  : bool :=
  match m with
  | heights_not_positive => (initial_height <=? 0) || (minimum_height <=? 0)
  | minimum_not_below_initial => initial_height <=? minimum_height
  | bounces_indefinitely => efficiency =? 1
  | does_not_bounce => efficiency =? 0
  | efficiency_out_of_range => (1 <? efficiency) || (efficiency <? 0)
  | no_bounce_above_minimum => initial_height * efficiency <? minimum_height
  | inputs_not_floats => false
  end.

End Bounce.

(** ** Assessment 2: the thickness of boron nitride *)

Module Thickness.

Import Double.

Section Script.

Context {libm : Libm}.

Local Open Scope float_scope.

(** *** Constants *)

Definition V_0 : float := 3.
Definition epsilon_0 : float := 5.53e-3.
Definition epsilon_r : float := 4.
Definition sqrt_2m_over_hbar : float := 0.512317.
Definition thickness_per_layer : float := 3.
Definition lambda_constant : float :=
  np_log 2 / (8 * np_pi * epsilon_r * epsilon_0).
Definition distance_1 : float := 1.2 * lambda_constant / V_0.

Definition starting_thickness : float := 3.
Definition step : float := 0.0001.
Definition error_step : float := 0.1 * step.

(** *** Validation

    A cell of the file is a string; [float_check] asks whether [float(...)]
    accepts it.  A cell is modelled by the result of [float(...)], [None]
    when it raises. *)
Definition cell : Set := option float.

Definition float_check (value : cell) : bool :=
  match value with Some _ => true | None => false end.

(** The nested [if]s of [data_validation], on the line with index [i]:
    column 0 within [0, 1], column 1 within [0, V_0], column 2 positive. *)
Definition data_validation (line : cell * cell * cell) : bool :=
  match line with
  | (Some c0, Some c1, Some c2) =>
      (0 <=? c0) && (c0 <=? 1) && ((0 <=? c1) && (c1 <=? V_0)) && (0 <? c2)
  | _ => false
  end.

(** The loop that builds [valid_data]. *)
Definition validate (data : list (cell * cell * cell)) : ndarray :=
  omap (fun line =>
          if data_validation line then
            match line with
            | (Some c0, Some c1, Some c2) => Some (c0, c1, c2)
            | _ => None
            end
          else None) data.

(** *** The fitted equations *)

Definition distance_2 (thickness : float) : float := thickness - distance_1.

Definition average_potential (thickness : float) : float :=
  let ln_term := np_log (square (distance_2 thickness) / square distance_1) in
  let first_term := 1.15 * lambda_constant / (distance_2 thickness - distance_1) in
  V_0 - first_term * ln_term.

Definition transmission_coefficient (energy thickness : float) : float :=
  let sqrt_term := sqrt (average_potential thickness - energy) in
  let exponential_term :=
    (-2) * (distance_2 thickness - distance_1) * sqrt_2m_over_hbar * sqrt_term in
  np_exp exponential_term.

(** *** Chi-squared and the error analysis *)

Definition chi_squared (data : ndarray) (thickness : float) : float :=
  np_sum (map (fun r =>
                 let difference := col0 r - transmission_coefficient (col1 r) thickness in
                 let uncertainty := col2 r in
                 square (difference / uncertainty)) data).

Definition reduced_chi_squared
  (data : ndarray) (thickness : float) (number_of_parameters : Z) : float :=
  let number_of_degrees_of_freedom :=
    (Z.of_nat (length data) - number_of_parameters)%Z in
  chi_squared data thickness / of_int number_of_degrees_of_freedom.

(** [final_thickness] is a global of the script, read here; it is passed in. *)
Definition function_to_be_minimised
  (final_thickness : float) (data : ndarray) (thickness : float) : float :=
  square (chi_squared data thickness - chi_squared data final_thickness - 1).

(** The [while True] loop of [error_in_thickness]: the thickness it stops at. *)
Fixpoint error_boundary
  (fuel : nat) (final_thickness : float) (data : ndarray) (thickness step : float)
  : option float :=
  match fuel with
  | O => None
  | S fuel' =>
      let f := function_to_be_minimised final_thickness data in
      if is_nan (f thickness) then
        error_boundary fuel' final_thickness data (thickness + step) step
      else if f (thickness + step) <? f thickness then
        error_boundary fuel' final_thickness data (thickness + step) step
      else if f (thickness - step) <? f thickness then
        error_boundary fuel' final_thickness data (thickness - step) step
      else Some thickness
  end.

Definition error_in_thickness
  (fuel : nat) (final_thickness : float) (data : ndarray) (thickness step : float)
  : option float :=
  thickness' ← error_boundary fuel final_thickness data thickness step;
  Some (abs (thickness' - final_thickness)).

(** *** Other functions *)

Definition number_of_layers (thickness thickness_per_layer : float) : option Z :=
  py_round (thickness / thickness_per_layer).

(** *** The main code *)

(** The [while True] loop that minimises chi-squared. *)
Fixpoint minimise (fuel : nat) (valid_data : ndarray) (thickness : float)
  : option float :=
  match fuel with
  | O => None
  | S fuel' =>
      if is_nan (chi_squared valid_data thickness) then
        minimise fuel' valid_data (thickness + step)
      else if chi_squared valid_data (thickness + step) <? chi_squared valid_data thickness then
        minimise fuel' valid_data (thickness + step)
      else if chi_squared valid_data (thickness - step) <? chi_squared valid_data thickness then
        minimise fuel' valid_data (thickness - step)
      else Some thickness
  end.

Definition final_thickness (fuel : nat) (valid_data : ndarray) : option float :=
  minimise fuel valid_data starting_thickness.

(** What the print statements show. *)
Record report : Set := {
  thickness_of_BN : float;
  thickness_error : float;
  reduced_chi2 : float;
  layers : Z
}.

Definition main (fuel : nat) (data : list (cell * cell * cell)) : option report :=
  let valid_data := validate data in
  thickness ← final_thickness fuel valid_data;
  error ← error_in_thickness fuel thickness valid_data thickness error_step;
  n ← number_of_layers thickness thickness_per_layer;
  Some {| thickness_of_BN := thickness;
          thickness_error := error;
          reduced_chi2 := reduced_chi_squared valid_data thickness 1;
          layers := n |}.

End Script.

(** *** The state machine of the specification

    The two loops above are written out twice in the script.  The
    specification (section 4.2) describes them as one machine over any
    objective, and this second definition follows its words, to compare the
    loops with: from a parameter value [p] and a fixed step [s], move to
    [p + s] when the objective is undefined at [p], else to [p + s] when
    that lowers the objective, else to [p - s] when that does, else stop. *)
Section HillDescent.

Local Open Scope float_scope.

Variable objective : float -> float.
Variable s : float.

Inductive transition : Set :=
| Step (p' : float)
| Converged.

Definition next (p : float) : transition :=
  if is_nan (objective p) then Step (p + s)
  else if objective (p + s) <? objective p then Step (p + s)
  else if objective (p - s) <? objective p then Step (p - s)
  else Converged.

Fixpoint hill_descent (fuel : nat) (p : float) : option float :=
  match fuel with
  | O => None
  | S fuel' =>
      match next p with
      | Step p' => hill_descent fuel' p'
      | Converged => Some p
      end
  end.

End HillDescent.

End Thickness.

(** ** Assessment 3: the nuclear decay *)

(** [scipy.optimize.fmin(objective, initial_guess)]: the minimising
    parameters, or [None] when the call raises. *)
Class Optimizer : Type := {
  opt_fmin : (float * float -> float) -> float * float -> option (float * float)
}.

Module Decay.

Import Double.

(** *** Arrays as objects

    numpy arrays are mutable objects and Python variables hold references
    to them.  The heap lists the arrays the script has bound to a variable,
    in the order of their creation (index arrays, masks and other
    temporaries are left out); a reference is an index into it. *)
Abbreviation ref := nat.
Abbreviation heap := (list ndarray).

(** Computations that read and write the heap and may raise. *)
Definition M (A : Type) : Type := heap -> option (A * heap).

Definition ret {A : Type} (a : A) : M A := fun h => Some (a, h).

Definition bind {A B : Type} (m : M A) (k : A -> M B) : M B :=
  fun h => match m h with
           | Some (a, h') => k a h'
           | None => None
           end.

Definition raise {A : Type} : M A := fun _ => None.

Notation "x <- m ;; k" := (bind m (fun x => k))
  (at level 100, m at next level, right associativity).

(** A new array object. *)
Definition new (a : ndarray) : M ref := fun h => Some (length h, h ++ [a]).

(** The contents of an array object. *)
Definition get (r : ref) : M ndarray :=
  fun h => match h !! r with
           | Some a => Some (a, h)
           | None => None
           end.

(** Overwriting the contents of an array object in place. *)
Definition put (r : ref) (a : ndarray) : M unit :=
  fun h => match h !! r with
           | Some _ => Some (tt, <[r := a]> h)
           | None => None
           end.

(** *** The formulas of the half-lives, over any arithmetic *)
Section Formulas.

Context {F : Type} (mul div : F -> F -> F) (log_2 sixty : F).

Definition half_life (decay_constant : F) : F :=
  let half_life_seconds := div log_2 decay_constant in
  div half_life_seconds sixty.

Definition error_half_life (decay_constant error_decay_constant : F) : F :=
  div (mul (half_life decay_constant) error_decay_constant) decay_constant.

End Formulas.

Section Script.

Context {libm : Libm} {optimizer : Optimizer}.

(** [scipy.constants.Avogadro]. *)
Variable sc_Avogadro : float.

(** What [np.genfromtxt(filename, comments='%', delimiter=',')] makes of
    each file name: the rows of numbers of the file, with NaN where a field
    is not a number; [None] when the call raises.  The files are taken to
    have three columns, as the script expects.  numpy returns the rows
    as an array of two dimensions only when there are at least two of them:
    one row comes back as a one-dimensional array of its three numbers, and
    no row as an empty one-dimensional array. *)
Variable np_genfromtxt : string -> option ndarray.

Local Open Scope float_scope.

(** *** Constants *)

Definition initial_number_sr_nuclei : float := 1e-06 * sc_Avogadro / 1e12.

Definition INITIAL_DECAY_CONSTANT_RB : float := 0.0005.
Definition INITIAL_DECAY_CONSTANT_SR : float := 0.005.

(** *** Reading and validation *)

Definition read_and_validate (filename : string) : M ref :=
  match np_genfromtxt filename with
  | None => raise
  | Some contents =>
      data <- new contents ;;
      a <- get data ;;
      (* on an array of one dimension [.all(axis=1)] raises: there is no
         axis 1 *)
      if (length a <? 2)%nat then raise else
      data_without_nan_rows <-
        new (filter (fun r => is_finite (col0 r) && is_finite (col1 r)
                              && is_finite (col2 r)) a) ;;
      a <- get data_without_nan_rows ;;
      data_without_zero_error <- new (filter (fun r => negb (col2 r =? 0)) a) ;;
      a <- get data_without_zero_error ;;
      data_without_large_error <- new (filter (fun r => col2 r / col1 r <? 1) a) ;;
      ret data_without_large_error
  end.

(** [data_in_seconds = data] binds a second name to the same object; the
    assignment to [data_in_seconds[:,0]] writes into it. *)
Definition convert_time_to_seconds (data : ref) : M ref :=
  let data_in_seconds := data in
  a <- get data ;;
  let column := map (fun r => col0 r * 3600) a in
  a' <- get data_in_seconds ;;
  _ <- put data_in_seconds (zip_with (fun c r => (c, col1 r, col2 r)) column a') ;;
  ret data_in_seconds.

Definition combine_files (filename_1 filename_2 : string) : M ref :=
  data_1 <- read_and_validate filename_1 ;;
  data_2 <- read_and_validate filename_2 ;;
  a1 <- get data_1 ;;
  a2 <- get data_2 ;;
  data_combined <- new (a1 ++ a2) ;;
  a <- get data_combined ;;
  let data_sort_order := np_argsort (map col0 a) in
  data_sorted <- new (take_rows a data_sort_order) ;;
  data_in_seconds <- convert_time_to_seconds data_sorted ;;
  ret data_in_seconds.

(** *** The fitted equation *)

Definition activity (time : float) (decay_constants : float * float) : float :=
  let decay_constant_rb := decay_constants.1 in
  let decay_constant_sr := decay_constants.2 in
  let first_term :=
    initial_number_sr_nuclei * decay_constant_rb * decay_constant_sr
    / (decay_constant_rb - decay_constant_sr) in
  let second_term :=
    np_exp (- decay_constant_sr * time) - np_exp (- decay_constant_rb * time) in
  first_term * second_term.

(** *** Chi-squared and the error analysis *)

Definition chi_squared (decay_constants : float * float) (data : ndarray) : float :=
  np_sum (map (fun r =>
                 let difference := col1 r - activity (col0 r) decay_constants in
                 let uncertainty := col2 r in
                 square (difference / uncertainty)) data).

Definition reduced_chi_squared
  (decay_constants : float * float) (data : ndarray) (number_of_parameters : Z)
  : float :=
  let number_of_degrees_of_freedom :=
    (Z.of_nat (length data) - number_of_parameters)%Z in
  chi_squared decay_constants data / of_int number_of_degrees_of_freedom.

(** The distance of a sample from the fit, and the test that keeps it. *)
Definition offset (decay_constants : float * float) (r : row) : float :=
  abs (col1 r - activity (col0 r) decay_constants).

Definition remove_outliers (decay_constants : float * float) (data : ndarray)
  : ndarray :=
  filter (fun r => offset decay_constants r <? 5 * col2 r) data.

(** *** Other functions *)

Definition half_lives (decay_constants : float * float) : float * float :=
  (half_life div (np_log 2) 60 decay_constants.1,
   half_life div (np_log 2) 60 decay_constants.2).

Definition error_half_lives (decay_constants error_decay_constants : float * float)
  : float * float :=
  (error_half_life mul div (np_log 2) 60 decay_constants.1 error_decay_constants.1,
   error_half_life mul div (np_log 2) 60 decay_constants.2 error_decay_constants.2).

(** *** The main code, up to the final fit *)

Definition INITIAL_GUESS_DECAY_CONSTANTS : float * float :=
  (INITIAL_DECAY_CONSTANT_RB, INITIAL_DECAY_CONSTANT_SR).

Record fit : Set := {
  data_read : ndarray;
  decay_constants_preliminary : float * float;
  data_without_outliers : ndarray;
  decay_constants_final : float * float
}.

Definition main : M fit :=
  data <- combine_files "Nuclear_data_1.csv" "Nuclear_data_2.csv" ;;
  a <- get data ;;
  match opt_fmin (fun p => chi_squared p a) INITIAL_GUESS_DECAY_CONSTANTS with
  | None => raise
  | Some preliminary =>
      let filtered := remove_outliers preliminary a in
      kept <- new filtered ;;
      b <- get kept ;;
      match opt_fmin (fun p => chi_squared p b) preliminary with
      | None => raise
      | Some final =>
          ret {| data_read := a;
                 decay_constants_preliminary := preliminary;
                 data_without_outliers := b;
                 decay_constants_final := final |}
      end
  end.

End Script.

(** *** The contents the functions above leave in the arrays *)

Local Open Scope float_scope.

(** The rows [read_and_validate] keeps. *)
Definition validated (contents : ndarray) : ndarray :=
  filter (fun r => col2 r / col1 r <? 1)
    (filter (fun r => negb (col2 r =? 0))
       (filter (fun r => is_finite (col0 r) && is_finite (col1 r)
                         && is_finite (col2 r)) contents)).

(** An array with its first column multiplied by 3600. *)
Definition to_seconds (a : ndarray) : ndarray :=
  map (fun r => (col0 r * 3600, col1 r, col2 r)) a.

(** Whether multiplying by 3600 keeps every comparison between two times of
    the array.  (In exact arithmetic it always does; in doubles two times
    can round, or overflow, to the same number of seconds.) *)
Definition order_kept (a : ndarray) : bool :=
  forallb (fun r =>
             forallb (fun r' =>
                        Bool.eqb (np_lt (col0 r * 3600) (col0 r' * 3600))
                                 (np_lt (col0 r) (col0 r'))) a) a.

(** The arrays [read_and_validate] binds to its four variables; the last
    one is the one it returns. *)
Definition read_arrays (contents : ndarray) : heap :=
  let data_without_nan_rows :=
    filter (fun r => is_finite (col0 r) && is_finite (col1 r)
                     && is_finite (col2 r)) contents in
  let data_without_zero_error :=
    filter (fun r => negb (col2 r =? 0)) data_without_nan_rows in
  [contents; data_without_nan_rows; data_without_zero_error; validated contents].

(** No row's time is less than that of the row before it. *)
Definition ascending (a : ndarray) : Prop :=
  Sorted (fun r r' => earlier r' r = false) a.

(** Two files of two valid rows each, and a row of which the uncertainty
    is 0. *)
Definition two_files (filename : string) : option ndarray :=
  if String.eqb filename "Nuclear_data_1.csv"
  then Some [(2, 10, 0.5); (0.5, 30, 0.5); (1, 5, 0)]
  else Some [(1, 20, 0.5); (0.25, 40, 0.5)].

(** Two files of two valid rows each; the first rows have times one unit
    in the last place apart. *)
Definition close_times (filename : string) : option ndarray :=
  if String.eqb filename "Nuclear_data_1.csv"
  then Some [(1.500000000000001, 1, 0.5); (3, 3, 0.5)]
  else Some [(1.5000000000000009, 2, 0.5); (4, 4, 0.5)].

(** Whether [np.genfromtxt] gives an array of two dimensions: the call
    returns, with at least two rows. *)
Definition two_dimensional (contents : option ndarray) : bool :=
  match contents with
  | Some rows => (2 <=? length rows)%nat
  | None => false
  end.

End Decay.

(** ** The rest of the scripts

    The parts of the three scripts that the definitions above leave out:
    what the bounce loop has computed after a number of turns, the reading of
    the tunnelling file, and the mesh, the chi-squared grid and the errors
    on the parameters of the decay script. *)

(** *** Assessment 1: the turns of the bounce loop *)

Module BounceRun.

Import Bounce.

Local Open Scope float_scope.

(** The state after [n] turns of the [while] loop. *)
Definition after (initial_height efficiency : float) (n : nat) : state :=
  Nat.iter n (bounce efficiency) (initial initial_height).

(** The peak after [k] bounces: [height *= efficiency], [k] times. *)
Definition peak (initial_height efficiency : float) (k : nat) : float :=
  Nat.iter k (fun height => height * efficiency) initial_height.

(** The time at which the peak after [k] bounces is reached:
    [total_time += bounce_time(height, efficiency)], [k] times. *)
Fixpoint time_of_peak (initial_height efficiency : float) (k : nat) : float :=
  match k with
  | O => 0
  | S k' => time_of_peak initial_height efficiency k'
            + bounce_time (peak initial_height efficiency k') efficiency
  end.

(** The conditions of the [if]/[elif] chain, in the order it tests them. *)
Definition chain : list message :=
  [heights_not_positive; minimum_not_below_initial; bounces_indefinitely;
   does_not_bounce; efficiency_out_of_range; no_bounce_above_minimum].

End BounceRun.

(** *** Assessment 2: reading the file *)

Module ThicknessFile.

Import Double Thickness.

Local Open Scope string_scope.

(** [line.split(sep)] for a separator of one character: the pieces between
    the separators, of which there is always at least one. *)
Fixpoint split (sep : ascii) (line : string) : list string :=
  match line with
  | EmptyString => [EmptyString]
  | String c rest =>
      if Ascii.eqb c sep then EmptyString :: split sep rest
      else match split sep rest with
           | piece :: pieces => String c piece :: pieces
           | [] => [String c EmptyString]
           end
  end.

(** The number of times a character occurs in a line. *)
Fixpoint count (sep : ascii) (line : string) : nat :=
  match line with
  | EmptyString => 0
  | String c rest => (if Ascii.eqb c sep then 1 else 0) + count sep rest
  end.

(** One turn of the loop's [else] branch: the first three pieces of the
    line; [None] is the [IndexError] of a line with fewer. *)
Definition read_line (line : string) : option (string * string * string) :=
  match split "," line with
  | piece_0 :: piece_1 :: piece_2 :: _ => Some (piece_0, piece_1, piece_2)
  | _ => None
  end.

(** The [for] loop over the lines, with its flag and the array stacked so
    far. *)
Fixpoint read_lines (skipped_column_headers : bool)
    (data : list (string * string * string)) (lines : list string)
  : option (list (string * string * string)) :=
  match lines with
  | [] => Some data
  | line :: lines' =>
      if skipped_column_headers then
        split_up_array ← read_line line;
        read_lines true (data ++ [split_up_array]) lines'
      else read_lines true data lines'
  end.

(** [read_file]: [file] is the lines of the file of that name, each with its
    line break if it has one, or [None] when [open] raises.  The result is
    [None] when the function raises. *)
Definition read_file (file : option (list string))
  : option (list (string * string * string)) :=
  lines ← file; read_lines false [] lines.

Section Script.

Context {libm : Libm}.

(** Python's [float(...)] on a string, [None] when it raises. *)
Variable py_float : string -> cell.

Definition cells (line : string * string * string) : cell * cell * cell :=
  (py_float line.1.1, py_float line.1.2, py_float line.2).

(** What the script ends with. *)
Inductive outcome : Set :=
| FileNotRead                  (* 'File could not be read. Please try again.' *)
| Printed (r : report)
| Stopped.                     (* an exception after the file was read, or
                                  a loop out of fuel *)

(** The main code, from the file on. *)
Definition script (fuel : nat) (file : option (list string)) : outcome :=
  match read_file file with
  | None => FileNotRead
  | Some data =>
      match main fuel (cells <$> data) with
      | Some r => Printed r
      | None => Stopped
      end
  end.

End Script.

(** A valid row, written back as the cells of a line. *)
Definition as_cells (r : row) : cell * cell * cell :=
  (Some (col0 r), Some (col1 r), Some (col2 r)).

(** The conditions of [data_validation] on the numbers of a line. *)
Definition within_bounds (r : row) : bool :=
  ((0 <=? col0 r) && (col0 r <=? 1) && ((0 <=? col1 r) && (col1 r <=? V_0))
   && (0 <? col2 r))%float.

End ThicknessFile.

(** *** Assessment 3: the mesh and the errors on the parameters *)

Module DecayMesh.

Import Double Decay.

Local Open Scope float_scope.

(** A reference [np.linspace], computed as numpy does: the integers below
    [num] times the step, plus [start], and the last sample set to [stop]
    itself. *)
Definition linspace (start stop : float) (num : nat) : list float :=
  let div := (Z.of_nat num - 1)%Z in
  let start := start * 1 in
  let stop := stop * 1 in
  let delta := stop - start in
  let y := map (fun k => of_int (Z.of_nat k)) (seq 0 num) in
  let y :=
    if (0 <? div)%Z then
      let step := delta / of_int div in
      if step =? 0 then map (fun v => v / of_int div * delta) y
      else map (fun v => v * step) y
    else map (fun v => v * delta) y in
  let y := map (fun v => v + start) y in
  if (1 <? Z.of_nat num)%Z then <[pred num := stop]> y else y.

(** [np.meshgrid(x, y)]: two arrays of [len(y)] rows and [len(x)] columns,
    the first with [x] in every row, the second with [y] in every column. *)
Definition np_meshgrid (x y : list float) : list (list float) * list (list float) :=
  (map (fun _ => x) y, map (fun y_i => map (fun _ => y_i) x) y).

(** [np.maximum] and [np.minimum] on two doubles: a NaN wins. *)
Definition maximum (a b : float) : float :=
  if (b <=? a) || is_nan a then a else b.

Definition minimum (a b : float) : float :=
  if (a <=? b) || is_nan a then a else b.

(** [np.max] and [np.min] over a one-dimensional array; they raise on an
    empty one. *)
Definition np_max (xs : list float) : option float :=
  match xs with
  | [] => None
  | x :: xs' => Some (foldl maximum x xs')
  end.

Definition np_min (xs : list float) : option float :=
  match xs with
  | [] => None
  | x :: xs' => Some (foldl minimum x xs')
  end.

(** [contour] is an array of shape (m, 2). *)
Definition errors_on_parameters (contour : list (float * float))
  : option (float * float) :=
  max_rb ← np_max (map fst contour);
  min_rb ← np_min (map fst contour);
  max_sr ← np_max (map snd contour);
  min_sr ← np_min (map snd contour);
  Some ((max_rb - min_rb) / 2, (max_sr - min_sr) / 2).

(** What half the spread of a column is: NaN when the column holds a NaN,
    and else half of the difference between a value of the column that none
    is above and one that none is below. *)
Definition spread_of (column : list float) (error : float) : Prop :=
  (Exists (fun v => is_nan v = true) column -> is_nan error = true)
  /\ (Forall (fun v => is_nan v = false) column ->
      exists hi lo,
        hi ∈ column /\ lo ∈ column
        /\ Forall (fun v => (lo <=? v) = true /\ (v <=? hi) = true) column
        /\ error = (hi - lo) / 2).

Section Script.

Context {libm : Libm}.

Variable sc_Avogadro : float.

(** [np.linspace(start, stop, num)]: [num] samples from [start] to [stop]. *)
Variable np_linspace : float -> float -> nat -> list float.

(** [data] is an argument the function does not use. *)
Definition decay_constants_mesh
    (decay_constants : float * float) (data : ndarray) (resolution : nat)
  : list (list float) * list (list float) :=
  let decay_constant_rb_range :=
    np_linspace (decay_constants.1 * 19 / 20) (decay_constants.1 * 21 / 20)
                resolution in
  let decay_constant_sr_range :=
    np_linspace (decay_constants.2 * 19 / 20) (decay_constants.2 * 21 / 20)
                resolution in
  np_meshgrid decay_constant_rb_range decay_constant_sr_range.

(** The two loops of [chi_squared_mesh]: [i] over [len(decay_constant_sr)],
    [j] over [len(decay_constant_rb)], both the number of rows of the mesh;
    an index out of range raises. *)
Definition chi_squared_mesh
    (decay_constants_mesh : list (list float) * list (list float))
    (data : ndarray) : option (list (list float)) :=
  let decay_constant_rb := decay_constants_mesh.1 in
  let decay_constant_sr := decay_constants_mesh.2 in
  mapM (fun i =>
          mapM (fun j =>
                  rb ← decay_constant_rb !! i ≫= (.!! j);
                  sr ← decay_constant_sr !! i ≫= (.!! j);
                  Some (chi_squared sc_Avogadro (rb, sr) data))
               (seq 0 (length decay_constant_rb)))
       (seq 0 (length decay_constant_sr)).

End Script.

End DecayMesh.

(** * Properties *)

(** ** The IEEE comparisons

    [<?], [<=?] and [=?] are false as soon as one side is NaN; on numbers
    they form a total preorder. *)

Module DoubleFacts.
Import Double.

Lemma SFcompare_refl (a : spec_float) :
  a <> S754_nan -> SFcompare a a = Some Eq.
Proof.
  destruct a as [s|s| |s m e]; simpl; try congruence; intros _.
  - destruct s; reflexivity.
  - rewrite Z.compare_refl, Pos.compare_cont_refl. destruct s; reflexivity.
Qed.

Lemma SFcompare_None (a b : spec_float) :
  SFcompare a b = None <-> a = S754_nan \/ b = S754_nan.
Proof.
  destruct a as [s|s| |s m e], b as [s'|s'| |s' m' e']; simpl;
    intuition (try discriminate; auto).
Qed.

Lemma SFcompare_antisym (a b : spec_float) :
  SFcompare b a = CompOpp <$> SFcompare a b.
Proof.
  destruct a as [s|s| |s m e], b as [s'|s'| |s' m' e']; simpl; try reflexivity;
    try (destruct s; reflexivity); try (destruct s'; reflexivity);
    try (destruct s, s'; reflexivity).
  destruct s, s'; simpl; try reflexivity;
    rewrite (Z.compare_antisym e e'); destruct (e ?= e')%Z; simpl; try reflexivity;
    pose proof (Pos.compare_cont_antisym m m' Eq) as P; simpl in P; rewrite <- P;
    destruct (Pos.compare_cont Eq m m'); reflexivity.
Qed.

Lemma is_nan_spec (x : float) : is_nan x = true <-> Prim2SF x = S754_nan.
Proof.
  unfold is_nan. rewrite FloatAxioms.eqb_spec. unfold SFeqb. split.
  - destruct (Prim2SF x) eqn:E; trivial; rewrite SFcompare_refl by discriminate; discriminate.
  - intros ->. reflexivity.
Qed.

Lemma is_number_spec (x : float) : is_nan x = false <-> Prim2SF x <> S754_nan.
Proof.
  rewrite <- is_nan_spec. destruct (is_nan x); intuition congruence.
Qed.

Lemma compare_numbers (x y : float) :
  is_nan x = false -> is_nan y = false ->
  exists c, SFcompare (Prim2SF x) (Prim2SF y) = Some c.
Proof.
  rewrite !is_number_spec. intros Hx Hy.
  destruct (SFcompare (Prim2SF x) (Prim2SF y)) as [c|] eqn:E; eauto.
  apply SFcompare_None in E. tauto.
Qed.

Lemma not_ltb_leb (x y : float) :
  is_nan x = false -> is_nan y = false -> (y <? x)%float = false -> (x <=? y)%float = true.
Proof.
  intros Hx Hy. rewrite FloatAxioms.ltb_spec, FloatAxioms.leb_spec. unfold SFltb, SFleb.
  rewrite (SFcompare_antisym (Prim2SF x) (Prim2SF y)).
  destruct (compare_numbers x y Hx Hy) as [c ->]. destruct c; simpl; congruence.
Qed.

Lemma ltb_asym (x y : float) : (x <? y)%float = true -> (y <? x)%float = false.
Proof.
  rewrite !FloatAxioms.ltb_spec. unfold SFltb.
  rewrite (SFcompare_antisym (Prim2SF x) (Prim2SF y)).
  destruct (SFcompare (Prim2SF x) (Prim2SF y)) as [[]|]; simpl; congruence.
Qed.

Lemma ltb_is_number (x y : float) :
  (x <? y)%float = true -> is_nan x = false /\ is_nan y = false.
Proof.
  rewrite FloatAxioms.ltb_spec, !is_number_spec. unfold SFltb.
  destruct (SFcompare (Prim2SF x) (Prim2SF y)) as [c|] eqn:E; try discriminate.
  intros _. split; intros H; rewrite H in E; simpl in E; try discriminate.
  destruct (Prim2SF x); discriminate.
Qed.

Lemma leb_is_number (x y : float) :
  (x <=? y)%float = true -> is_nan x = false /\ is_nan y = false.
Proof.
  rewrite FloatAxioms.leb_spec, !is_number_spec. unfold SFleb.
  destruct (SFcompare (Prim2SF x) (Prim2SF y)) as [c|] eqn:E; try discriminate.
  intros _. split; intros H; rewrite H in E; simpl in E; try discriminate.
  destruct (Prim2SF x); discriminate.
Qed.

Lemma ltb_nan (x y : float) :
  is_nan x = true \/ is_nan y = true -> (x <? y)%float = false.
Proof.
  intros H. destruct (x <? y)%float eqn:E; [|reflexivity].
  apply ltb_is_number in E as [Hx Hy]. destruct H; congruence.
Qed.

Lemma leb_not_ltb (x y : float) : (x <=? y)%float = true -> (y <? x)%float = false.
Proof.
  rewrite FloatAxioms.ltb_spec, FloatAxioms.leb_spec. unfold SFltb, SFleb.
  rewrite (SFcompare_antisym (Prim2SF x) (Prim2SF y)).
  destruct (SFcompare (Prim2SF x) (Prim2SF y)) as [[]|]; simpl; congruence.
Qed.

Lemma abs_not_negative (x : float) : (abs x <? 0)%float = false.
Proof.
  rewrite FloatAxioms.ltb_spec, FloatAxioms.abs_spec. unfold SFltb.
  destruct (Prim2SF x) as [s|s| |s m e]; reflexivity.
Qed.

Lemma abs_nonnegative (x : float) : is_nan x = false -> (0 <=? abs x)%float = true.
Proof.
  rewrite is_number_spec, FloatAxioms.leb_spec, FloatAxioms.abs_spec. unfold SFleb.
  destruct (Prim2SF x) as [s|s| |s m e]; try reflexivity. congruence.
Qed.

Lemma np_lt_asym (a b : float) : np_lt a b = true -> np_lt b a = false.
Proof.
  unfold np_lt. intros H. apply orb_true_iff in H as [H|H].
  - rewrite (ltb_asym _ _ H). apply ltb_is_number in H as [-> _]. reflexivity.
  - apply andb_true_iff in H as [Hb Ha]. apply negb_true_iff in Ha.
    rewrite Hb, Ha. simpl. rewrite orb_false_r.
    destruct (b <? a)%float eqn:E; trivial. apply ltb_is_number in E as [E _]. congruence.
Qed.

End DoubleFacts.

(** ** Signs

    Squares and their sums have the sign bit clear unless they are NaN; a
    quotient takes its sign from both operands; dividing by 0.0 raises
    nothing and gives an infinity or NaN. *)

Module SignFacts.

Import Double DoubleFacts.

Local Open Scope float_scope.

Lemma shr_1_nonneg mrs : (0 <= shr_m mrs)%Z -> (0 <= shr_m (shr_1 mrs))%Z.
Proof.
  destruct mrs as [m r s]. destruct m as [|[p|p|]|[p|p|]]; simpl; lia.
Qed.

Lemma iter_shr_1_nonneg n mrs :
  (0 <= shr_m mrs)%Z -> (0 <= shr_m (SpecFloat.iter_pos shr_1 n mrs))%Z.
Proof.
  revert mrs. induction n as [n IH|n IH|]; intros mrs H; simpl.
  - apply IH, IH, shr_1_nonneg, H.
  - apply IH, IH, H.
  - apply shr_1_nonneg, H.
Qed.

Lemma shr_fexp_nonneg m e l :
  (0 <= m)%Z -> (0 <= shr_m (shr_fexp prec emax m e l).1)%Z.
Proof.
  intros H. unfold shr_fexp, shr.
  assert (H0 : (0 <= shr_m (shr_record_of_loc m l))%Z)
    by (destruct l as [|[]]; exact H).
  destruct (fexp prec emax (Zdigits2 m + e) - e)%Z; simpl; trivial.
  apply iter_shr_1_nonneg, H0.
Qed.

Lemma round_nearest_even_nonneg m l :
  (0 <= m)%Z -> (0 <= round_nearest_even m l)%Z.
Proof.
  intros H. destruct l as [|[]]; simpl; try destruct (Z.even m); lia.
Qed.

(** Rounding keeps the sign it is given, and invents no NaN. *)
Lemma binary_round_aux_signed s m e l :
  (0 <= m)%Z ->
  binary_round_aux prec emax s m e l <> S754_nan
  /\ signed s (binary_round_aux prec emax s m e l).
Proof.
  intros H. unfold binary_round_aux.
  pose proof (shr_fexp_nonneg m e l H) as H1.
  destruct (shr_fexp prec emax m e l) as [mrs' e'].
  pose proof (shr_fexp_nonneg _ e' loc_Exact
                (round_nearest_even_nonneg _ (loc_of_shr_record mrs') H1)) as H2.
  destruct (shr_fexp prec emax _ e' loc_Exact) as [mrs'' e''].
  simpl in H2. destruct (shr_m mrs'') as [|p|p]; [| |lia].
  - split; [discriminate|reflexivity].
  - destruct (e'' <=? emax - prec)%Z; split; (discriminate || reflexivity).
Qed.

Lemma SFmul_self_signed x : signed false (SFmul prec emax x x).
Proof.
  destruct x as [s|s| |s m e]; simpl; trivial; try apply xorb_nilpotent.
  rewrite xorb_nilpotent. apply binary_round_aux_signed. lia.
Qed.

Lemma binary_round_signed s m e :
  signed s (binary_round prec emax s m e).
Proof.
  unfold binary_round. destruct (shl_align _ _ _) as [mz ez].
  apply binary_round_aux_signed. lia.
Qed.

Lemma SFadd_signed x y :
  signed false x -> signed false y -> signed false (SFadd prec emax x y).
Proof.
  destruct x as [s|s| |s m e], y as [s'|s'| |s' m' e']; simpl; trivial;
    try (intros -> ->; reflexivity); try (intros _ ->; reflexivity);
    try (intros -> _; reflexivity).
  intros -> ->. simpl. apply binary_round_signed.
Qed.

Lemma SFdiv_signed x s m e :
  signed false x -> signed s (SFdiv prec emax x (S754_finite s m e)).
Proof.
  destruct x as [s'|s'| |s' m' e']; simpl; trivial; try (intros ->; reflexivity).
  intros ->. simpl.
  destruct (SFdiv_core_binary prec emax (Z.pos m') e' (Z.pos m) e) as [[mz ez] lz] eqn:E.
  apply binary_round_aux_signed.
  unfold SFdiv_core_binary in E.
  destruct (Z.div_eucl _ (Z.pos m)) as [q r] eqn:D. injection E as <- _ _.
  match type of D with Z.div_eucl ?a ?b = _ =>
    assert (Ha : (0 <= a)%Z) end.
  { destruct (Z.sub _ _); try lia. apply Z.shiftl_nonneg. lia. }
  match type of D with Z.div_eucl ?a ?b = _ =>
    pose proof (Z.div_pos a b Ha ltac:(lia)) as Hq; unfold Z.div in Hq; rewrite D in Hq end.
  exact Hq.
Qed.

Lemma Prim2SF_zero : Prim2SF 0 = S754_zero false.
Proof. reflexivity. Qed.

Lemma square_signed x : signed false (Prim2SF (square x)).
Proof. unfold square. rewrite mul_spec. apply SFmul_self_signed. Qed.

Lemma np_sum_signed xs :
  Forall (fun x => signed false (Prim2SF x)) xs -> signed false (Prim2SF (np_sum xs)).
Proof.
  unfold np_sum. assert (H0 : signed false (Prim2SF 0)) by reflexivity.
  revert H0. generalize 0. intros acc Hacc H. revert acc Hacc.
  induction H as [|x xs Hx _ IH]; intros acc Hacc; simpl; [exact Hacc|].
  apply IH. rewrite add_spec. apply SFadd_signed; assumption.
Qed.

Lemma div_signed x y s m e :
  signed false (Prim2SF x) -> Prim2SF y = S754_finite s m e ->
  signed s (Prim2SF (x / y)).
Proof. intros Hx Hy. rewrite div_spec, Hy. apply SFdiv_signed, Hx. Qed.

Lemma minus_signed_leb x :
  signed true (Prim2SF x) -> is_nan x = false -> (x <=? 0) = true.
Proof.
  rewrite is_number_spec, FloatAxioms.leb_spec, Prim2SF_zero. unfold SFleb.
  destruct (Prim2SF x) as [s|s| |s m e]; simpl; try congruence; intros ->; reflexivity.
Qed.

Lemma minus_signed_not_positive x :
  signed true (Prim2SF x) -> (0 <? x) = false.
Proof.
  rewrite FloatAxioms.ltb_spec, Prim2SF_zero. unfold SFltb.
  destruct (Prim2SF x) as [s|s| |s m e]; simpl; try congruence; intros ->; reflexivity.
Qed.

Lemma div_zero_not_finite x : is_finite (x / 0) = false.
Proof.
  unfold is_finite. apply negb_false_iff, orb_true_iff.
  pose proof (div_spec x 0) as H. rewrite Prim2SF_zero in H.
  destruct (Prim2SF x) as [s|s| |s m e]; simpl in H.
  1,3: left; apply is_nan_spec; exact H.
  all: right; unfold is_infinity; rewrite FloatAxioms.eqb_spec, FloatAxioms.abs_spec, H; reflexivity.
Qed.

End SignFacts.

(** ** More on doubles

    Which doubles are finite, how NaN spreads through the arithmetic, and
    that [<=?] is a total preorder on numbers. *)

Module FiniteFacts.

Import Double DoubleFacts.

Local Open Scope float_scope.

Lemma is_infinity_spec (x : float) :
  is_infinity x = true <-> exists s, Prim2SF x = S754_infinity s.
Proof.
  unfold is_infinity. rewrite FloatAxioms.eqb_spec, FloatAxioms.abs_spec.
  change (Prim2SF infinity) with (S754_infinity false).
  destruct (Prim2SF x) as [s|s| |s m e]; simpl; split; try discriminate; eauto;
    intros [s' H]; discriminate.
Qed.

Lemma is_finite_spec (x : float) :
  is_finite x = true
  <-> (exists s, Prim2SF x = S754_zero s) \/ (exists s m e, Prim2SF x = S754_finite s m e).
Proof.
  unfold is_finite. rewrite negb_true_iff, orb_false_iff.
  rewrite is_number_spec, <- not_true_iff_false, is_infinity_spec.
  destruct (Prim2SF x) as [s|s| |s m e]; split.
  all: try (intros _; eauto 6; fail).
  all: try (intros [H1 H2]; exfalso; eauto; fail).
  all: try (intros [[s' H]|(s' & m' & e' & H)]; discriminate).
  all: intros _; split; [discriminate | intros [s' H]; discriminate].
Qed.

Lemma is_finite_number (x : float) : is_finite x = true -> is_nan x = false.
Proof.
  unfold is_finite. rewrite negb_true_iff, orb_false_iff. tauto.
Qed.

(** NaN spreads through every operation. *)
Lemma add_nan (x y : float) :
  is_nan x = true \/ is_nan y = true -> is_nan (x + y) = true.
Proof.
  rewrite !is_nan_spec, add_spec. intros [H|H]; rewrite H; [reflexivity|].
  destruct (Prim2SF x); reflexivity.
Qed.

Lemma sub_nan (x y : float) :
  is_nan x = true \/ is_nan y = true -> is_nan (x - y) = true.
Proof.
  rewrite !is_nan_spec, sub_spec. intros [H|H]; rewrite H; [reflexivity|].
  destruct (Prim2SF x); reflexivity.
Qed.

Lemma mul_nan (x y : float) :
  is_nan x = true \/ is_nan y = true -> is_nan (x * y) = true.
Proof.
  rewrite !is_nan_spec, mul_spec. intros [H|H]; rewrite H; [reflexivity|].
  destruct (Prim2SF x); reflexivity.
Qed.

Lemma div_nan (x y : float) :
  is_nan x = true \/ is_nan y = true -> is_nan (x / y) = true.
Proof.
  rewrite !is_nan_spec, div_spec. intros [H|H]; rewrite H; [reflexivity|].
  destruct (Prim2SF x); reflexivity.
Qed.

Lemma abs_nan (x : float) : is_nan x = true -> is_nan (abs x) = true.
Proof. rewrite !is_nan_spec, FloatAxioms.abs_spec. intros ->. reflexivity. Qed.

Lemma np_sum_nan (xs : list float) :
  Exists (fun x => is_nan x = true) xs -> is_nan (np_sum xs) = true.
Proof.
  unfold np_sum. generalize 0. intros acc H. revert acc.
  induction H as [x xs Hx|x xs _ IH]; intros acc; simpl; [|apply IH].
  assert (Hacc : is_nan (acc + x) = true) by (apply add_nan; auto).
  revert Hacc. generalize (acc + x). clear. induction xs as [|y xs IH]; intros acc H; simpl.
  - exact H.
  - apply IH, add_nan. auto.
Qed.

(** A double minus itself is 0.0, or NaN when it is not finite. *)
Lemma SFsub_finite_diag s m e :
  SFsub prec emax (S754_finite s m e) (S754_finite s m e) = S754_zero false.
Proof.
  cbn [SFsub]. cbv zeta.
  assert (D : forall z, IntDef.Z.sub z z = 0%Z) by exact Z.sub_diag.
  rewrite D. reflexivity.
Qed.

Lemma SFsub_diag (a : spec_float) :
  SFsub prec emax a a = S754_zero false \/ SFsub prec emax a a = S754_nan.
Proof.
  destruct a as [s|s| |s m e].
  - left. destruct s; reflexivity.
  - right. destruct s; reflexivity.
  - right. reflexivity.
  - left. apply SFsub_finite_diag.
Qed.

Lemma sub_diag (x : float) : is_finite x = true -> x - x = 0.
Proof.
  intros H. rewrite <- (SF2Prim_Prim2SF (x - x)), sub_spec.
  apply is_finite_spec in H.
  destruct H as [[s H]|(s & m & e & H)]; rewrite H.
  - destruct s; reflexivity.
  - rewrite SFsub_finite_diag. reflexivity.
Qed.

(** [<=?] is a total preorder on numbers. *)
Lemma SFleb_trans (a b c : spec_float) :
  SFleb a b = true -> SFleb b c = true -> SFleb a c = true.
Proof.
  unfold SFleb.
  destruct a as [s1|s1| |s1 m1 e1], b as [s2|s2| |s2 m2 e2], c as [s3|s3| |s3 m3 e3];
    cbn [SFcompare]; try discriminate; try reflexivity;
    try (destruct s1, s2, s3; cbn; congruence).
  all: try (destruct s1, s2; cbn; congruence).
  all: try (destruct s1, s3; cbn; congruence).
  all: try (destruct s2, s3; cbn; congruence).
  all: try (destruct s1; cbn; congruence).
  all: try (destruct s2; cbn; congruence).
  all: try (destruct s3; cbn; congruence).
  change (PosDef.Pos.compare_cont Eq) with Pos.compare.
  destruct s1, s2, s3; try discriminate; try reflexivity;
    destruct (Z.compare_spec e1 e2), (Z.compare_spec e2 e3), (Z.compare_spec e1 e3);
    try discriminate; try reflexivity; try lia;
    destruct (Pos.compare_spec m1 m2), (Pos.compare_spec m2 m3), (Pos.compare_spec m1 m3);
    cbn; try discriminate; try reflexivity; try lia.
Qed.

Lemma leb_trans (x y z : float) :
  (x <=? y) = true -> (y <=? z) = true -> (x <=? z) = true.
Proof. rewrite !FloatAxioms.leb_spec. apply SFleb_trans. Qed.

Lemma leb_refl (x : float) : is_nan x = false -> (x <=? x) = true.
Proof.
  rewrite is_number_spec, FloatAxioms.leb_spec. unfold SFleb. intros H.
  rewrite (SFcompare_refl _ H). reflexivity.
Qed.

Lemma leb_total (x y : float) :
  is_nan x = false -> is_nan y = false -> (x <=? y) = false -> (y <=? x) = true.
Proof.
  intros Hx Hy. rewrite !FloatAxioms.leb_spec. unfold SFleb.
  rewrite (SFcompare_antisym (Prim2SF x) (Prim2SF y)).
  destruct (compare_numbers x y Hx Hy) as [c ->]. destruct c; simpl; congruence.
Qed.

End FiniteFacts.

(** ** Rounding is monotone

    The product of two doubles is the exact product rounded to the nearest
    double.  This section reads that off the bit-level specification, far
    enough to show that multiplying by a positive constant never reverses
    the order of two finite doubles. *)

Module MonotoneFacts.

Import Double Rounding DoubleFacts SignFacts FiniteFacts.

Local Open Scope Z_scope.

(** *** The number of binary digits *)

Lemma digits2_bounds (p : positive) :
  2 ^ (Z.pos (digits2_pos p) - 1) <= Z.pos p < 2 ^ Z.pos (digits2_pos p).
Proof.
  induction p as [p IH|p IH|]; cbn [digits2_pos].
  - rewrite Pos2Z.inj_succ.
    replace (Z.succ (Z.pos (digits2_pos p)) - 1) with (Z.succ (Z.pos (digits2_pos p) - 1)) by lia.
    rewrite !Z.pow_succ_r by lia. lia.
  - rewrite Pos2Z.inj_succ.
    replace (Z.succ (Z.pos (digits2_pos p)) - 1) with (Z.succ (Z.pos (digits2_pos p) - 1)) by lia.
    rewrite !Z.pow_succ_r by lia. lia.
  - simpl. lia.
Qed.

(** *** Shifting right, one bit at a time *)

Lemma iter_pos_nat {A : Type} (f : A -> A) (p : positive) (x : A) :
  SpecFloat.iter_pos f p x = Nat.iter (Pos.to_nat p) f x.
Proof.
  revert x. induction p as [p IH|p IH|]; intros x; cbn [SpecFloat.iter_pos].
  - rewrite !IH, Pos2Nat.inj_xI.
    replace (S (2 * Pos.to_nat p)) with (Pos.to_nat p + S (Pos.to_nat p))%nat by lia.
    rewrite Nat.iter_add, Nat.iter_succ_r. reflexivity.
  - rewrite !IH, Pos2Nat.inj_xO.
    replace (2 * Pos.to_nat p)%nat with (Pos.to_nat p + Pos.to_nat p)%nat by lia.
    rewrite Nat.iter_add. reflexivity.
  - reflexivity.
Qed.

Lemma shr_1_div2 (m : Z) (r s : bool) :
  0 <= m ->
  shr_1 {| shr_m := m; shr_r := r; shr_s := s |}
  = {| shr_m := m / 2; shr_r := Z.odd m; shr_s := r || s |}.
Proof.
  intros Hm. destruct m as [|[p|p|]|p]; try lia; cbn [shr_1].
  - reflexivity.
  - f_equal. change (Z.pos p~1) with (2 * Z.pos p + 1).
    apply Z.div_unique with (r := 1); lia.
  - f_equal. change (Z.pos p~0) with (2 * Z.pos p).
    apply Z.div_unique with (r := 0); lia.
  - reflexivity.
Qed.

Lemma shifted_S (M : Z) (k : nat) :
  0 <= M -> shr_1 (shifted M k) = shifted M (S k).
Proof.
  intros HM. unfold shifted at 1.
  rewrite shr_1_div2 by (apply Z.div_pos; [lia | apply Z.pow_pos_nonneg; lia]).
  unfold shifted. f_equal.
  - rewrite Nat2Z.inj_succ, Z.pow_succ_r by lia.
    rewrite Z.div_div by (try apply Z.pow_pos_nonneg; lia).
    f_equal. lia.
  - destruct k as [|j]; [simpl; rewrite Z.mod_1_r; reflexivity|].
    rewrite (Nat2Z.inj_succ j), Z.pow_succ_r by lia.
    assert (Hp : 0 < 2 ^ Z.of_nat j) by (apply Z.pow_pos_nonneg; lia).
    rewrite (Z.mul_comm 2), Z.rem_mul_r by lia.
    pose proof (Z.mod_pos_bound M (2 ^ Z.of_nat j) Hp) as Hlow.
    rewrite Zodd_mod.
    pose proof (Z.mod_pos_bound (M / 2 ^ Z.of_nat j) 2 ltac:(lia)) as Hbit.
    destruct (Z.eqb_spec ((M / 2 ^ Z.of_nat j) mod 2) 1) as [E|E];
      destruct (Z.eqb_spec (M mod 2 ^ Z.of_nat j) 0) as [E'|E'];
      destruct (Z.eqb_spec (M mod 2 ^ Z.of_nat j
                            + 2 ^ Z.of_nat j * ((M / 2 ^ Z.of_nat j) mod 2)) 0) as [E''|E''];
      try reflexivity; exfalso; nia.
Qed.

Lemma iter_shr_1 (M : Z) (k : nat) :
  0 <= M ->
  Nat.iter k shr_1 {| shr_m := M; shr_r := false; shr_s := false |} = shifted M k.
Proof.
  intros HM. induction k as [|k IH].
  - unfold shifted. simpl. rewrite Z.div_1_r. reflexivity.
  - rewrite Nat.iter_succ, IH. apply shifted_S, HM.
Qed.


(** *** Rounding to nearest even, in integers *)

Lemma round_shifted (M : Z) (k : nat) :
  0 <= M ->
  round_nearest_even (shr_m (shifted M k)) (loc_of_shr_record (shifted M k))
  = rne M (Z.of_nat k).
Proof.
  intros HM. unfold rne. destruct k as [|j].
  - simpl. rewrite Z.mod_1_r, Z.div_1_r. reflexivity.
  - unfold shifted. cbn [shr_m loc_of_shr_record].
    rewrite (Nat2Z.inj_succ j), Z.pow_succ_r by lia.
    assert (Hp : 0 < 2 ^ Z.of_nat j) by (apply Z.pow_pos_nonneg; lia).
    rewrite (Z.mul_comm 2 (2 ^ Z.of_nat j)), Z.rem_mul_r by lia.
    pose proof (Z.mod_pos_bound M (2 ^ Z.of_nat j) Hp) as Hlow.
    rewrite Zodd_mod.
    pose proof (Z.mod_pos_bound (M / 2 ^ Z.of_nat j) 2 ltac:(lia)) as Hbit.
    set (q := M / (2 ^ Z.of_nat j * 2)).
    destruct (Z.eqb_spec ((M / 2 ^ Z.of_nat j) mod 2) 1) as [E|E];
      destruct (Z.eqb_spec (M mod 2 ^ Z.of_nat j) 0) as [E'|E'];
      cbn [negb round_nearest_even];
      match goal with |- context [?a ?= ?b] => destruct (Z.compare_spec a b) end;
      try reflexivity; exfalso; nia.
Qed.

(** The first half of [binary_round_aux]: the mantissa is shifted to the
    exponent of the result and rounded. *)
Lemma shr_fexp_round (m : positive) (e : Z) :
  let n := fexp prec emax (Z.pos (digits2_pos m) + e) - e in
  0 <= n ->
  let mrs_e := shr_fexp prec emax (Z.pos m) e loc_Exact in
  round_nearest_even (shr_m mrs_e.1) (loc_of_shr_record mrs_e.1) = rne (Z.pos m) n
  /\ mrs_e.2 = e + n.
Proof.
  intros n Hn. unfold shr_fexp. cbn [Zdigits2 shr_record_of_loc]. fold n.
  destruct n as [|p|p] eqn:E; [| |lia]; cbn [shr fst snd].
  - split; [|lia]. unfold rne. simpl. rewrite Z.mod_1_r, Z.div_1_r. reflexivity.
  - rewrite iter_pos_nat, iter_shr_1 by lia. split; [|reflexivity].
    rewrite round_shifted by lia. rewrite positive_nat_Z. reflexivity.
Qed.


(** *** The result of rounding *)

Lemma fexp_eq (x : Z) : fexp prec emax x = Z.max (x - 53) (-1074).
Proof. reflexivity. Qed.

Lemma rne_bounds (M n : Z) : M / 2 ^ n <= rne M n <= M / 2 ^ n + 1.
Proof.
  unfold rne. destruct (2 * (M mod 2 ^ n) ?= 2 ^ n); try destruct (Z.even _); lia.
Qed.

Lemma shr_fexp_renormalise (s : bool) (r E : Z) :
  0 <= r <= 2 ^ 53 -> -1074 <= E ->
  (let '(mrs, e) := shr_fexp prec emax r E loc_Exact in
   match shr_m mrs with
   | 0 => S754_zero s
   | Z.pos m => if e <=? emax - prec then S754_finite s m e else S754_infinity s
   | Z.neg _ => S754_nan
   end) = rounded s r E.
Proof.
  intros Hr HE. unfold shr_fexp, rounded. rewrite fexp_eq.
  destruct (Z.eqb_spec r 0) as [->|Hr0].
  { simpl Zdigits2. cbn [shr_record_of_loc].
    destruct (Z.max (0 + E - 53) (-1074) - E) eqn:En; try lia; reflexivity. }
  destruct (Z.ltb_spec r (2 ^ 53)) as [Hlt|Hge].
  - destruct r as [|p|p]; try lia. cbn [Zdigits2 shr_record_of_loc].
    pose proof (digits2_bounds p) as [Hd _].
    assert (Z.pos (digits2_pos p) <= 53).
    { destruct (Z.le_gt_cases (Z.pos (digits2_pos p)) 53) as [|Hbig]; trivial.
      exfalso. assert (2 ^ 53 <= 2 ^ (Z.pos (digits2_pos p) - 1))
        by (apply Z.pow_le_mono_r; lia). lia. }
    destruct (Z.max (Z.pos (digits2_pos p) + E - 53) (-1074) - E) eqn:En; try lia;
      cbn [shr shr_m]; rewrite Pos2Z.id; reflexivity.
  - assert (r = 2 ^ 53) by lia. subst r.
    change (Zdigits2 (2 ^ 53)) with 54.
    replace (Z.max (54 + E - 53) (-1074) - E) with 1 by lia.
    reflexivity.
Qed.

(** [binary_round_aux] on an exact mantissa that has to be shifted right:
    the mantissa is divided by the power of two that brings it to the
    exponent of the result, and rounded to nearest even. *)
Lemma binary_round_aux_rounded (s : bool) (m : positive) (e : Z) :
  let E := fexp prec emax (Z.pos (digits2_pos m) + e) in
  e <= E ->
  binary_round_aux prec emax s (Z.pos m) e loc_Exact
  = rounded s (rne (Z.pos m) (E - e)) E.
Proof.
  intros E HE. unfold binary_round_aux.
  pose proof (shr_fexp_round m e) as H. cbv zeta in H. fold E in H.
  specialize (H ltac:(lia)).
  destruct (shr_fexp prec emax (Z.pos m) e loc_Exact) as [mrs' e'].
  cbn [fst snd] in H. destruct H as [-> ->].
  replace (e + (E - e)) with E by lia.
  apply shr_fexp_renormalise.
  - pose proof (rne_bounds (Z.pos m) (E - e)) as Hb.
    pose proof (digits2_bounds m) as [_ Hd].
    assert (Hpos : 0 < 2 ^ (E - e)) by (apply Z.pow_pos_nonneg; lia).
    assert (0 <= Z.pos m / 2 ^ (E - e)) by (apply Z.div_pos; lia).
    assert (Z.pos m / 2 ^ (E - e) < 2 ^ 53).
    { apply Z.div_lt_upper_bound; trivial.
      rewrite <- Z.pow_add_r by lia.
      eapply Z.lt_le_trans; [exact Hd|]. apply Z.pow_le_mono_r; [lia|].
      unfold E. rewrite fexp_eq. lia. }
    lia.
  - unfold E. rewrite fexp_eq. lia.
Qed.


(** *** Rounding keeps the order *)

Lemma rne_mono (M1 M2 n : Z) :
  0 <= n -> 0 <= M1 <= M2 -> rne M1 n <= rne M2 n.
Proof.
  intros Hn HM.
  assert (Hp : 0 < 2 ^ n) by (apply Z.pow_pos_nonneg; lia).
  pose proof (Z.div_le_mono M1 M2 (2 ^ n) Hp ltac:(lia)) as Hq.
  pose proof (rne_bounds M1 n) as B1. pose proof (rne_bounds M2 n) as B2.
  destruct (Z.eq_dec (M1 / 2 ^ n) (M2 / 2 ^ n)) as [E|E]; [|lia].
  pose proof (Z.div_mod M1 (2 ^ n) ltac:(lia)) as D1.
  pose proof (Z.div_mod M2 (2 ^ n) ltac:(lia)) as D2.
  rewrite E in D1. clear B1 B2 Hq.
  unfold rne. rewrite E.
  destruct (Z.compare_spec (2 * (M1 mod 2 ^ n)) (2 ^ n));
    destruct (Z.compare_spec (2 * (M2 mod 2 ^ n)) (2 ^ n));
    destruct (Z.even (M2 / 2 ^ n)); lia.
Qed.

Lemma rne_scale (M n k : Z) :
  0 <= n -> 0 <= k -> rne (M * 2 ^ k) (n + k) = rne M n.
Proof.
  intros Hn Hk.
  assert (Hp : 0 < 2 ^ n) by (apply Z.pow_pos_nonneg; lia).
  assert (Hp' : 0 < 2 ^ k) by (apply Z.pow_pos_nonneg; lia).
  unfold rne. rewrite Z.pow_add_r by lia.
  rewrite Z.div_mul_cancel_r by lia.
  rewrite Z.mul_mod_distr_r by lia.
  destruct (Z.compare_spec (2 * (M mod 2 ^ n * 2 ^ k)) (2 ^ n * 2 ^ k));
    destruct (Z.compare_spec (2 * (M mod 2 ^ n)) (2 ^ n));
    try reflexivity; exfalso; nia.
Qed.

(** The order of two results, of the same sign.  With the sign set the
    order is that of the opposites. *)
Lemma rounded_same_exponent (r1 r2 E : Z) :
  0 <= r1 <= r2 -> r2 <= 2 ^ 53 ->
  SFleb (rounded false r1 E) (rounded false r2 E) = true
  /\ SFleb (rounded true r2 E) (rounded true r1 E) = true.
Proof.
  intros Hr Hr2. unfold rounded, SFleb.
  destruct (Z.eqb_spec r1 0) as [E1|E1]; destruct (Z.eqb_spec r2 0) as [E2|E2];
    try lia;
    destruct (Z.ltb_spec r1 (2 ^ 53)); destruct (Z.ltb_spec r2 (2 ^ 53)); try lia;
    destruct (E <=? emax - prec) eqn:B; destruct (E + 1 <=? emax - prec) eqn:B';
    cbn [SFcompare]; auto;
    try (apply Z.leb_le in B'; apply Z.leb_gt in B; lia);
    rewrite ?Z.compare_refl;
    try (replace (E ?= E + 1) with Lt by (symmetry; apply Z.compare_lt_iff; lia));
    try (replace (E + 1 ?= E) with Gt by (symmetry; apply Z.compare_gt_iff; lia));
    auto;
    change (PosDef.Pos.compare_cont Eq) with Pos.compare;
    try (rewrite !Pos.compare_refl; auto; fail);
    destruct (Pos.compare_spec (Z.to_pos r1) (Z.to_pos r2));
    destruct (Pos.compare_spec (Z.to_pos r2) (Z.to_pos r1));
    cbn; auto; exfalso; lia.
Qed.

Lemma rounded_lower_exponent (r1 r2 E1 E2 : Z) :
  E1 < E2 -> 0 <= r1 <= 2 ^ 53 -> 2 ^ 52 <= r2 <= 2 ^ 53 ->
  SFleb (rounded false r1 E1) (rounded false r2 E2) = true
  /\ SFleb (rounded true r2 E2) (rounded true r1 E1) = true.
Proof.
  intros HE Hr1 Hr2. unfold rounded, SFleb.
  destruct (Z.eqb_spec r2 0) as [E2'|_]; [lia|].
  destruct (Z.eqb_spec r1 0) as [_|_];
    destruct (Z.ltb_spec r1 (2 ^ 53)); destruct (Z.ltb_spec r2 (2 ^ 53));
    destruct (Z.leb_spec E1 (emax - prec)); destruct (Z.leb_spec (E1 + 1) (emax - prec));
    destruct (Z.leb_spec E2 (emax - prec)); destruct (Z.leb_spec (E2 + 1) (emax - prec));
    try lia; cbn [SFcompare]; auto;
    try (replace (E1 ?= E2) with Lt by (symmetry; apply Z.compare_lt_iff; lia));
    try (replace (E2 ?= E1) with Gt by (symmetry; apply Z.compare_gt_iff; lia));
    try (replace (E1 ?= E2 + 1) with Lt by (symmetry; apply Z.compare_lt_iff; lia));
    try (replace (E2 + 1 ?= E1) with Gt by (symmetry; apply Z.compare_gt_iff; lia));
    try (replace (E1 + 1 ?= E2 + 1) with Lt by (symmetry; apply Z.compare_lt_iff; lia));
    try (replace (E2 + 1 ?= E1 + 1) with Gt by (symmetry; apply Z.compare_gt_iff; lia));
    auto;
    destruct (Z.compare_spec (E1 + 1) E2); destruct (Z.compare_spec E2 (E1 + 1));
    try lia; auto;
    change (PosDef.Pos.compare_cont Eq) with Pos.compare;
    destruct (Pos.compare_spec (Z.to_pos (2 ^ 52)) (Z.to_pos r2));
    destruct (Pos.compare_spec (Z.to_pos r2) (Z.to_pos (2 ^ 52)));
    cbn; auto; exfalso; lia.
Qed.


(** The rounded mantissa has at most 53 bits, and exactly 53 above the
    subnormal range (or it is 2^53, to be renormalised). *)
Lemma rne_mantissa_bounds (m : positive) (e : Z) :
  let E := fexp prec emax (Z.pos (digits2_pos m) + e) in
  e <= E ->
  0 <= rne (Z.pos m) (E - e) <= 2 ^ 53
  /\ (-1074 < E -> 2 ^ 52 <= rne (Z.pos m) (E - e)).
Proof.
  intros E HE.
  pose proof (rne_bounds (Z.pos m) (E - e)) as Hb.
  pose proof (digits2_bounds m) as [Hd' Hd].
  assert (Hpos : 0 < 2 ^ (E - e)) by (apply Z.pow_pos_nonneg; lia).
  assert (0 <= Z.pos m / 2 ^ (E - e)) by (apply Z.div_pos; lia).
  assert (Z.pos m / 2 ^ (E - e) < 2 ^ 53).
  { apply Z.div_lt_upper_bound; trivial.
    rewrite <- Z.pow_add_r by lia.
    eapply Z.lt_le_trans; [exact Hd|]. apply Z.pow_le_mono_r; [lia|].
    unfold E. rewrite fexp_eq. lia. }
  split; [lia|]. intros Hnormal.
  assert (2 ^ 52 <= Z.pos m / 2 ^ (E - e)); [|lia].
  apply Z.div_le_lower_bound; trivial.
  rewrite <- Z.pow_add_r by lia.
  eapply Z.le_trans; [|exact Hd']. apply Z.pow_le_mono_r; [lia|].
  unfold E in *. rewrite fexp_eq in *. lia.
Qed.

(** Rounding keeps the order of two exact mantissas: the core of the
    monotonicity of the operations. *)
Lemma binary_round_aux_mono (m1 m2 : positive) (e1 e2 : Z) :
  e1 <= fexp prec emax (Z.pos (digits2_pos m1) + e1) ->
  e2 <= fexp prec emax (Z.pos (digits2_pos m2) + e2) ->
  Z.pos m1 * 2 ^ (e1 - Z.min e1 e2) <= Z.pos m2 * 2 ^ (e2 - Z.min e1 e2) ->
  SFleb (binary_round_aux prec emax false (Z.pos m1) e1 loc_Exact)
        (binary_round_aux prec emax false (Z.pos m2) e2 loc_Exact) = true
  /\ SFleb (binary_round_aux prec emax true (Z.pos m2) e2 loc_Exact)
           (binary_round_aux prec emax true (Z.pos m1) e1 loc_Exact) = true.
Proof.
  intros H1 H2 Hle.
  rewrite !binary_round_aux_rounded by assumption.
  pose proof (rne_mantissa_bounds m1 e1 H1) as [B1 _].
  pose proof (rne_mantissa_bounds m2 e2 H2) as [B2 N2].
  pose proof (digits2_bounds m1) as [D1 _].
  pose proof (digits2_bounds m2) as [_ D2].
  set (d1 := Z.pos (digits2_pos m1)) in *. set (d2 := Z.pos (digits2_pos m2)) in *.
  set (e0 := Z.min e1 e2) in *.
  assert (Hmag : d1 + e1 <= d2 + e2).
  { assert (P1 : 0 < 2 ^ (e1 - e0)) by (apply Z.pow_pos_nonneg; lia).
    assert (P2 : 0 < 2 ^ (e2 - e0)) by (apply Z.pow_pos_nonneg; lia).
    assert (2 ^ (d1 - 1 + (e1 - e0)) < 2 ^ (d2 + (e2 - e0))).
    { rewrite !Z.pow_add_r by lia. nia. }
    apply Z.pow_lt_mono_r_iff in H; lia. }
  rewrite !fexp_eq in *.
  destruct (Z.eq_dec (Z.max (d1 + e1 - 53) (-1074)) (Z.max (d2 + e2 - 53) (-1074)))
    as [HE|HE].
  - rewrite HE in *. set (E := Z.max (d2 + e2 - 53) (-1074)) in *.
    apply rounded_same_exponent; [|lia]. split; [lia|].
    rewrite <- (rne_scale (Z.pos m1) (E - e1) (e1 - e0)) by lia.
    rewrite <- (rne_scale (Z.pos m2) (E - e2) (e2 - e0)) by lia.
    replace (E - e1 + (e1 - e0)) with (E - e0) by lia.
    replace (E - e2 + (e2 - e0)) with (E - e0) by lia.
    apply rne_mono; [lia|]. split; [|exact Hle].
    apply Z.mul_nonneg_nonneg; [lia|]. apply Z.pow_nonneg. lia.
  - apply rounded_lower_exponent; [lia | lia |]. split; [|lia]. apply N2. lia.
Qed.


(** *** Doubles in canonical form

    [Prim2SF] gives every finite double with the mantissa and exponent of
    its canonical form, in which the order of two doubles of the same sign
    is that of their values. *)

Lemma canonical_bounds (m : positive) (e : Z) :
  bounded prec emax m e = true ->
  -1074 <= e /\ Z.pos (digits2_pos m) <= 53
  /\ (-1074 < e -> Z.pos (digits2_pos m) = 53).
Proof.
  unfold bounded, canonical_mantissa. rewrite andb_true_iff, Z.eqb_eq, fexp_eq. lia.
Qed.

Lemma canonical_le (m1 m2 : positive) (e1 e2 : Z) :
  bounded prec emax m1 e1 = true -> bounded prec emax m2 e2 = true ->
  SFleb (S754_finite false m1 e1) (S754_finite false m2 e2) = true ->
  Z.pos m1 * 2 ^ (e1 - Z.min e1 e2) <= Z.pos m2 * 2 ^ (e2 - Z.min e1 e2).
Proof.
  intros C1 C2. apply canonical_bounds in C1 as (L1 & D1 & _).
  apply canonical_bounds in C2 as (L2 & _ & N2).
  pose proof (digits2_bounds m1) as [_ B1]. pose proof (digits2_bounds m2) as [B2 _].
  unfold SFleb. cbn [SFcompare].
  change (PosDef.Pos.compare_cont Eq) with Pos.compare.
  destruct (Z.compare_spec e1 e2) as [->|Hlt|Hgt]; [| |discriminate].
  - rewrite Z.min_id, Z.sub_diag, Z.pow_0_r.
    destruct (Pos.compare_spec m1 m2); try discriminate; lia.
  - intros _. rewrite Z.min_l, Z.sub_diag, Z.pow_0_r by lia.
    rewrite N2 in B2 by lia.
    assert (Z.pos m1 < 2 ^ 53).
    { eapply Z.lt_le_trans; [exact B1|]. apply Z.pow_le_mono_r; lia. }
    assert (2 ^ 1 <= 2 ^ (e2 - e1)) by (apply Z.pow_le_mono_r; lia).
    change (2 ^ (53 - 1)) with (2 ^ 52) in B2. change (2 ^ 1) with 2 in *.
    change (2 ^ 53) with (2 * 2 ^ 52) in *. nia.
Qed.

Lemma SFleb_opposites (m1 m2 : positive) (e1 e2 : Z) :
  SFleb (S754_finite true m1 e1) (S754_finite true m2 e2)
  = SFleb (S754_finite false m2 e2) (S754_finite false m1 e1).
Proof.
  unfold SFleb. rewrite (SFcompare_antisym (S754_finite false m1 e1)).
  cbn [SFcompare]. destruct (e1 ?= e2); try reflexivity;
    cbn; destruct (PosDef.Pos.compare_cont Eq m1 m2); reflexivity.
Qed.

(** The shapes of a rounded result. *)
Lemma rounded_shape (s : bool) (r E : Z) :
  rounded s r E = S754_zero s \/ rounded s r E = S754_infinity s
  \/ exists m e, rounded s r E = S754_finite s m e.
Proof.
  unfold rounded. destruct (r =? 0); [auto|].
  destruct (r <? 2 ^ 53); [destruct (E <=? _) | destruct (E + 1 <=? _)]; eauto.
Qed.

(** *** Multiplying by a positive constant *)

Section Constant.

(** A positive normal double, such as 3600. *)
Variables (mc : positive) (ec : Z).
Hypothesis normal : Z.pos (digits2_pos mc) = 53.

Lemma product_shifts (m : positive) (e : Z) :
  e + ec <= fexp prec emax (Z.pos (digits2_pos (m * mc)) + (e + ec)).
Proof.
  rewrite fexp_eq.
  pose proof (digits2_bounds mc) as [B _]. rewrite normal in B.
  pose proof (digits2_bounds (m * mc)) as [_ B'].
  assert (53 <= Z.pos (digits2_pos (m * mc))).
  { destruct (Z.le_gt_cases 53 (Z.pos (digits2_pos (m * mc)))) as [|Hsmall]; trivial.
    exfalso.
    assert (2 ^ Z.pos (digits2_pos (m * mc)) <= 2 ^ 52) by (apply Z.pow_le_mono_r; lia).
    change (2 ^ (53 - 1)) with (2 ^ 52) in B. rewrite Pos2Z.inj_mul in B'. nia. }
  lia.
Qed.

Lemma SFmul_shape (s : bool) (m : positive) (e : Z) :
  let p := SFmul prec emax (S754_finite s m e) (S754_finite false mc ec) in
  p = S754_zero s \/ p = S754_infinity s \/ exists m' e', p = S754_finite s m' e'.
Proof.
  cbn [SFmul]. rewrite xorb_false_r.
  rewrite binary_round_aux_rounded by apply product_shifts. apply rounded_shape.
Qed.

Lemma SFmul_mono (x y : spec_float) :
  SpecFloat.valid_binary prec emax x = true ->
  SpecFloat.valid_binary prec emax y = true ->
  (forall s, x <> S754_infinity s) -> (forall s, y <> S754_infinity s) ->
  SFleb x y = true ->
  SFleb (SFmul prec emax x (S754_finite false mc ec))
        (SFmul prec emax y (S754_finite false mc ec)) = true.
Proof.
  intros Vx Vy Fx Fy.
  destruct x as [sx|sx| |sx mx ex]; try (exfalso; eapply Fx; reflexivity);
    try discriminate;
    destruct y as [sy|sy| |sy my ey]; try (exfalso; eapply Fy; reflexivity);
    try discriminate.
  - intros _. reflexivity.
  - destruct sy; [discriminate|]. intros _.
    pose proof (SFmul_shape false my ey) as H. cbv zeta in H.
    change (SFmul prec emax (S754_zero sx) (S754_finite false mc ec))
      with (S754_zero (xorb sx false)).
    destruct H as [-> |[-> |(m' & e' & ->)]]; reflexivity.
  - destruct sx; [|discriminate]. intros _.
    pose proof (SFmul_shape true mx ex) as H. cbv zeta in H.
    change (SFmul prec emax (S754_zero sy) (S754_finite false mc ec))
      with (S754_zero (xorb sy false)).
    destruct H as [-> |[-> |(m' & e' & ->)]]; reflexivity.
  - cbn [SpecFloat.valid_binary] in Vx, Vy. destruct sx, sy.
    + rewrite SFleb_opposites. intros H.
      pose proof (canonical_le _ _ _ _ Vy Vx H) as Hle.
      cbn [SFmul xorb].
      apply (binary_round_aux_mono (my * mc) (mx * mc) (ey + ec) (ex + ec));
        try apply product_shifts.
      rewrite !Pos2Z.inj_mul. replace (Z.min (ey + ec) (ex + ec)) with (Z.min ey ex + ec) by lia.
      replace (ey + ec - (Z.min ey ex + ec)) with (ey - Z.min ey ex) by lia.
      replace (ex + ec - (Z.min ey ex + ec)) with (ex - Z.min ey ex) by lia.
      nia.
    + intros _.
      pose proof (SFmul_shape true mx ex) as H. cbv zeta in H.
      pose proof (SFmul_shape false my ey) as H'. cbv zeta in H'.
      destruct H as [-> |[-> |(m' & e' & ->)]];
        destruct H' as [-> |[-> |(m'' & e'' & ->)]]; reflexivity.
    + discriminate.
    + intros H. pose proof (canonical_le _ _ _ _ Vx Vy H) as Hle.
      cbn [SFmul xorb].
      apply (binary_round_aux_mono (mx * mc) (my * mc) (ex + ec) (ey + ec));
        try apply product_shifts.
      rewrite !Pos2Z.inj_mul. replace (Z.min (ex + ec) (ey + ec)) with (Z.min ex ey + ec) by lia.
      replace (ex + ec - (Z.min ex ey + ec)) with (ex - Z.min ex ey) by lia.
      replace (ey + ec - (Z.min ex ey + ec)) with (ey - Z.min ex ey) by lia.
      nia.
Qed.

End Constant.

(** Multiplying two finite doubles by 3600 keeps their order, and gives no
    NaN. *)
Lemma Prim2SF_3600 : Prim2SF 3600 = S754_finite false 7916483719987200 (-41).
Proof. reflexivity. Qed.

Lemma finite_no_infinity (x : float) :
  is_finite x = true -> forall s, Prim2SF x <> S754_infinity s.
Proof.
  intros H s E. apply is_finite_spec in H as [[s' H]|(s' & m & e & H)]; congruence.
Qed.

Lemma mul_3600_mono (x y : float) :
  is_finite x = true -> is_finite y = true ->
  (x <=? y)%float = true -> (x * 3600 <=? y * 3600)%float = true.
Proof.
  intros Hx Hy. rewrite !FloatAxioms.leb_spec, !mul_spec, Prim2SF_3600.
  apply (SFmul_mono 7916483719987200 (-41) eq_refl).
  - apply FloatAxioms.Prim2SF_valid.
  - apply FloatAxioms.Prim2SF_valid.
  - apply finite_no_infinity, Hx.
  - apply finite_no_infinity, Hy.
Qed.

Lemma mul_3600_number (x : float) :
  is_finite x = true -> is_nan (x * 3600)%float = false.
Proof.
  intros Hx. apply is_number_spec. rewrite mul_spec, Prim2SF_3600.
  apply is_finite_spec in Hx as [[s ->]|(s & m & e & ->)]; [discriminate|].
  pose proof (SFmul_shape 7916483719987200 (-41) eq_refl s m e) as H. cbv zeta in H.
  unfold SF64mul. destruct H as [-> |[-> |(m' & e' & ->)]]; discriminate.
Qed.

End MonotoneFacts.

(** ** Straight insertion *)

Module SortFacts.

Import Double DoubleFacts.

Section InsertionFacts.

Context {A : Type} (lt : A -> A -> bool).

Lemma insert_Permutation x placed : insert lt x placed ≡ₚ x :: placed.
Proof.
  induction placed as [|y placed IH]; simpl; [reflexivity|].
  destruct (lt x y); [|reflexivity].
  rewrite IH. apply Permutation_swap.
Qed.

Lemma foldl_insert_Permutation l placed :
  foldl (fun placed x => insert lt x placed) placed l ≡ₚ l ++ placed.
Proof.
  revert placed. induction l as [|x l IH]; intros placed; simpl; [reflexivity|].
  rewrite IH, insert_Permutation. symmetry. apply Permutation_middle.
Qed.

Lemma insertion_sort_Permutation l : insertion_sort lt l ≡ₚ l.
Proof.
  unfold insertion_sort. rewrite <- Permutation_rev, foldl_insert_Permutation.
  rewrite app_nil_r. reflexivity.
Qed.

Hypothesis lt_asym : forall x y, lt x y = true -> lt y x = false.

Lemma insert_HdRel z x placed :
  lt z x = false -> HdRel (not_before lt) z placed ->
  HdRel (not_before lt) z (insert lt x placed).
Proof.
  intros Hzx Hz. destruct placed as [|y placed]; simpl; [constructor; exact Hzx|].
  destruct (lt x y); constructor; [|exact Hzx].
  inversion Hz; assumption.
Qed.

Lemma insert_Sorted x placed :
  Sorted (not_before lt) placed -> Sorted (not_before lt) (insert lt x placed).
Proof.
  induction 1 as [|y placed Hs IH Hy]; simpl; [repeat constructor|].
  destruct (lt x y) eqn:E.
  - constructor; [exact IH|]. apply insert_HdRel; [apply lt_asym, E | exact Hy].
  - repeat constructor; assumption.
Qed.

Lemma foldl_insert_Sorted l placed :
  Sorted (not_before lt) placed ->
  Sorted (not_before lt) (foldl (fun placed x => insert lt x placed) placed l).
Proof.
  revert placed. induction l as [|x l IH]; intros placed H; simpl; [exact H|].
  apply IH, insert_Sorted, H.
Qed.

(** In the result no element is less than the one before it. *)
Lemma insertion_sort_Sorted l :
  Sorted (flip (not_before lt)) (insertion_sort lt l).
Proof.
  unfold insertion_sort. rewrite rev_alt. apply (Sorted_reverse (not_before lt)).
  apply foldl_insert_Sorted. constructor.
Qed.

End InsertionFacts.

(** Sorting commutes with a map that keeps every comparison. *)
Section MapFacts.

Context {A B : Type} (lt' : A -> A -> bool) (lt : B -> B -> bool) (f : A -> B).

Lemma insert_map x placed :
  (forall y, y ∈ placed -> lt' x y = lt (f x) (f y)) ->
  map f (insert lt' x placed) = insert lt (f x) (map f placed).
Proof.
  induction placed as [|y placed IH]; intros H; simpl; [reflexivity|].
  rewrite <- (H y) by left. destruct (lt' x y); [|reflexivity].
  simpl. rewrite IH; [reflexivity|]. intros z Hz. apply H. right. exact Hz.
Qed.

Lemma foldl_insert_map l placed :
  (forall x y, x ∈ l ++ placed -> y ∈ l ++ placed -> lt' x y = lt (f x) (f y)) ->
  map f (foldl (fun placed x => insert lt' x placed) placed l)
  = foldl (fun placed x => insert lt x placed) (map f placed) (map f l).
Proof.
  revert placed. induction l as [|x l IH]; intros placed H; simpl; [reflexivity|].
  rewrite IH.
  - rewrite insert_map; [reflexivity|].
    intros y Hy. apply H; [left | right; apply elem_of_app; right; exact Hy].
  - intros y z Hy Hz.
    apply H; simpl; rewrite Permutation_middle, <- (insert_Permutation lt'); assumption.
Qed.

Lemma insertion_sort_map l :
  (forall x y, x ∈ l -> y ∈ l -> lt' x y = lt (f x) (f y)) ->
  map f (insertion_sort lt' l) = insertion_sort lt (map f l).
Proof.
  intros H. unfold insertion_sort. rewrite map_rev. f_equal.
  apply (foldl_insert_map l []). rewrite app_nil_r. exact H.
Qed.

End MapFacts.

(** The rows of an array, read by index. *)
Lemma map_nth_seq {A : Type} (a : list A) (d : A) :
  map (fun i => nth i a d) (seq 0 (length a)) = a.
Proof.
  induction a as [|x a IH]; simpl; [reflexivity|].
  f_equal. rewrite <- seq_shift, map_map. exact IH.
Qed.

Lemma take_rows_argsort (a : ndarray) :
  take_rows a (np_argsort (map col0 a)) = insertion_sort earlier a.
Proof.
  unfold take_rows, np_argsort. rewrite length_map.
  rewrite (insertion_sort_map _ earlier); [rewrite map_nth_seq; reflexivity|].
  intros i j _ _. unfold earlier.
  change 0%float with (col0 (0, 0, 0)%float). rewrite !map_nth. reflexivity.
Qed.

End SortFacts.

(** ** Rounding to the nearest integer, ties to even *)

Module RoundingFacts.

Import Double.







(** The integer [round] gives is within one half of the number, and it is
    even when it is exactly one half away. *)
Lemma round_half_even_spec (q : Q) :
  let n := round_half_even q in
  (Qabs (inject_Z n - q) <= 1 # 2)%Q
  /\ ((Qabs (inject_Z n - q) == 1 # 2)%Q -> Z.even n = true).
Proof.
  unfold round_half_even.
  pose proof (Qfloor_le q) as Hlo. pose proof (Qlt_floor q) as Hhi.
  assert (Hp : (inject_Z (Qfloor q + 1) == inject_Z (Qfloor q) + 1)%Q)
    by (rewrite inject_Z_plus; reflexivity).
  rewrite Hp in Hhi.
  destruct (Qcompare_spec (q - inject_Z (Qfloor q)) (1 # 2)) as [E|E|E].
  - destruct (Z.even (Qfloor q)) eqn:Ev.
    + split; [|intros _; exact Ev].
      apply Qabs_Qle_condition. generalize dependent (inject_Z (Qfloor q)).
      intros; split; lra.
    + split.
      * apply Qabs_Qle_condition. rewrite Hp.
        generalize dependent (inject_Z (Qfloor q)). intros; split; lra.
      * intros _. rewrite Z.even_add, Ev. reflexivity.
  - split.
    + apply Qabs_Qle_condition. generalize dependent (inject_Z (Qfloor q)).
      intros; split; lra.
    + intros T. exfalso.
      assert (A : (Qabs (inject_Z (Qfloor q) - q) < 1 # 2)%Q).
      { apply (proj2 (Qabs_Qlt_condition _ _)).
        generalize dependent (inject_Z (Qfloor q)). intros; split; lra. }
      rewrite T in A. revert A. apply Qlt_irrefl.
  - split.
    + apply Qabs_Qle_condition. rewrite Hp.
      generalize dependent (inject_Z (Qfloor q)). intros; split; lra.
    + intros T. exfalso.
      assert (A : (Qabs (inject_Z (Qfloor q + 1) - q) < 1 # 2)%Q).
      { apply (proj2 (Qabs_Qlt_condition _ _)). rewrite Hp.
        generalize dependent (inject_Z (Qfloor q)). intros; split; lra. }
      rewrite T in A. revert A. apply Qlt_irrefl.
Qed.

End RoundingFacts.

(** ** Assessment 1: the bouncy ball *)

Module BounceFacts.

Import Bounce.

Local Open Scope float_scope.

(** The [while] loop, one test at a time. *)
Lemma loop_continue fuel minimum_height efficiency s :
  (minimum_height <=? height s * efficiency) = true ->
  loop (S fuel) minimum_height efficiency s
  = loop fuel minimum_height efficiency (bounce efficiency s).
Proof. intros H. simpl. rewrite H. reflexivity. Qed.

Lemma loop_stop fuel minimum_height efficiency s :
  (minimum_height <=? height s * efficiency) = false ->
  loop fuel minimum_height efficiency s = Some s.
Proof. intros H. destruct fuel; simpl; rewrite H; reflexivity. Qed.

(** C1.  Dropped from 10 with minimum height 1 and efficiency 0.5, the
    inputs are accepted and the ball peaks at 10, 5, 2.5 and 1.25; the loop
    stops there, since 1.25 * 0.5 = 0.625 is below 1.  The bounce count is 3
    and the total time is the sum, over the peaks 10, 5 and 2.5, of
    sqrt(2h/g) + sqrt(2h*0.5/g) with g = 9.80665.  The script plots the four
    peaks, reports these two values and ends.  Three units of fuel are
    enough, and more change nothing. *)
Theorem reference_run (n : nat) :
  let times := [0; 2.4378969697803106; 4.1617504489461039; reference_time] in
  check 10 1 0.5 = Accept
  /\ simulate (3 + n) 10 1 0.5
     = Some {| bounces := 3;
               total_time := reference_time;
               height := 1.25;
               array_heights := [10; 5; 2.5; 1.25];
               array_times := times |}
  /\ main (3 + n) [Some 10; Some 1; Some 0.5]
     = ([Asked ask_initial_height; Asked ask_minimum_height;
         Asked ask_efficiency;
         Plotted times [10; 5; 2.5; 1.25];
         Reported 3 reference_time], Finished)
  /\ 1.25 * 0.5 = 0.625
  /\ (1 <=? 0.625) = false
  /\ reference_time = 5.3806989338362587.
Proof.
  intros times.
  assert (Hrun : simulate (3 + n) 10 1 0.5
                 = Some (bounce 0.5 (bounce 0.5 (bounce 0.5 (initial 10))))).
  { unfold simulate. change (3 + n)%nat with (S (S (S n))).
    rewrite !loop_continue by reflexivity. apply loop_stop. reflexivity. }
  split; [reflexivity|]. split; [rewrite Hrun; reflexivity|].
  split; [|repeat split; reflexivity].
  change (3 + n)%nat with (S (S (S n))) in *.
  cbn [main emit fst snd]. change (check 10 1 0.5) with Accept. cbv iota.
  rewrite Hrun. reflexivity.
Qed.

(** An input triple is turned down exactly when one of the six conditions
    holds, and the message names a condition that does hold. *)
Lemma check_reports h0 hmin e :
  match check h0 hmin e with
  | Reject m => reports m h0 hmin e = true
  | Accept => forall m, reports m h0 hmin e = false
  end.
Proof.
  unfold check.
  destruct ((h0 <=? 0) || (hmin <=? 0)) eqn:E1; [exact E1|].
  destruct (h0 <=? hmin) eqn:E2; [exact E2|].
  destruct (e =? 1) eqn:E3; [exact E3|].
  destruct (e =? 0) eqn:E4; [exact E4|].
  destruct ((1 <? e) || (e <? 0)) eqn:E5; [exact E5|].
  destruct (h0 * e <? hmin) eqn:E6; [exact E6|].
  intros []; simpl; assumption || reflexivity.
Qed.

Lemma check_Reject h0 hmin e m :
  reports m h0 hmin e = true ->
  exists m', check h0 hmin e = Reject m' /\ reports m' h0 hmin e = true.
Proof.
  intros Hm. pose proof (check_reports h0 hmin e) as H.
  destruct (check h0 hmin e) as [m'|]; [eauto|].
  rewrite H in Hm. discriminate.
Qed.

(** One attempt that is turned down: its prompts and its message appear,
    and the script starts over on the lines that follow. *)
Lemma main_retry fuel a m rest :
  turned_down a = Some m ->
  main fuel (typed a ++ rest)
  = ((prompts a ++ [Said m]) ++ (main fuel rest).1, (main fuel rest).2).
Proof.
  destruct a as [|h0|h0 hmin|h0 hmin e]; cbn [typed turned_down prompts app];
    intros H.
  1-3: injection H as <-; reflexivity.
  destruct (check h0 hmin e) as [m'|] eqn:E; [|discriminate].
  injection H as <-. cbn [main]. rewrite E. reflexivity.
Qed.

Lemma main_retries fuel attempts rest :
  Forall (fun a => is_Some (turned_down a)) attempts ->
  main fuel (concat (typed <$> attempts) ++ rest)
  = (concat (transcript <$> attempts) ++ (main fuel rest).1, (main fuel rest).2).
Proof.
  induction 1 as [|a attempts [m Hm] _ IH].
  - cbn. destruct (main fuel rest); reflexivity.
  - rewrite !fmap_cons. cbn [concat].
    rewrite <- app_assoc, (main_retry _ _ _ _ Hm), IH. cbn [fst snd].
    unfold transcript. rewrite Hm, <- !app_assoc. reflexivity.
Qed.

(** The messages are told apart by their text. *)
Lemma text_inj m m' : text m = text m' -> m = m'.
Proof. destruct m, m'; simpl; intros H; try reflexivity; discriminate H. Qed.

(** An efficiency that is a number and lies outside (0, 1) makes one of
    the script's four comparisons on the efficiency true. *)
Lemma outside_unit_interval (e : float) :
  is_nan e = false -> ((0 <? e) && (e <? 1)) = false ->
  (e =? 1) = true \/ (e =? 0) = true \/ (1 <? e) = true \/ (e <? 0) = true.
Proof.
  intros He. rewrite andb_false_iff.
  rewrite !FloatAxioms.ltb_spec, !FloatAxioms.eqb_spec. unfold SFltb, SFeqb.
  rewrite (DoubleFacts.SFcompare_antisym (Prim2SF e) (Prim2SF 0)).
  rewrite (DoubleFacts.SFcompare_antisym (Prim2SF e) (Prim2SF 1)).
  destruct (DoubleFacts.compare_numbers e 0 He eq_refl) as [c0 ->].
  destruct (DoubleFacts.compare_numbers e 1 He eq_refl) as [c1 ->].
  destruct c0, c1; simpl; intuition congruence.
Qed.

(** C8, as the code has it.  Whenever one of the conditions the script
    checks holds of an input triple (a height not above 0, a minimum height
    not below the initial one, an efficiency equal to 1 or to 0, above 1 or
    below 0, or initial height times efficiency below the minimum height:
    each the IEEE comparison of the script, false when an operand is NaN),
    the triple is turned down with a message whose own condition holds; an
    efficiency that is a number and lies outside (0, 1) always makes one
    of them hold; a line that is no float is turned down with the message
    about floats.  However many attempts are turned down in a row, the
    screen shows for each its prompts and its message and nothing else (no
    plot, no report: the simulation did not run), and the script goes on as
    if started afresh on the lines that follow; a triple that passes every
    check then runs the simulation and ends the script. *)
Theorem input_rejection fuel attempts rest :
  Forall (fun a => is_Some (turned_down a)) attempts ->
  (forall h0 hmin e m,
      reports m h0 hmin e = true ->
      exists m', turned_down (triple h0 hmin e) = Some m'
                 /\ reports m' h0 hmin e = true)
  /\ (forall h0 hmin e,
        is_nan e = false -> ((0 <? e) && (e <? 1)) = false ->
        exists m', turned_down (triple h0 hmin e) = Some m'
                   /\ reports m' h0 hmin e = true)
  /\ turned_down no_float_1 = Some inputs_not_floats
  /\ (forall h0, turned_down (no_float_2 h0) = Some inputs_not_floats)
  /\ (forall h0 hmin, turned_down (no_float_3 h0 hmin) = Some inputs_not_floats)
  /\ main fuel (concat (typed <$> attempts) ++ rest)
     = (concat (transcript <$> attempts) ++ (main fuel rest).1, (main fuel rest).2)
  /\ Forall (fun o => match o with Asked _ | Said _ => True | _ => False end)
            (concat (transcript <$> attempts))
  /\ (forall h0 hmin e s,
        check h0 hmin e = Accept ->
        simulate fuel h0 hmin e = Some s ->
        main fuel (concat (typed <$> attempts) ++ typed (triple h0 hmin e))
        = (concat (transcript <$> attempts) ++ prompts (triple h0 hmin e) ++ results s,
           Finished)).
Proof.
  intros Hdown.
  assert (Hreports : forall h0 hmin e m,
             reports m h0 hmin e = true ->
             exists m', turned_down (triple h0 hmin e) = Some m'
                        /\ reports m' h0 hmin e = true).
  { intros h0 hmin e m Hm. destruct (check_Reject _ _ _ _ Hm) as (m' & E & Hm').
    exists m'. simpl. rewrite E. auto. }
  split; [exact Hreports|]. split.
  { intros h0 hmin e He Hout.
    destruct (outside_unit_interval e He Hout) as [H|[H|[H|H]]].
    - apply (Hreports h0 hmin e bounces_indefinitely). exact H.
    - apply (Hreports h0 hmin e does_not_bounce). exact H.
    - apply (Hreports h0 hmin e efficiency_out_of_range). simpl. rewrite H. reflexivity.
    - apply (Hreports h0 hmin e efficiency_out_of_range). simpl. rewrite H.
      apply orb_true_r. }
  repeat split.
  - apply main_retries, Hdown.
  - apply Forall_concat, Forall_fmap. eapply Forall_impl; [exact Hdown|].
    intros a [m Hm]. unfold compose, transcript. rewrite Hm. apply Forall_app. split.
    + destruct a; repeat constructor.
    + repeat constructor.
  - intros h0 hmin e s Hcheck Hsim. rewrite (main_retries _ _ _ Hdown).
    cbn [typed main]. rewrite Hcheck, Hsim. reflexivity.
Qed.

Lemma input_rejection_witness :
  let attempts := [no_float_1; triple 10 1 1; no_float_3 10 1; triple 1 10 0.5] in
  let s := {| bounces := 3;
              total_time := 5.3806989338362587;
              height := 1.25;
              array_heights := [10; 5; 2.5; 1.25];
              array_times := [0; 2.4378969697803106; 4.1617504489461039;
                              5.3806989338362587] |} in
  Forall (fun a => is_Some (turned_down a)) attempts
  /\ (exists m, turned_down (triple 10 1 1.5) = Some m /\ reports m 10 1 1.5 = true)
  /\ main 3 (concat (typed <$> attempts) ++ typed (triple 10 1 0.5))
     = (concat (transcript <$> attempts) ++ prompts (triple 10 1 0.5) ++ results s,
        Finished).
Proof.
  intros attempts s.
  assert (Hdown : Forall (fun a => is_Some (turned_down a)) attempts).
  { repeat constructor; eexists; vm_compute; reflexivity. }
  split; [exact Hdown|].
  destruct (input_rejection 3 attempts [] Hdown) as (_ & Hout & _ & _ & _ & _ & _ & H).
  split; [exact (Hout 10 1 1.5 eq_refl eq_refl)|].
  exact (H 10 1 0.5 s eq_refl eq_refl).
Defined.

(** The claim counts every efficiency outside (0, 1) as turned down.  NaN
    is outside (0, 1), and [float] accepts the line "nan"; but every
    comparison with NaN is false, so the triple passes all six checks: no
    message, no new prompt, and the script ends on a run of no bounce. *)
Lemma input_rejection_nan :
  ((0 <? nan) && (nan <? 1)) = false
  /\ check 10 1 nan = Accept
  /\ turned_down (triple 10 1 nan) = None
  /\ main 0 [Some 10; Some 1; Some nan]
     = ([Asked ask_initial_height; Asked ask_minimum_height; Asked ask_efficiency;
         Plotted [0] [10]; Reported 0 0], Finished).
Proof. repeat split; vm_compute; reflexivity. Qed.

(** A NaN efficiency (the user may type "nan", which [float] accepts)
    fails every comparison of the error checking: the triple is accepted,
    the loop makes no turn, and the script reports no bounce. *)
Lemma nan_efficiency_accepted fuel h0 hmin :
  (h0 <=? 0) = false -> (hmin <=? 0) = false -> (h0 <=? hmin) = false ->
  check h0 hmin nan = Accept
  /\ simulate fuel h0 hmin nan = Some (initial h0)
  /\ main fuel [Some h0; Some hmin; Some nan]
     = ([Asked ask_initial_height; Asked ask_minimum_height; Asked ask_efficiency;
         Plotted [0] [h0]; Reported 0 0], Finished).
Proof.
  intros H1 H2 H3.
  assert (Hnan : Prim2SF (h0 * nan) = S754_nan).
  { rewrite mul_spec. change (Prim2SF nan) with S754_nan.
    destruct (Prim2SF h0); reflexivity. }
  assert (Hlt : (h0 * nan <? hmin) = false).
  { rewrite FloatAxioms.ltb_spec, Hnan. reflexivity. }
  assert (Hle : (hmin <=? h0 * nan) = false).
  { rewrite FloatAxioms.leb_spec, Hnan. unfold SFleb.
    destruct (Prim2SF hmin); reflexivity. }
  assert (Hcheck : check h0 hmin nan = Accept).
  { unfold check. rewrite H1, H2, H3, Hlt. reflexivity. }
  assert (Hsim : simulate fuel h0 hmin nan = Some (initial h0)).
  { unfold simulate. apply loop_stop. exact Hle. }
  split; [exact Hcheck|]. split; [exact Hsim|].
  cbn [main]. rewrite Hcheck, Hsim. reflexivity.
Qed.

Lemma nan_efficiency_accepted_witness :
  main 0 [Some 10; Some 1; Some nan]
  = ([Asked ask_initial_height; Asked ask_minimum_height; Asked ask_efficiency;
      Plotted [0] [10]; Reported 0 0], Finished).
Proof. apply (nan_efficiency_accepted 0 10 1); reflexivity. Defined.

End BounceFacts.

(** ** Assessment 2: the thickness of boron nitride *)

Module ThicknessFacts.

Import Double Thickness DoubleFacts.

Local Open Scope float_scope.

(** *** The state machine *)

Section HillDescentFacts.

Variable objective : float -> float.
Variable s : float.

Lemma next_Converged p :
  next objective s p = Converged
  <-> is_nan (objective p) = false
      /\ (objective (p + s) <? objective p) = false
      /\ (objective (p - s) <? objective p) = false.
Proof.
  unfold next.
  destruct (is_nan (objective p)), (objective (p + s) <? objective p),
    (objective (p - s) <? objective p); intuition discriminate.
Qed.

(** The machine stops only in its converged state. *)
Lemma hill_descent_Converged fuel p q :
  hill_descent objective s fuel p = Some q -> next objective s q = Converged.
Proof.
  revert p. induction fuel as [|fuel IH]; intros p; simpl; [discriminate|].
  destruct (next objective s p) as [p'|] eqn:E; [apply IH|].
  intros [= <-]. exact E.
Qed.

(** More fuel does not change where it stops. *)
Lemma hill_descent_more_fuel fuel p q :
  hill_descent objective s fuel p = Some q ->
  hill_descent objective s (S fuel) p = Some q.
Proof.
  revert p. induction fuel as [|fuel IH]; intros p; [discriminate|].
  intros H. change (match next objective s p with
                    | Step p' => hill_descent objective s (S fuel) p'
                    | Converged => Some p
                    end = Some q).
  simpl in H. destruct (next objective s p); [apply IH|]; exact H.
Qed.

(** Where it stops, the objective is a number and no neighbour on the grid
    is strictly below; a neighbour whose objective is a number is not below
    at all. *)
Lemma hill_descent_grid_minimum fuel p q :
  hill_descent objective s fuel p = Some q ->
  is_nan (objective q) = false
  /\ (objective (q + s) <? objective q) = false
  /\ (objective (q - s) <? objective q) = false
  /\ (is_nan (objective (q + s)) = false -> (objective q <=? objective (q + s)) = true)
  /\ (is_nan (objective (q - s)) = false -> (objective q <=? objective (q - s)) = true).
Proof.
  intros H. apply hill_descent_Converged, next_Converged in H as (Hq & Hup & Hdown).
  repeat split; trivial; intros Hn; apply not_ltb_leb; assumption.
Qed.

End HillDescentFacts.

Section ScriptFacts.

Context {libm : Libm}.

(** Both loops of the script are this machine. *)
Lemma minimise_hill_descent fuel data p :
  minimise fuel data p = hill_descent (chi_squared data) step fuel p.
Proof.
  revert p. induction fuel as [|fuel IH]; intros p; simpl; [reflexivity|].
  unfold next. rewrite !IH.
  destruct (is_nan (chi_squared data p)); [reflexivity|].
  destruct (chi_squared data (p + step) <? chi_squared data p); [reflexivity|].
  destruct (chi_squared data (p - step) <? chi_squared data p); reflexivity.
Qed.

Lemma error_boundary_hill_descent fuel final data p s :
  error_boundary fuel final data p s
  = hill_descent (function_to_be_minimised final data) s fuel p.
Proof.
  revert p. induction fuel as [|fuel IH]; intros p; simpl; [reflexivity|].
  unfold next. rewrite !IH.
  destruct (is_nan (function_to_be_minimised final data p)); [reflexivity|].
  destruct (function_to_be_minimised final data (p + s)
            <? function_to_be_minimised final data p); [reflexivity|].
  destruct (function_to_be_minimised final data (p - s)
            <? function_to_be_minimised final data p); reflexivity.
Qed.

(** C2, as the code has it.  Whenever the descent loop ends, at
    [final_thickness], chi-squared is a number there and at neither
    neighbour on the step grid is it strictly smaller; so it is at most the
    neighbour's chi-squared wherever that is a number.  (Where the
    neighbour's chi-squared is NaN, the comparison [<=] is false.) *)
Theorem final_thickness_grid_minimum fuel data t :
  final_thickness fuel data = Some t ->
  is_nan (chi_squared data t) = false
  /\ (chi_squared data (t + step) <? chi_squared data t) = false
  /\ (chi_squared data (t - step) <? chi_squared data t) = false
  /\ (is_nan (chi_squared data (t + step)) = false ->
      (chi_squared data t <=? chi_squared data (t + step)) = true)
  /\ (is_nan (chi_squared data (t - step)) = false ->
      (chi_squared data t <=? chi_squared data (t - step)) = true).
Proof.
  unfold final_thickness. rewrite minimise_hill_descent.
  apply hill_descent_grid_minimum.
Qed.

(** The fit does not depend on how much fuel is left over. *)
Lemma minimise_more_fuel fuel data p q :
  minimise fuel data p = Some q -> minimise (S fuel) data p = Some q.
Proof. rewrite !minimise_hill_descent. apply hill_descent_more_fuel. Qed.

End ScriptFacts.

Lemma minimise_more_fuel_witness :
  @minimise Reference.libm 61 [(0.18, 0, 0.01)] 3 = Some 3.0059000000000125.
Proof. apply minimise_more_fuel. vm_compute. reflexivity. Defined.

(** A sample measured at energy 0 whose transmission the model gives at a
    thickness just above 3: the fit ends after 59 steps with both
    neighbours defined. *)
Lemma final_thickness_grid_minimum_witness :
  let data : ndarray := [(0.18, 0, 0.01)] in
  let t := 3.0059000000000125 in
  @final_thickness Reference.libm 100 data = Some t
  /\ (@chi_squared Reference.libm data t
      <=? @chi_squared Reference.libm data (t + step)) = true
  /\ (@chi_squared Reference.libm data t
      <=? @chi_squared Reference.libm data (t - step)) = true.
Proof.
  intros data t.
  assert (H : @final_thickness Reference.libm 100 data = Some t)
    by (vm_compute; reflexivity).
  split; [exact H|].
  destruct (@final_thickness_grid_minimum Reference.libm 100 data t H)
    as (_ & _ & _ & Hup & Hdown).
  split; [apply Hup | apply Hdown]; vm_compute; reflexivity.
Defined.

(** The claim as the specification words it fails on a valid sample with
    transmission 1 at energy 0.7: chi-squared is NaN below the thickness at
    which the average potential reaches 0.7, the fit climbs out of that
    range and stops at the first grid point past it, 3.0158, where the
    neighbour below still has a NaN chi-squared.  The average potential
    misses 0.7 by more than 1e-5 on either side, far above the last digits
    in which implementations of the logarithm differ. *)
Lemma final_thickness_nan_neighbour :
  let data : ndarray := [(1, 0.7, 1)] in
  let t := 3.0158000000000333 in
  validate [(Some 1, Some 0.7, Some 1)] = data
  /\ @final_thickness Reference.libm 200 data = Some t
  /\ (@average_potential Reference.libm (t - step) <? 0.69996) = true
  /\ (0.70001 <? @average_potential Reference.libm t) = true
  /\ is_nan (@chi_squared Reference.libm data (t - step)) = true
  /\ (@chi_squared Reference.libm data t
      <=? @chi_squared Reference.libm data (t - step)) = false.
Proof. repeat split; vm_compute; reflexivity. Qed.

(** *** The error estimate *)

Section ErrorFacts.

Context {libm : Libm}.

(** What [main] reports is the fit, and the error estimate started at the
    fit with the step [error_step]. *)
Lemma main_calls fuel raw r :
  main fuel raw = Some r ->
  final_thickness fuel (validate raw) = Some (thickness_of_BN r)
  /\ error_in_thickness fuel (thickness_of_BN r) (validate raw)
                        (thickness_of_BN r) error_step
     = Some (thickness_error r).
Proof.
  unfold main.
  destruct (final_thickness fuel (validate raw)) as [t|]; [|discriminate].
  cbn [mbind option_bind].
  destruct (error_in_thickness fuel t (validate raw) t error_step) as [e|] eqn:He;
    [|discriminate].
  cbn [mbind option_bind].
  destruct (number_of_layers t thickness_per_layer) as [n|]; [|discriminate].
  cbn [mbind option_bind]. intros [= <-]. split; [reflexivity|exact He].
Qed.

(** C3, as the code has it.  The error estimate descends
    (chi_squared(p) - chi_squared(final_thickness) - 1)^2 with the state
    machine of the primary fit, from [final_thickness], with the step
    0.1 * 0.0001 = 0.00001.  Whenever the descent ends, at [p_boundary],
    the reported error is |p_boundary - final_thickness|; it is never
    below 0, and at least 0 unless that difference is NaN.  At
    [p_boundary] the objective is a number and no neighbour on the grid of
    the error step has a strictly smaller one. *)
Theorem error_estimate fuel final data e :
  error_in_thickness fuel final data final error_step = Some e ->
  let f := function_to_be_minimised final data in
  (forall p, f p = square (chi_squared data p - chi_squared data final - 1))
  /\ (forall n p, minimise n data p = hill_descent (chi_squared data) step n p)
  /\ (forall n p s, error_boundary n final data p s = hill_descent f s n p)
  /\ (forall raw r,
        main fuel raw = Some r ->
        error_in_thickness fuel (thickness_of_BN r) (validate raw)
                           (thickness_of_BN r) error_step
        = Some (thickness_error r))
  /\ step = 0.0001 /\ error_step = 0.1 * step /\ error_step = 0.00001
  /\ exists p_boundary,
       error_boundary fuel final data final error_step = Some p_boundary
       /\ e = abs (p_boundary - final)
       /\ (e <? 0) = false
       /\ (is_nan (p_boundary - final) = false -> (0 <=? e) = true)
       /\ is_nan (f p_boundary) = false
       /\ (f (p_boundary + error_step) <? f p_boundary) = false
       /\ (f (p_boundary - error_step) <? f p_boundary) = false.
Proof.
  intros He f. split; [reflexivity|].
  split; [intros; apply minimise_hill_descent|].
  split; [intros; apply error_boundary_hill_descent|].
  split; [intros raw r Hmain; apply (main_calls _ _ _ Hmain)|].
  split; [reflexivity|]. split; [reflexivity|]. split; [reflexivity|].
  unfold error_in_thickness in He.
  destruct (error_boundary fuel final data final error_step) as [pb|] eqn:Hpb;
    [|discriminate].
  cbn [mbind option_bind] in He. injection He as <-.
  exists pb. split; [reflexivity|]. split; [reflexivity|].
  split; [apply abs_not_negative|]. split; [apply abs_nonnegative|].
  rewrite error_boundary_hill_descent in Hpb.
  apply hill_descent_grid_minimum in Hpb as (H1 & H2 & H3 & _). auto.
Qed.

End ErrorFacts.

(** Two samples the model fits at a thickness near 3, with uncertainty
    0.001: the fit ends at 2.9973, the error descent 186 steps below it,
    where chi-squared has risen from 8.43 to 9.43. *)
Lemma error_estimate_witness :
  let data : ndarray := [(0.18, 0, 0.001); (0.28, 0.3, 0.001)] in
  let final := 2.9972999999999943 in
  let p_boundary := 2.9954399999999821 in
  @final_thickness Reference.libm 100 data = Some final
  /\ @error_in_thickness Reference.libm 200 final data final error_step
     = Some 0.0018600000000121852
  /\ @error_boundary Reference.libm 200 final data final error_step
     = Some p_boundary
  /\ 0.0018600000000121852 = abs (p_boundary - final)
  /\ @chi_squared Reference.libm data final = 8.4339655340418602
  /\ @chi_squared Reference.libm data p_boundary = 9.4321162065933439.
Proof.
  intros data final p_boundary.
  assert (He : @error_in_thickness Reference.libm 200 final data final error_step
               = Some 0.0018600000000121852) by (vm_compute; reflexivity).
  split; [vm_compute; reflexivity|]. split; [exact He|].
  destruct (@error_estimate Reference.libm 200 final data _ He)
    as (_ & _ & _ & _ & _ & _ & _ & pb & Hpb & Habs & _).
  assert (pb = p_boundary) as ->.
  { assert (H : @error_boundary Reference.libm 200 final data final error_step
                = Some p_boundary) by (vm_compute; reflexivity).
    rewrite H in Hpb. injection Hpb as <-. reflexivity. }
  split; [exact Hpb|]. split; [exact Habs|].
  split; vm_compute; reflexivity.
Defined.

(** The last part of the claim fails where chi-squared is flat.  Two valid
    samples with uncertainty 1e200 make every term of chi-squared underflow
    to 0: the fit stays at the starting thickness 3, the objective of the
    error estimate is 1 there and at both neighbours, the descent stops at
    once and the reported error is 0, with chi-squared at the boundary a
    full unit away from chi-squared at the fit plus 1. *)
Lemma error_estimate_flat :
  let raw := [(Some 0.5, Some 0, Some 1e200); (Some 0.5, Some 0.1, Some 1e200)] in
  let data : ndarray := [(0.5, 0, 1e200); (0.5, 0.1, 1e200)] in
  validate raw = data
  /\ @main Reference.libm 10 raw
     = Some {| thickness_of_BN := 3; thickness_error := 0;
               reduced_chi2 := 0; layers := 1 |}
  /\ @error_boundary Reference.libm 10 3 data 3 error_step = Some 3
  /\ @chi_squared Reference.libm data 3 = 0
  /\ abs (@chi_squared Reference.libm data 3
          - (@chi_squared Reference.libm data 3 + 1)) = 1.
Proof. repeat split; vm_compute; reflexivity. Qed.

(** *** The number of layers *)




End ThicknessFacts.

(** ** Assessment 3: the nuclear decay *)

Module DecayFacts.

Import Double Decay DoubleFacts SortFacts.

Local Open Scope float_scope.

(** *** Arrays as objects *)


Lemma zip_with_column (f : row -> float) (a : ndarray) :
  zip_with (fun c r => (c, col1 r, col2 r)) (map f a) a
  = map (fun r => (f r, col1 r, col2 r)) a.
Proof. induction a as [|r a IH]; simpl; [|rewrite IH]; reflexivity. Qed.

(** The call writes the converted rows into the object it was given and
    returns a reference to that same object. *)
Lemma convert_time_to_seconds_spec (h : heap) (data : ref) (a : ndarray) :
  h !! data = Some a ->
  convert_time_to_seconds data h = Some (data, <[data := to_seconds a]> h).
Proof.
  intros H. unfold convert_time_to_seconds, bind, get, put, ret.
  rewrite H. cbv beta iota. rewrite H. cbv beta iota.
  rewrite zip_with_column, H. reflexivity.
Qed.

Lemma to_seconds_columns (a : ndarray) :
  map col0 (to_seconds a) = map (fun r => col0 r * 3600) a
  /\ map col1 (to_seconds a) = map col1 a
  /\ map col2 (to_seconds a) = map col2 a.
Proof. unfold to_seconds. rewrite !map_map. repeat split. Qed.

(** C10.  [convert_time_to_seconds] returns the reference it was given and
    allocates nothing: the caller's array is overwritten in place, its
    first column multiplied by 3600 and its other columns as they were,
    while every other array is untouched.  A second call on the same array
    multiplies the first column by 3600 once more. *)
Theorem convert_time_to_seconds_in_place (h : heap) (data : ref) (a : ndarray) :
  h !! data = Some a ->
  exists h' h'',
    convert_time_to_seconds data h = Some (data, h')
    /\ h' !! data = Some (to_seconds a)
    /\ length h' = length h
    /\ (forall other, other <> data -> h' !! other = h !! other)
    /\ map col0 (to_seconds a) = map (fun r => col0 r * 3600) a
    /\ map col1 (to_seconds a) = map col1 a
    /\ map col2 (to_seconds a) = map col2 a
    /\ convert_time_to_seconds data h' = Some (data, h'')
    /\ h'' !! data = Some (to_seconds (to_seconds a))
    /\ map col0 (to_seconds (to_seconds a))
       = map (fun r => col0 r * 3600 * 3600) a.
Proof.
  intros H. assert (Hlen : (data < length h)%nat) by (eapply lookup_lt_Some, H).
  assert (H' : <[data := to_seconds a]> h !! data = Some (to_seconds a))
    by (apply list_lookup_insert_eq, Hlen).
  exists (<[data := to_seconds a]> h),
    (<[data := to_seconds (to_seconds a)]> (<[data := to_seconds a]> h)).
  split; [apply convert_time_to_seconds_spec, H|].
  split; [exact H'|].
  split; [apply length_insert|].
  split; [intros other Hne; apply list_lookup_insert_ne; congruence|].
  destruct (to_seconds_columns a) as (C0 & C1 & C2).
  split; [exact C0|]. split; [exact C1|]. split; [exact C2|].
  split; [apply convert_time_to_seconds_spec, H'|].
  split; [apply list_lookup_insert_eq; rewrite length_insert; exact Hlen|].
  destruct (to_seconds_columns (to_seconds a)) as (D0 & _).
  rewrite D0. unfold to_seconds. rewrite map_map. reflexivity.
Qed.

Lemma convert_time_to_seconds_in_place_witness :
  let a : ndarray := [(1, 20, 0.5); (2.5, 10, 0.25)] in
  let b : ndarray := [(7, 7, 7)] in
  exists h' h'',
    convert_time_to_seconds 1 [b; a] = Some (1%nat, h')
    /\ h' = [b; [(3600, 20, 0.5); (9000, 10, 0.25)]]
    /\ convert_time_to_seconds 1 h' = Some (1%nat, h'')
    /\ h'' = [b; [(12960000, 20, 0.5); (32400000, 10, 0.25)]].
Proof.
  intros a b.
  destruct (convert_time_to_seconds_in_place [b; a] 1 a eq_refl)
    as (h' & h'' & H1 & _ & _ & _ & _ & _ & _ & H2 & _).
  exists h', h''.
  assert (E1 : h' = [b; [(3600, 20, 0.5); (9000, 10, 0.25)]]).
  { assert (E : convert_time_to_seconds 1 [b; a]
                = Some (1%nat, [b; [(3600, 20, 0.5); (9000, 10, 0.25)]]))
      by (vm_compute; reflexivity).
    rewrite E in H1. injection H1 as <-. reflexivity. }
  split; [exact H1|]. split; [exact E1|]. split; [exact H2|].
  subst h'.
  assert (E : convert_time_to_seconds 1 [b; [(3600, 20, 0.5); (9000, 10, 0.25)]]
              = Some (1%nat, [b; [(12960000, 20, 0.5); (32400000, 10, 0.25)]]))
    by (vm_compute; reflexivity).
  rewrite E in H2. injection H2 as <-. reflexivity.
Defined.

(** *** Reading and merging the files *)

Lemma bind_Some {A B : Type} (m : M A) (k : A -> M B) (h h' : heap) (a : A) :
  m h = Some (a, h') -> bind m k h = k a h'.
Proof. unfold bind. intros ->. reflexivity. Qed.

Lemma new_after (h l : heap) (a : ndarray) :
  new a (h ++ l) = Some ((length h + length l)%nat, h ++ (l ++ [a])).
Proof. unfold new. rewrite length_app, app_assoc. reflexivity. Qed.

Lemma get_after (h l : heap) (i : nat) (a : ndarray) :
  l !! i = Some a -> get (length h + i) (h ++ l) = Some (a, h ++ l).
Proof.
  intros H. unfold get. rewrite lookup_app_r by lia.
  replace (length h + i - length h)%nat with i by lia. rewrite H. reflexivity.
Qed.

Section Files.

Variable np_genfromtxt : string -> option ndarray.

Lemma read_and_validate_spec filename contents (h l : heap) :
  np_genfromtxt filename = Some contents ->
  (2 <= length contents)%nat ->
  read_and_validate np_genfromtxt filename (h ++ l)
  = Some ((length h + (length l + 3))%nat, h ++ (l ++ read_arrays contents)).
Proof.
  intros H Hrows. unfold read_and_validate. rewrite H.
  rewrite (bind_Some _ _ _ _ _ (new_after h l _)).
  rewrite (bind_Some _ _ _ _ _ (get_after h (l ++ [_]) (length l) _
                                   (list_lookup_middle _ _ _ _ eq_refl))).
  rewrite (proj2 (Nat.ltb_ge (length contents) 2) Hrows).
  rewrite (bind_Some _ _ _ _ _ (new_after h _ _)).
  rewrite (bind_Some _ _ _ _ _ (get_after h ((l ++ [_]) ++ [_]) _ _
                                   (list_lookup_middle _ _ _ _ eq_refl))).
  rewrite (bind_Some _ _ _ _ _ (new_after h _ _)).
  rewrite (bind_Some _ _ _ _ _ (get_after h (((l ++ [_]) ++ [_]) ++ [_]) _ _
                                   (list_lookup_middle _ _ _ _ eq_refl))).
  rewrite (bind_Some _ _ _ _ _ (new_after h _ _)).
  unfold ret, read_arrays, validated. rewrite !length_app. simpl.
  rewrite <- !app_assoc. simpl. do 2 f_equal. lia.
Qed.

(** The arrays [combine_files] leaves behind, and the one it returns: the
    rows of both files in the order of their times in hours, with the
    times then multiplied by 3600. *)
Lemma combine_files_spec filename_1 filename_2 contents_1 contents_2 (h : heap) :
  np_genfromtxt filename_1 = Some contents_1 ->
  np_genfromtxt filename_2 = Some contents_2 ->
  (2 <= length contents_1)%nat -> (2 <= length contents_2)%nat ->
  let data_combined := validated contents_1 ++ validated contents_2 in
  combine_files np_genfromtxt filename_1 filename_2 h
  = Some ((length h + 9)%nat,
          h ++ read_arrays contents_1 ++ read_arrays contents_2
            ++ [data_combined;
                to_seconds (insertion_sort earlier data_combined)]).
Proof.
  intros H1 H2 L1 L2 data_combined. unfold combine_files.
  pose proof (read_and_validate_spec _ _ h [] H1 L1) as R1.
  rewrite app_nil_r in R1. rewrite (bind_Some _ _ _ _ _ R1). clear R1.
  rewrite (bind_Some _ _ _ _ _ (read_and_validate_spec _ _ h _ H2 L2)).
  cbn [app length Nat.add].
  set (l := read_arrays contents_1 ++ read_arrays contents_2).
  cbn [length Nat.add].
  rewrite (bind_Some _ _ _ _ _ (get_after h l 3 (validated contents_1) eq_refl)).
  replace (length h + (length (read_arrays contents_1) + 3))%nat
    with (length h + 7)%nat by reflexivity.
  rewrite (bind_Some _ _ _ _ _ (get_after h l 7 (validated contents_2) eq_refl)).
  rewrite (bind_Some _ _ _ _ _ (new_after h l _)).
  rewrite (bind_Some _ _ _ _ _ (get_after h (l ++ [data_combined]) 8
                                           data_combined eq_refl)).
  rewrite (bind_Some _ _ _ _ _ (new_after h _ _)).
  rewrite take_rows_argsort.
  set (sorted := insertion_sort earlier data_combined).
  cbn [length Nat.add app].
  match goal with |- bind (convert_time_to_seconds ?r) _ ?heap = _ =>
    assert (Hs : heap !! r = Some sorted) end.
  { rewrite lookup_app_r by lia.
    match goal with |- _ !! ?i = _ =>
      replace i with 9%nat by (subst l; simpl; lia) end.
    reflexivity. }
  rewrite (bind_Some _ _ _ _ _ (convert_time_to_seconds_spec _ _ _ Hs)).
  unfold ret. f_equal. f_equal.
  rewrite insert_app_r_alt by lia.
  match goal with |- context [<[?i := _]> _] =>
    replace i with 9%nat by (subst l; simpl; lia) end.
  subst l. rewrite <- !app_assoc. reflexivity.
Qed.

End Files.

Lemma earlier_asym r r' : earlier r r' = true -> earlier r' r = false.
Proof. apply np_lt_asym. Qed.

Lemma insertion_sort_ascending (a : ndarray) : ascending (insertion_sort earlier a).
Proof. apply (insertion_sort_Sorted earlier earlier_asym). Qed.

Lemma order_kept_spec (a : ndarray) :
  order_kept a = true ->
  forall r r', r ∈ a -> r' ∈ a ->
    earlier r r'
    = earlier (col0 r * 3600, col1 r, col2 r) (col0 r' * 3600, col1 r', col2 r').
Proof.
  unfold order_kept. rewrite forallb_forall. intros H r r' Hr Hr'.
  apply list_elem_of_In in Hr, Hr'. specialize (H r Hr).
  rewrite forallb_forall in H. specialize (H r' Hr').
  apply Bool.eqb_prop in H. unfold earlier. simpl. symmetry. exact H.
Qed.

(** Sorting before or after the conversion: the same array, when the
    conversion keeps the comparisons. *)
Lemma to_seconds_insertion_sort (a : ndarray) :
  order_kept a = true ->
  to_seconds (insertion_sort earlier a) = insertion_sort earlier (to_seconds a).
Proof.
  intros H. unfold to_seconds. apply insertion_sort_map.
  apply order_kept_spec, H.
Qed.

(** Multiplying by 3600 leaves an array of finite times in ascending
    order. *)
Lemma to_seconds_ascending (a : ndarray) :
  Forall (fun r => is_finite (col0 r) = true) a ->
  ascending a -> ascending (to_seconds a).
Proof.
  unfold ascending, to_seconds. intros Hfin Hasc.
  induction Hasc as [|r a Hs IH Hhd]; [constructor|].
  apply Forall_cons in Hfin as [Hr Hfin].
  simpl. constructor; [apply IH, Hfin|].
  destruct Hhd as [|r' a Hrr']; simpl; constructor.
  apply Forall_cons in Hfin as [Hr' _].
  unfold earlier, np_lt in *. cbn [col0 fst] in *.
  apply orb_false_iff in Hrr' as [Hlt _].
  rewrite (MonotoneFacts.mul_3600_number _ Hr), andb_false_l, orb_false_r.
  apply leb_not_ltb, MonotoneFacts.mul_3600_mono; trivial.
  apply not_ltb_leb; trivial; apply FiniteFacts.is_finite_number; assumption.
Qed.

Lemma validated_finite (contents : ndarray) :
  Forall (fun r => is_finite (col0 r) = true) (validated contents).
Proof.
  apply Forall_forall. intros r Hr. unfold validated in Hr.
  apply list_elem_of_filter in Hr as [_ Hr]. apply list_elem_of_filter in Hr as [_ Hr].
  apply list_elem_of_filter in Hr as [Hr _]. apply Is_true_true in Hr.
  apply andb_true_iff in Hr as [Hr _]. apply andb_true_iff in Hr as [Hr _]. exact Hr.
Qed.

Section Merge.

Variable np_genfromtxt : string -> option ndarray.

(** C5, as the code has it.  On two files of at least two rows each (on a
    file of fewer [read_and_validate] raises), [combine_files] returns a new
    array holding the rows both files keep after validation, in ascending
    order of their times in hours, with the times then multiplied by 3600.
    That array is a permutation of the converted concatenation, and it is
    in ascending order of the times in seconds too: multiplying by 3600
    never reverses the order of two finite times.  It is the array that
    sorting the converted concatenation gives whenever the multiplication
    keeps every comparison between two of the times (no two distinct times
    round or overflow to the same number of seconds). *)
Theorem combine_files_sorted filename_1 filename_2 contents_1 contents_2 (h : heap) :
  np_genfromtxt filename_1 = Some contents_1 ->
  np_genfromtxt filename_2 = Some contents_2 ->
  (2 <= length contents_1)%nat -> (2 <= length contents_2)%nat ->
  let data_combined := validated contents_1 ++ validated contents_2 in
  exists (data_in_seconds : ref) (h' : heap) (result : ndarray),
    combine_files np_genfromtxt filename_1 filename_2 h = Some (data_in_seconds, h')
    /\ h' !! data_in_seconds = Some result
    /\ h !! data_in_seconds = None
    /\ result
       = to_seconds (take_rows data_combined (np_argsort (map col0 data_combined)))
    /\ result ≡ₚ to_seconds data_combined
    /\ ascending (take_rows data_combined (np_argsort (map col0 data_combined)))
    /\ ascending result
    /\ (order_kept data_combined = true ->
        result = take_rows (to_seconds data_combined)
                           (np_argsort (map col0 (to_seconds data_combined)))).
Proof.
  intros H1 H2 L1 L2 data_combined.
  eexists _, _, _. split; [apply (combine_files_spec _ _ _ _ _ h H1 H2 L1 L2)|].
  rewrite !take_rows_argsort. fold data_combined.
  split.
  { rewrite lookup_app_r by lia.
    replace (length h + 9 - length h)%nat with 9%nat by lia. reflexivity. }
  split; [apply lookup_ge_None; lia|].
  split; [reflexivity|].
  split.
  { unfold to_seconds. apply Permutation_map, insertion_sort_Permutation. }
  split; [apply insertion_sort_ascending|].
  split.
  { apply to_seconds_ascending; [|apply insertion_sort_ascending].
    rewrite (insertion_sort_Permutation earlier data_combined).
    apply Forall_app. split; apply validated_finite. }
  intros Hkept. apply to_seconds_insertion_sort, Hkept.
Qed.

End Merge.

Lemma combine_files_sorted_witness :
  let result : ndarray :=
    [(900, 40, 0.5); (1800, 30, 0.5); (3600, 20, 0.5); (7200, 10, 0.5)] in
  exists h',
    combine_files two_files "Nuclear_data_1.csv" "Nuclear_data_2.csv" []
    = Some (9%nat, h')
    /\ h' !! 9%nat = Some result
    /\ ascending result
    /\ take_rows (to_seconds [(2, 10, 0.5); (0.5, 30, 0.5); (1, 20, 0.5); (0.25, 40, 0.5)])
                 (np_argsort [7200; 1800; 3600; 900])
       = result.
Proof.
  intros result.
  destruct (combine_files_sorted two_files "Nuclear_data_1.csv" "Nuclear_data_2.csv"
              [(2, 10, 0.5); (0.5, 30, 0.5); (1, 5, 0)] [(1, 20, 0.5); (0.25, 40, 0.5)]
              [] eq_refl eq_refl ltac:(simpl; lia) ltac:(simpl; lia))
    as (r & h' & result' & Hrun & Hres & _ & Heq & _ & _ & Hasc & Hkept).
  assert (Er : result' = result) by (rewrite Heq; vm_compute; reflexivity).
  assert (E9 : r = 9%nat).
  { assert (E : fst <$> combine_files two_files "Nuclear_data_1.csv"
                          "Nuclear_data_2.csv" [] = Some 9%nat)
      by (vm_compute; reflexivity).
    rewrite Hrun in E. injection E as E. exact E. }
  subst r result'. exists h'. split; [exact Hrun|]. split; [exact Hres|].
  split; [exact Hasc|].
  symmetry. apply Hkept. vm_compute. reflexivity.
Defined.

(** The two orders differ on files whose first rows have times one unit in
    the last place apart: both times convert to 5400.0000000000036 seconds.
    The code sorts the two rows by their hours, while the converted times
    are equal and a sort on them leaves the rows as the files gave them.
    Either file has two valid rows. *)
Lemma combine_files_ties :
  let data_combined : ndarray :=
    [(1.500000000000001, 1, 0.5); (3, 3, 0.5);
     (1.5000000000000009, 2, 0.5); (4, 4, 0.5)] in
  validated [(1.500000000000001, 1, 0.5); (3, 3, 0.5)]
    ++ validated [(1.5000000000000009, 2, 0.5); (4, 4, 0.5)]
  = data_combined
  /\ (1.5000000000000009 <? 1.500000000000001) = true
  /\ 1.5000000000000009 * 3600 = 5400.0000000000036
  /\ 1.500000000000001 * 3600 = 5400.0000000000036
  /\ (fst <$> combine_files close_times "Nuclear_data_1.csv" "Nuclear_data_2.csv" [])
     = Some 9%nat
  /\ (h' ← snd <$> combine_files close_times "Nuclear_data_1.csv"
                                 "Nuclear_data_2.csv" [];
      h' !! 9%nat)
     = Some [(5400.0000000000036, 2, 0.5); (5400.0000000000036, 1, 0.5);
             (10800, 3, 0.5); (14400, 4, 0.5)]
  /\ take_rows (to_seconds data_combined)
               (np_argsort (map col0 (to_seconds data_combined)))
     = [(5400.0000000000036, 1, 0.5); (5400.0000000000036, 2, 0.5);
        (10800, 3, 0.5); (14400, 4, 0.5)].
Proof. repeat split; vm_compute; reflexivity. Qed.

(** *** The outlier filter *)

Section Outliers.

Context {libm : Libm} {optimizer : Optimizer}.

Variable sc_Avogadro : float.
Variable np_genfromtxt : string -> option ndarray.



End Outliers.



(** *** The half-lives *)

(** C6, as the code has it.  [half_lives] returns ln 2 / lambda / 60 and
    [error_half_lives] returns half_life * error / lambda, for each of the
    two constants.  In real arithmetic, for a positive lambda, the
    half-life is positive and error_half_life / half_life equals
    error / lambda exactly. *)
Theorem half_life_relative_error (decay_constant error_decay_constant : R) :
  (0 < decay_constant)%R ->
  let half := half_life Rdiv (ln 2) 60%R decay_constant in
  let error := error_half_life Rmult Rdiv (ln 2) 60%R
                               decay_constant error_decay_constant in
  half = (ln 2 / decay_constant / 60)%R
  /\ (0 < half)%R
  /\ (error / half = error_decay_constant / decay_constant)%R
  /\ (forall (libm : Libm) (constants errors : float * float),
        half_lives constants
        = (np_log 2 / constants.1 / 60, np_log 2 / constants.2 / 60)
        /\ error_half_lives constants errors
           = ((half_lives constants).1 * errors.1 / constants.1,
              (half_lives constants).2 * errors.2 / constants.2)).
Proof.
  intros Hpos half error. pose proof ln_lt_2 as Hln.
  assert (Hln0 : (0 < ln 2)%R) by lra.
  split; [reflexivity|].
  assert (Hhalf : (0 < half)%R).
  { unfold half, half_life. apply Rdiv_lt_0_compat; [|lra].
    apply Rdiv_lt_0_compat; assumption. }
  split; [exact Hhalf|].
  split; [|intros; split; reflexivity].
  unfold error, error_half_life. fold half. field. split; lra.
Qed.

Lemma half_life_relative_error_witness :
  let half := half_life Rdiv (ln 2) 60%R 2%R in
  let error := error_half_life Rmult Rdiv (ln 2) 60%R 2%R 1%R in
  (0 < 2)%R /\ (error / half = 1 / 2)%R.
Proof.
  intros half error. assert (H : (0 < 2)%R) by lra.
  split; [exact H|]. apply (half_life_relative_error 2 1 H).
Defined.

(** In doubles the two quotients can differ in the last place. *)
Lemma half_life_relative_error_rounded :
  let constants := (0.0005, 0.005) in
  let errors := (0.00003, 0.0003) in
  @half_lives Reference.libm constants = (23.104906018664842, 2.3104906018664844)
  /\ ((@error_half_lives Reference.libm constants errors).1
      / (@half_lives Reference.libm constants).1 =? errors.1 / constants.1) = false
  /\ ((@error_half_lives Reference.libm constants errors).2
      / (@half_lives Reference.libm constants).2 =? errors.2 / constants.2) = false.
Proof. repeat split; vm_compute; reflexivity. Qed.

End DecayFacts.

(** ** The reduced chi-squared of both fits *)

Module ReducedFacts.

Import Double DoubleFacts SignFacts.

Local Open Scope float_scope.

Section Reduced.

Context {libm : Libm}.

Variable sc_Avogadro : float.

(** Chi-squared is a sum of squares: NaN, or a value with the sign bit
    clear. *)
Lemma thickness_chi_squared_signed data thickness :
  signed false (Prim2SF (Thickness.chi_squared data thickness)).
Proof.
  unfold Thickness.chi_squared. apply np_sum_signed, Forall_map, Forall_forall.
  intros r _. apply square_signed.
Qed.

Lemma decay_chi_squared_signed constants data :
  signed false (Prim2SF (Decay.chi_squared sc_Avogadro constants data)).
Proof.
  unfold Decay.chi_squared. apply np_sum_signed, Forall_map, Forall_forall.
  intros r _. apply square_signed.
Qed.

(** Chi-squared is never below 0. *)
Lemma thickness_chi_squared_not_negative data thickness :
  (Thickness.chi_squared data thickness <? 0) = false.
Proof.
  pose proof (thickness_chi_squared_signed data thickness) as H.
  rewrite FloatAxioms.ltb_spec. change (Prim2SF 0) with (S754_zero false).
  unfold SFltb.
  destruct (Prim2SF (Thickness.chi_squared data thickness)) as [s|s| |s m e];
    simpl in *; try reflexivity; rewrite H; reflexivity.
Qed.

(** A quotient by a negative divisor of a value with the sign bit clear. *)
Lemma negative_quotient (x y : float) m e :
  signed false (Prim2SF x) -> Prim2SF y = S754_finite true m e ->
  signed true (Prim2SF (x / y))
  /\ (0 <? x / y) = false
  /\ (is_nan (x / y) = false -> (x / y <=? 0) = true).
Proof.
  intros Hx Hy. pose proof (div_signed x y true m e Hx Hy) as H.
  split; [exact H|]. split; [apply minus_signed_not_positive, H|].
  apply minus_signed_leb, H.
Qed.

(** C9, as the code has it.  Both [reduced_chi_squared] functions divide
    chi-squared by len(data) - number_of_parameters, whatever that is.
    With as many samples as parameters (1 for the thickness, 2 for the
    decay) the divisor is 0.0 and the result is an infinity or NaN, never a
    finite number.  With fewer samples the divisor is negative and the
    result is NaN or carries the sign bit: it is never above 0, and at
    most 0 when it is a number.  On the empty dataset, the only smaller
    one of the thickness fit, it is -0.0. *)
Theorem reduced_chi_squared_unguarded :
  (forall data thickness p,
      Thickness.reduced_chi_squared data thickness p
      = Thickness.chi_squared data thickness / of_int (Z.of_nat (length data) - p))
  /\ (forall constants data p,
        Decay.reduced_chi_squared sc_Avogadro constants data p
        = Decay.chi_squared sc_Avogadro constants data
          / of_int (Z.of_nat (length data) - p))
  /\ (forall data thickness,
        length data = 1%nat ->
        of_int (Z.of_nat (length data) - 1) = 0
        /\ is_finite (Thickness.reduced_chi_squared data thickness 1) = false)
  /\ (forall constants data,
        length data = 2%nat ->
        of_int (Z.of_nat (length data) - 2) = 0
        /\ is_finite (Decay.reduced_chi_squared sc_Avogadro constants data 2) = false)
  /\ (forall thickness,
        of_int (Z.of_nat (length (@nil row)) - 1) = -1
        /\ Thickness.reduced_chi_squared [] thickness 1 = neg_zero)
  /\ (forall constants data,
        (length data < 2)%nat ->
        let reduced := Decay.reduced_chi_squared sc_Avogadro constants data 2 in
        (of_int (Z.of_nat (length data) - 2) <? 0) = true
        /\ signed true (Prim2SF reduced)
        /\ (0 <? reduced) = false
        /\ (is_nan reduced = false -> (reduced <=? 0) = true)).
Proof.
  split; [reflexivity|]. split; [reflexivity|].
  split.
  { intros data thickness Hlen. unfold Thickness.reduced_chi_squared.
    rewrite Hlen. split; [reflexivity|]. apply div_zero_not_finite. }
  split.
  { intros constants data Hlen. unfold Decay.reduced_chi_squared.
    rewrite Hlen. split; [reflexivity|]. apply div_zero_not_finite. }
  split; [intros; split; reflexivity|].
  intros constants data Hlen reduced.
  pose proof (decay_chi_squared_signed constants data) as Hchi.
  unfold reduced, Decay.reduced_chi_squared.
  destruct data as [|r [|r' data]]; [| |simpl in Hlen; lia].
  - split; [reflexivity|]. eapply negative_quotient; [exact Hchi | reflexivity].
  - split; [reflexivity|]. eapply negative_quotient; [exact Hchi | reflexivity].
Qed.

End Reduced.

(** One sample for the thickness (as many as parameters), one for the decay
    (fewer than parameters). *)
Lemma reduced_chi_squared_unguarded_witness :
  is_finite (@Thickness.reduced_chi_squared Reference.libm [(0.18, 0, 0.001)] 3 1)
  = false
  /\ (@Decay.reduced_chi_squared Reference.libm 6.02214076e23 (0.0005, 0.005)
                                 [(100, 110, 1)] 2 <=? 0) = true
  /\ @Decay.reduced_chi_squared Reference.libm 6.02214076e23 (0.0005, 0.005)
                                [(100, 110, 1)] 2 = -28.340528476452839.
Proof.
  destruct (@reduced_chi_squared_unguarded Reference.libm 6.02214076e23)
    as (_ & _ & Hone & _ & _ & Hfewer).
  split; [apply Hone; reflexivity|].
  split; [|vm_compute; reflexivity].
  apply (Hfewer (0.0005, 0.005) [(100, 110, 1)]); [simpl; lia|].
  vm_compute; reflexivity.
Defined.

(** Results that are not below 0: with no valid row at all the thickness
    script reports a reduced chi-squared of -0.0, and -0.0 < 0 is false; so
    does the decay function on the empty dataset; and on one sample, with
    equal decay constants, chi-squared and its quotient are NaN. *)
Lemma reduced_chi_squared_negative_zero :
  @Thickness.main Reference.libm 10 []
  = Some {| Thickness.thickness_of_BN := 3;
            Thickness.thickness_error := 0;
            Thickness.reduced_chi2 := neg_zero;
            Thickness.layers := 1 |}
  /\ @Thickness.reduced_chi_squared Reference.libm [] 3 1 = neg_zero
  /\ @Decay.reduced_chi_squared Reference.libm 6.02214076e23 (0.0005, 0.005) [] 2
     = neg_zero
  /\ (neg_zero <? 0) = false
  /\ is_nan (@Decay.reduced_chi_squared Reference.libm 6.02214076e23
                                        (0.0005, 0.0005) [(100, 1, 0.5)] 2) = true.
Proof. repeat split; vm_compute; reflexivity. Qed.

End ReducedFacts.

(** ** Assessment 1: the turns of the bounce loop *)

Module BounceRunFacts.

Import Double DoubleFacts Bounce BounceRun.

Local Open Scope float_scope.

Lemma after_S h0 e n : after h0 e (S n) = bounce e (after h0 e n).
Proof. reflexivity. Qed.

Lemma peak_S h0 e n : peak h0 e (S n) = peak h0 e n * e.
Proof. reflexivity. Qed.

Lemma height_after h0 e n : height (after h0 e n) = peak h0 e n.
Proof.
  induction n as [|n IH]; [reflexivity|].
  rewrite after_S, peak_S, <- IH. reflexivity.
Qed.

Lemma total_time_after h0 e n : total_time (after h0 e n) = time_of_peak h0 e n.
Proof.
  induction n as [|n IH]; [reflexivity|].
  rewrite after_S. cbn [bounce total_time time_of_peak].
  rewrite IH, height_after. reflexivity.
Qed.

Lemma bounces_after h0 e n : bounces (after h0 e n) = Z.of_nat n.
Proof.
  induction n as [|n IH]; [reflexivity|].
  rewrite after_S. cbn [bounce bounces]. rewrite IH. lia.
Qed.

Lemma array_heights_after h0 e n :
  array_heights (after h0 e n) = peak h0 e <$> seq 0 (S n).
Proof.
  induction n as [|n IH]; [reflexivity|].
  rewrite after_S. cbn [bounce array_heights]. rewrite IH, height_after.
  rewrite (seq_S (S n)), fmap_app. reflexivity.
Qed.

Lemma array_times_after h0 e n :
  array_times (after h0 e n) = time_of_peak h0 e <$> seq 0 (S n).
Proof.
  induction n as [|n IH]; [reflexivity|].
  rewrite after_S. cbn [bounce array_times]. rewrite IH, total_time_after, height_after.
  rewrite (seq_S (S n)), fmap_app. reflexivity.
Qed.

(** The loop, entered after [k] turns with [fuel] turns left, stops after
    the first [n] from [k] on at which the next peak is not at or above the
    minimum height. *)
Lemma loop_after fuel hmin h0 e k s :
  loop fuel hmin e (after h0 e k) = Some s
  <-> exists n, (k <= n <= k + fuel)%nat /\ s = after h0 e n
                /\ (forall j, (k <= j < n)%nat -> (hmin <=? peak h0 e (S j)) = true)
                /\ (hmin <=? peak h0 e (S n)) = false.
Proof.
  revert k. induction fuel as [|fuel IH]; intros k.
  - cbn [loop]. rewrite height_after, <- peak_S.
    destruct (hmin <=? peak h0 e (S k)) eqn:E; split.
    + discriminate.
    + intros (n & Hn & _ & Hall & Hstop). assert (n = k) by lia. subst n. congruence.
    + intros [= <-]. exists k. repeat split; trivial; lia.
    + intros (n & Hn & -> & _). assert (n = k) by lia. subst n. reflexivity.
  - cbn [loop]. rewrite height_after, <- peak_S.
    destruct (hmin <=? peak h0 e (S k)) eqn:E.
    + rewrite <- after_S, IH. split; intros (n & Hn & -> & Hall & Hstop); exists n.
      * repeat split; trivial; try lia. intros j Hj.
        destruct (decide (j = k)) as [->|]; [exact E | apply Hall; lia].
      * assert (n <> k) by (intros ->; congruence).
        repeat split; trivial; try lia. intros j Hj. apply Hall. lia.
    + split.
      * intros [= <-]. exists k. repeat split; trivial; lia.
      * intros (n & Hn & -> & Hall & Hstop).
        destruct (decide (n = k)) as [->|]; [reflexivity|].
        rewrite Hall in E by lia. discriminate.
Qed.

(** The simulation ends exactly when there is a first bounce count [n],
    within the fuel, after which the next peak is not at or above the minimum
    height (below it, or NaN); it then ends in the state after [n] turns of
    the loop.  Every earlier peak was at or above the minimum height. *)
Theorem simulate_first_low_peak fuel h0 hmin e s :
  simulate fuel h0 hmin e = Some s
  <-> exists n, (n <= fuel)%nat /\ s = after h0 e n
                /\ (forall j, (j < n)%nat -> (hmin <=? peak h0 e (S j)) = true)
                /\ (hmin <=? peak h0 e (S n)) = false.
Proof.
  unfold simulate. change (initial h0) with (after h0 e 0). rewrite loop_after.
  split; intros (n & Hn & -> & Hall & Hstop); exists n; repeat split; trivial; try lia.
  - intros j Hj. apply Hall. lia.
  - intros j Hj. apply Hall. lia.
Qed.

(** What a finished simulation has recorded, with [n] the bounce count it
    reports: the [n + 1] peaks, each the one before it times the
    efficiency, starting from the initial height; the [n + 1] times at which
    they are reached, starting from 0 and each the one before it plus the
    bounce time from the peak before; the last peak and the last time are the
    final height and the total time. *)
Theorem simulate_records_peaks fuel h0 hmin e s :
  simulate fuel h0 hmin e = Some s ->
  exists n, bounces s = Z.of_nat n /\ (n <= fuel)%nat
            /\ array_heights s = peak h0 e <$> seq 0 (S n)
            /\ array_times s = time_of_peak h0 e <$> seq 0 (S n)
            /\ height s = peak h0 e n
            /\ total_time s = time_of_peak h0 e n
            /\ last (array_heights s) = Some (height s)
            /\ last (array_times s) = Some (total_time s).
Proof.
  unfold simulate. change (initial h0) with (after h0 e 0). rewrite loop_after.
  intros (n & Hn & -> & _). exists n.
  rewrite bounces_after, array_heights_after, array_times_after, height_after,
    total_time_after.
  repeat split; trivial; try lia.
  - rewrite seq_S, fmap_app. apply last_snoc.
  - rewrite seq_S, fmap_app. apply last_snoc.
Qed.

Lemma simulate_records_peaks_witness :
  exists n, 3%Z = Z.of_nat n /\ (n <= 3)%nat
            /\ [10; 5; 2.5; 1.25] = peak 10 0.5 <$> seq 0 (S n)
            /\ [0; 2.4378969697803106; 4.1617504489461039; 5.3806989338362587]
               = time_of_peak 10 0.5 <$> seq 0 (S n)
            /\ 1.25 = peak 10 0.5 n
            /\ 5.3806989338362587 = time_of_peak 10 0.5 n
            /\ last [10; 5; 2.5; 1.25] = Some 1.25
            /\ last [0; 2.4378969697803106; 4.1617504489461039; 5.3806989338362587]
               = Some 5.3806989338362587.
Proof.
  exact (simulate_records_peaks 3 10 1 0.5
           {| bounces := 3;
              total_time := 5.3806989338362587;
              height := 1.25;
              array_heights := [10; 5; 2.5; 1.25];
              array_times := [0; 2.4378969697803106; 4.1617504489461039;
                              5.3806989338362587] |} eq_refl).
Defined.

(** Comparing two numbers: exactly one of below, equal and above. *)
Lemma trichotomy (x y : float) :
  is_nan x = false -> is_nan y = false ->
  (x <=? y) = false -> (y <? x) = true.
Proof.
  intros Hx Hy. rewrite FloatAxioms.ltb_spec, FloatAxioms.leb_spec. unfold SFltb, SFleb.
  rewrite (SFcompare_antisym (Prim2SF x) (Prim2SF y)).
  destruct (compare_numbers x y Hx Hy) as [c ->]. destruct c; simpl; congruence.
Qed.

Lemma below_by_elimination (x y : float) :
  is_nan x = false -> is_nan y = false ->
  (x =? y) = false -> (y <? x) = false -> (x <? y) = true.
Proof.
  intros Hx Hy. rewrite !FloatAxioms.ltb_spec, FloatAxioms.eqb_spec.
  unfold SFltb, SFeqb.
  rewrite (SFcompare_antisym (Prim2SF x) (Prim2SF y)).
  destruct (compare_numbers x y Hx Hy) as [c ->]. destruct c; simpl; congruence.
Qed.

Lemma positive_times_fraction (h e : float) :
  (0 <? h) = true -> (0 <? e) = true -> (e <? 1) = true -> is_nan (h * e) = false.
Proof.
  rewrite !FloatAxioms.ltb_spec, is_number_spec, mul_spec.
  change (Prim2SF 0) with (S754_zero false). unfold SFltb.
  destruct (Prim2SF h) as [s|s| |s m x], (Prim2SF e) as [s'|s'| |s' m' x'];
    simpl; try discriminate; try (destruct s'; discriminate).
  intros _ _ _. apply SignFacts.binary_round_aux_signed. lia.
Qed.

(** What the checks leave of a triple of numbers. *)
Lemma check_Accept_signs h0 hmin e :
  check h0 hmin e = Accept ->
  is_nan h0 = false -> is_nan hmin = false -> is_nan e = false ->
  (0 <? h0) = true /\ (0 <? hmin) = true /\ (hmin <? h0) = true
  /\ (0 <? e) = true /\ (e <? 1) = true.
Proof.
  intros Hcheck H0 Hmin He.
  pose proof (BounceFacts.check_reports h0 hmin e) as H. rewrite Hcheck in H.
  pose proof (H heights_not_positive) as R1. apply orb_false_iff in R1 as [R1 R1'].
  pose proof (H minimum_not_below_initial) as R2.
  pose proof (H bounces_indefinitely) as R3.
  pose proof (H does_not_bounce) as R4.
  pose proof (H efficiency_out_of_range) as R5. apply orb_false_iff in R5 as [R5 R5'].
  cbn [reports] in *.
  assert (Z0 : is_nan 0 = false) by reflexivity.
  assert (Z1 : is_nan 1 = false) by reflexivity.
  repeat split.
  - apply trichotomy; trivial.
  - apply trichotomy; trivial.
  - apply trichotomy; trivial.
  - apply below_by_elimination; trivial.
    rewrite FloatAxioms.eqb_spec in *. unfold SFeqb in *.
    rewrite (SFcompare_antisym (Prim2SF e) (Prim2SF 0)).
    destruct (SFcompare (Prim2SF e) (Prim2SF 0)) as [[]|]; simpl in *; congruence.
  - apply below_by_elimination; trivial.
Qed.

(** An accepted triple of numbers bounces at least once: the last check of
    the chain is the negation of the loop's first test.  The second peak
    recorded is the initial height times the efficiency, and the loop needs
    at least one unit of fuel.  (With a NaN efficiency the triple is
    accepted and the loop makes no turn.) *)
Theorem accepted_numbers_bounce fuel h0 hmin e s :
  check h0 hmin e = Accept ->
  is_nan h0 = false -> is_nan hmin = false -> is_nan e = false ->
  simulate fuel h0 hmin e = Some s ->
  (1 <= bounces s)%Z /\ (1 <= fuel)%nat
  /\ array_heights s !! 1%nat = Some (h0 * e)
  /\ simulate 0 h0 hmin e = None.
Proof.
  intros Hcheck H0 Hmin He Hsim.
  destruct (check_Accept_signs _ _ _ Hcheck H0 Hmin He) as (P0 & _ & _ & P3 & P4).
  assert (Hguard : (hmin <=? h0 * e) = true).
  { apply not_ltb_leb; trivial; [apply positive_times_fraction; trivial|].
    pose proof (BounceFacts.check_reports h0 hmin e) as H. rewrite Hcheck in H.
    exact (H no_bounce_above_minimum). }
  assert (Hnone : simulate 0 h0 hmin e = None).
  { unfold simulate. simpl. rewrite Hguard. reflexivity. }
  unfold simulate in Hsim. change (initial h0) with (after h0 e 0) in Hsim.
  apply loop_after in Hsim as (n & Hn & -> & Hall & Hstop).
  assert (n <> 0%nat).
  { intros ->. change (peak h0 e 1) with (h0 * e) in Hstop. congruence. }
  rewrite bounces_after, array_heights_after.
  repeat split; trivial; try lia.
  destruct n as [|n]; [congruence|]. reflexivity.
Qed.

Lemma accepted_numbers_bounce_witness :
  let s := {| bounces := 3;
              total_time := 5.3806989338362587;
              height := 1.25;
              array_heights := [10; 5; 2.5; 1.25];
              array_times := [0; 2.4378969697803106; 4.1617504489461039;
                              5.3806989338362587] |} in
  (1 <= bounces s)%Z /\ (1 <= 3)%nat
  /\ array_heights s !! 1%nat = Some (10 * 0.5)
  /\ simulate 0 10 1 0.5 = None.
Proof.
  intros s. exact (accepted_numbers_bounce 3 10 1 0.5 s eq_refl eq_refl eq_refl eq_refl eq_refl).
Defined.

(** The message of a triple that is turned down is that of the first
    condition of the chain that holds: every condition tested before it is
    false, whatever the later ones are.  A triple is accepted when all six
    are false. *)
Theorem check_first_failure h0 hmin e :
  match check h0 hmin e with
  | Reject m =>
      exists before later,
        chain = before ++ m :: later
        /\ Forall (fun m' => reports m' h0 hmin e = false) before
        /\ reports m h0 hmin e = true
  | Accept => Forall (fun m' => reports m' h0 hmin e = false) chain
  end.
Proof.
  unfold check, chain.
  destruct ((h0 <=? 0) || (hmin <=? 0)) eqn:E1.
  { exists [], (tail chain). repeat split; [constructor | exact E1]. }
  destruct (h0 <=? hmin) eqn:E2.
  { exists (take 1 chain), (drop 2 chain). repeat split; [|exact E2].
    repeat constructor; assumption. }
  destruct (e =? 1) eqn:E3.
  { exists (take 2 chain), (drop 3 chain). repeat split; [|exact E3].
    repeat constructor; assumption. }
  destruct (e =? 0) eqn:E4.
  { exists (take 3 chain), (drop 4 chain). repeat split; [|exact E4].
    repeat constructor; assumption. }
  destruct ((1 <? e) || (e <? 0)) eqn:E5.
  { exists (take 4 chain), (drop 5 chain). repeat split; [|exact E5].
    repeat constructor; assumption. }
  destruct (h0 * e <? hmin) eqn:E6.
  { exists (take 5 chain), (drop 6 chain). repeat split; [|exact E6].
    repeat constructor; assumption. }
  repeat constructor; assumption.
Qed.

(** When the input ends before a triple is accepted, the script ends on
    the [EOFError] of the prompt it was at, which the [except ValueError]
    does not catch: after any number of attempts that were turned down, the
    screen shows their prompts and messages and then the prompts answered so
    far, and no simulation has run. *)
Theorem input_ends fuel attempts :
  Forall (fun a => is_Some (turned_down a)) attempts ->
  let typed_so_far := concat (typed <$> attempts) in
  let shown := concat (transcript <$> attempts) in
  main fuel typed_so_far = (shown ++ [Asked ask_initial_height], EndOfInput)
  /\ (forall h0,
        main fuel (typed_so_far ++ [Some h0])
        = (shown ++ [Asked ask_initial_height; Asked ask_minimum_height],
           EndOfInput))
  /\ (forall h0 hmin,
        main fuel (typed_so_far ++ [Some h0; Some hmin])
        = (shown ++ [Asked ask_initial_height; Asked ask_minimum_height;
                     Asked ask_efficiency], EndOfInput)).
Proof.
  intros Hdown typed_so_far shown. repeat split; intros.
  - rewrite <- (app_nil_r typed_so_far). unfold typed_so_far.
    rewrite (BounceFacts.main_retries _ _ _ Hdown). destruct fuel; reflexivity.
  - unfold typed_so_far.
    rewrite (BounceFacts.main_retries _ _ _ Hdown). destruct fuel; reflexivity.
  - unfold typed_so_far.
    rewrite (BounceFacts.main_retries _ _ _ Hdown). destruct fuel; reflexivity.
Qed.

Lemma input_ends_witness :
  main 5 (concat (typed <$> [no_float_1; triple 10 1 1]) ++ [Some 10; Some 1])
  = (concat (transcript <$> [no_float_1; triple 10 1 1])
       ++ [Asked ask_initial_height; Asked ask_minimum_height; Asked ask_efficiency],
     EndOfInput).
Proof.
  assert (Hdown : Forall (fun a => is_Some (turned_down a)) [no_float_1; triple 10 1 1]).
  { repeat constructor; eexists; vm_compute; reflexivity. }
  exact (proj2 (proj2 (input_ends 5 _ Hdown)) 10 1).
Defined.

(** What an accepted triple of numbers satisfies: the minimum height is
    above 0 and below the initial height, the efficiency is above 0 and
    below 1, and the first bounce reaches the minimum height.  (A triple
    with a NaN in it can be accepted without any of these.) *)
Theorem accepted_numbers_in_range h0 hmin e :
  check h0 hmin e = Accept ->
  is_nan h0 = false -> is_nan hmin = false -> is_nan e = false ->
  (0 <? hmin) = true /\ (hmin <? h0) = true
  /\ (0 <? e) = true /\ (e <? 1) = true
  /\ (hmin <=? h0 * e) = true.
Proof.
  intros Hcheck H0 Hmin He.
  destruct (check_Accept_signs _ _ _ Hcheck H0 Hmin He) as (P0 & P1 & P2 & P3 & P4).
  repeat split; trivial.
  apply not_ltb_leb; trivial.
  - apply positive_times_fraction; trivial.
  - pose proof (BounceFacts.check_reports h0 hmin e) as H. rewrite Hcheck in H.
    exact (H no_bounce_above_minimum).
Qed.

Lemma accepted_numbers_in_range_witness :
  (0 <? 1) = true /\ (1 <? 10) = true
  /\ (0 <? 0.5) = true /\ (0.5 <? 1) = true
  /\ (1 <=? 10 * 0.5) = true.
Proof. apply (accepted_numbers_in_range 10 1 0.5); reflexivity. Defined.

End BounceRunFacts.

(** ** Assessment 2: the file and its validation *)

Module ThicknessFileFacts.

Import Double DoubleFacts FiniteFacts Thickness ThicknessFile.

Lemma split_length sep line : length (split sep line) = S (count sep line).
Proof.
  induction line as [|c rest IH]; [reflexivity|]. cbn [split count].
  destruct (Ascii.eqb c sep); simpl; [rewrite IH; reflexivity|].
  destruct (split sep rest); simpl in *; [discriminate | exact IH].
Qed.

(** A piece that holds no separator is given back whole, and a separator
    ends the first piece. *)
Lemma split_piece sep piece :
  count sep piece = 0%nat -> split sep piece = [piece].
Proof.
  induction piece as [|c rest IH]; [reflexivity|]. cbn [split count].
  destruct (Ascii.eqb c sep); [discriminate|]. intros H. rewrite (IH H). reflexivity.
Qed.

Lemma split_append sep piece rest :
  count sep piece = 0%nat ->
  split sep (piece ++ String sep rest)%string = piece :: split sep rest.
Proof.
  induction piece as [|c piece IH]; cbn [split count String.append].
  - rewrite Ascii.eqb_refl. reflexivity.
  - destruct (Ascii.eqb c sep); [discriminate|]. intros H. rewrite (IH H). reflexivity.
Qed.

Lemma read_line_is_Some line :
  is_Some (read_line line) <-> (2 <= count "," line)%nat.
Proof.
  unfold read_line. pose proof (split_length "," line) as H.
  destruct (split "," line) as [|p0 [|p1 [|p2 ps]]]; simpl in H; split;
    try (intros [? ?]; discriminate); try lia; eauto.
Qed.

Lemma read_lines_mapM data lines :
  read_lines true data lines = (data ++.) <$> mapM read_line lines.
Proof.
  revert data. induction lines as [|line lines IH]; intros data; cbn [read_lines mapM].
  - simpl. rewrite app_nil_r. reflexivity.
  - destruct (read_line line) as [r|]; [|reflexivity]. simpl.
    rewrite IH. destruct (mapM read_line lines) as [rs|]; [|reflexivity].
    simpl. rewrite <- app_assoc. reflexivity.
Qed.

Lemma read_file_mapM lines : read_file (Some lines) = mapM read_line (tail lines).
Proof.
  unfold read_file. simpl. destruct lines as [|header lines]; [reflexivity|].
  cbn [read_lines tail]. rewrite read_lines_mapM.
  destruct (mapM read_line lines); reflexivity.
Qed.

(** [read_file] raises when the file cannot be opened, and when a line after
    the first has fewer than two commas (the blank line at the end of a
    file is one); the first line is never looked at.  Otherwise every line
    after the first gives one row, in order: its first three pieces. *)
Theorem read_file_rows :
  read_file None = None
  /\ forall lines,
       (is_Some (read_file (Some lines))
        <-> Forall (fun line => (2 <= count "," line)%nat) (tail lines))
       /\ forall data,
            read_file (Some lines) = Some data ->
            length data = pred (length lines)
            /\ Forall2 (fun line r => read_line line = Some r) (tail lines) data.
Proof.
  split; [reflexivity|]. intros lines. rewrite read_file_mapM. split.
  - rewrite mapM_is_Some. apply Forall_proper; [|reflexivity].
    intros line. apply read_line_is_Some.
  - intros data H. split.
    + apply length_mapM in H. rewrite <- H. destruct lines; reflexivity.
    + apply mapM_Some in H. exact H.
Qed.

(** Reading back a line written from three pieces that hold no comma gives
    the three pieces, the last one with whatever ends the line; pieces after
    the third are dropped. *)
Theorem read_line_fields piece_0 piece_1 piece_2 :
  count "," piece_0 = 0%nat -> count "," piece_1 = 0%nat -> count "," piece_2 = 0%nat ->
  read_line (piece_0 ++ "," ++ piece_1 ++ "," ++ piece_2)%string
  = Some (piece_0, piece_1, piece_2)
  /\ forall more,
       read_line (piece_0 ++ "," ++ piece_1 ++ "," ++ piece_2 ++ "," ++ more)%string
       = Some (piece_0, piece_1, piece_2).
Proof.
  intros H0 H1 H2. unfold read_line. split; [|intros more].
  - change ("," ++ ?s)%string with (String "," s).
    rewrite (split_append _ _ _ H0).
    change ("," ++ ?s)%string with (String "," s).
    rewrite (split_append _ _ _ H1), (split_piece _ _ H2). reflexivity.
  - change ("," ++ ?s)%string with (String "," s).
    rewrite (split_append _ _ _ H0).
    change ("," ++ ?s)%string with (String "," s).
    rewrite (split_append _ _ _ H1).
    change ("," ++ ?s)%string with (String "," s).
    rewrite (split_append _ _ _ H2). reflexivity.
Qed.

Lemma read_line_fields_witness :
  read_line "0.7,1.0,0.05"%string = Some ("0.7", "1.0", "0.05")%string
  /\ read_line "0.7,1.0,0.05,note"%string = Some ("0.7", "1.0", "0.05")%string.
Proof.
  destruct (read_line_fields "0.7" "1.0" "0.05" eq_refl eq_refl eq_refl) as [H H'].
  split; [exact H | exact (H' "note"%string)].
Defined.

End ThicknessFileFacts.

(** ** Assessment 2: validation, the fit on no data, the layer count *)

Module ValidationFacts.

Import Double DoubleFacts FiniteFacts RoundingFacts Thickness ThicknessFile.

Local Open Scope float_scope.

Section Script.

Context {libm : Libm}.

Lemma data_validation_as_cells (r : row) :
  data_validation (as_cells r) = within_bounds r.
Proof. destruct r as [[c0 c1] c2]. reflexivity. Qed.

Lemma elem_of_validate (data : list (cell * cell * cell)) (r : row) :
  r ∈ validate data <-> as_cells r ∈ data /\ within_bounds r = true.
Proof.
  unfold validate. rewrite list_elem_of_omap. split.
  - intros (line & Hin & H). destruct (data_validation line) eqn:E; [|discriminate].
    destruct line as [[[c0|] [c1|]] [c2|]]; try discriminate.
    injection H as <-. split; [exact Hin | exact E].
  - intros [Hin H]. exists (as_cells r). split; [exact Hin|].
    rewrite data_validation_as_cells, H. destruct r as [[c0 c1] c2]. reflexivity.
Qed.

Lemma within_bounds_numbers (r : row) :
  within_bounds r = true ->
  is_nan (col0 r) = false /\ is_nan (col1 r) = false /\ is_nan (col2 r) = false.
Proof.
  unfold within_bounds. rewrite !andb_true_iff.
  intros [[[H0 _] [H1 _]] H2].
  apply leb_is_number in H0 as [_ H0]. apply leb_is_number in H1 as [_ H1].
  apply ltb_is_number in H2 as [_ H2]. auto.
Qed.

(** The rows of [valid_data] are the lines of which all three cells are
    floats within the bounds, in the order of the file: the transmission
    coefficient in [0, 1], the energy in [0, V_0], the uncertainty above 0.
    None of their numbers is NaN.  Validation works line by line, and
    validating the valid rows again keeps them all. *)
Theorem validate_rows (data data' : list (cell * cell * cell)) :
  (forall r, r ∈ validate data <-> as_cells r ∈ data /\ within_bounds r = true)
  /\ Forall (fun r => is_nan (col0 r) = false /\ is_nan (col1 r) = false
                      /\ is_nan (col2 r) = false) (validate data)
  /\ validate (data ++ data') = validate data ++ validate data'
  /\ validate (as_cells <$> validate data) = validate data
  /\ (length (validate data) <= length data)%nat.
Proof.
  split; [apply elem_of_validate|]. split.
  { apply Forall_forall. intros r Hr. apply elem_of_validate in Hr as [_ Hr].
    apply within_bounds_numbers, Hr. }
  split; [apply omap_app|]. split.
  - assert (H : Forall (fun r => within_bounds r = true) (validate data)).
    { apply Forall_forall. intros r Hr. apply elem_of_validate in Hr. tauto. }
    induction H as [|r rs Hr _ IH]; [reflexivity|].
    unfold validate in *. rewrite fmap_cons. cbn [omap list_omap].
    rewrite data_validation_as_cells, Hr.
    destruct r as [[c0 c1] c2]. cbn [as_cells col0 col1 col2 fst snd].
    f_equal. exact IH.
  - unfold validate. induction data as [|line data IH]; [reflexivity|].
    cbn [omap list_omap]. destruct (if data_validation line then _ else _); simpl in *; lia.
Qed.

Lemma validate_nothing (data : list (cell * cell * cell)) :
  Forall (fun line => data_validation line = false) data -> validate data = [].
Proof.
  induction 1 as [|line data H _ IH]; [reflexivity|].
  unfold validate in *. cbn [omap list_omap]. rewrite H. exact IH.
Qed.

(** With no valid line (an empty file, a file of column headers only, or
    lines that all fail validation) the script does not stop: chi-squared
    is 0.0 at every thickness, the fit stays at the starting thickness, and
    the script prints 3.000 with error 0.000, one layer, and a reduced
    chi-squared of 0/(0 - 1), which is -0.0. *)
Theorem no_valid_data_report (fuel : nat) (data : list (cell * cell * cell)) :
  Forall (fun line => data_validation line = false) data ->
  main (S fuel) data
  = Some {| thickness_of_BN := 3;
            thickness_error := 0;
            reduced_chi2 := -0;
            layers := 1 |}.
Proof.
  intros H. unfold main. rewrite (validate_nothing _ H). reflexivity.
Qed.

End Script.

Lemma no_valid_data_report_witness :
  @main Reference.libm 1 [(Some 2, Some 1, Some 0.1); (None, Some 1, Some 0.1);
                          (Some 0.5, Some 1, Some 0)]
  = Some {| thickness_of_BN := 3;
            thickness_error := 0;
            reduced_chi2 := -0;
            layers := 1 |}.
Proof.
  apply (@no_valid_data_report Reference.libm 0).
  repeat constructor.
Defined.

(** The file of column headers only, and the empty file. *)
Section File.

Context {libm : Libm}.

Variable py_float : string -> cell.

(** A file without a line after the column headers is read without an
    error, and the script prints the report of the fit on no data. *)
Theorem headers_only_report (fuel : nat) (lines : list string) :
  (length lines <= 1)%nat ->
  script py_float (S fuel) (Some lines)
  = Printed {| thickness_of_BN := 3;
               thickness_error := 0;
               reduced_chi2 := -0;
               layers := 1 |}.
Proof.
  intros H. unfold script.
  destruct lines as [|header [|line lines]]; [reflexivity | reflexivity | simpl in H; lia].
Qed.

End File.

Lemma headers_only_report_witness :
  @script Reference.libm (fun _ => None) 1
          (Some ["Transmission coefficient,Energy (eV),Uncertainty"%string])
  = Printed {| thickness_of_BN := 3;
               thickness_error := 0;
               reduced_chi2 := -0;
               layers := 1 |}.
Proof. apply (@headers_only_report Reference.libm); simpl; lia. Defined.

End ValidationFacts.

(** ** Assessment 2: the layer count *)

Module LayerFacts.

Import Double DoubleFacts FiniteFacts RoundingFacts Thickness.

Local Open Scope float_scope.

Lemma to_Q_None (x : float) : to_Q x = None <-> is_finite x = false.
Proof.
  rewrite <- not_true_iff_false, is_finite_spec. unfold to_Q.
  destruct (Prim2SF x) as [s|s| |s m e]; split; try discriminate; trivial.
  - intros H. exfalso. apply H. eauto.
  - intros _ [[s' H]|(s' & m' & e' & H)]; discriminate.
  - intros _ [[s' H]|(s' & m' & e' & H)]; discriminate.
  - intros H. exfalso. apply H. eauto 6.
Qed.

Section Script.

Context {libm : Libm}.

(** [number_of_layers] raises exactly when the quotient of the thickness by
    the thickness per layer is NaN or infinite ([round] raises on those);
    on every finite quotient it gives an integer. *)
Theorem number_of_layers_raises (thickness thickness_per_layer : float) :
  number_of_layers thickness thickness_per_layer = None
  <-> is_finite (thickness / thickness_per_layer) = false.
Proof.
  unfold number_of_layers, py_round. rewrite <- to_Q_None.
  destruct (to_Q (thickness / thickness_per_layer)); simpl; split; congruence.
Qed.

(** The layer count is the integer nearest to the quotient as computed in
    doubles: at most one half away from it, no further from it than any
    other integer, and even when two integers are equally near. *)
Theorem number_of_layers_nearest (thickness thickness_per_layer : float) (n : Z) :
  number_of_layers thickness thickness_per_layer = Some n ->
  exists q, to_Q (thickness / thickness_per_layer) = Some q
            /\ (Qabs (inject_Z n - q) <= 1 # 2)%Q
            /\ (forall k, (Qabs (inject_Z n - q) <= Qabs (inject_Z k - q))%Q)
            /\ ((Qabs (inject_Z n - q) == 1 # 2)%Q -> Z.even n = true).
Proof.
  unfold number_of_layers, py_round.
  destruct (to_Q (thickness / thickness_per_layer)) as [q|]; [|discriminate].
  simpl. intros [= <-]. exists q. split; [reflexivity|].
  destruct (RoundingFacts.round_half_even_spec q) as [Hnear Htie]. cbv zeta in *.
  split; [exact Hnear|]. split; [|exact Htie].
  intros k. set (n := round_half_even q) in *.
  destruct (decide (k = n)) as [->|Hk]; [apply Qle_refl|].
  eapply Qle_trans; [exact Hnear|].
  apply Qabs_Qle_condition in Hnear as [H1 H2].
  assert (Hcases : (k <= n - 1 \/ n + 1 <= k)%Z) by lia.
  assert (Hm : (inject_Z (n - 1) == inject_Z n - 1)%Q)
    by (unfold Z.sub; rewrite inject_Z_plus; reflexivity).
  assert (Hp : (inject_Z (n + 1) == inject_Z n + 1)%Q)
    by (rewrite inject_Z_plus; reflexivity).
  destruct Hcases as [Hc|Hc]; rewrite Zle_Qle in Hc.
  - rewrite Hm in Hc.
    pose proof (Qle_Qabs (- (inject_Z k - q))) as A. rewrite Qabs_opp in A.
    apply (Qle_trans _ (- (inject_Z k - q))); [|exact A].
    generalize dependent (inject_Z n). generalize dependent (inject_Z k). intros; lra.
  - rewrite Hp in Hc. apply (Qle_trans _ (inject_Z k - q)); [|apply Qle_Qabs].
    generalize dependent (inject_Z n). generalize dependent (inject_Z k). intros; lra.
Qed.

End Script.

Lemma number_of_layers_nearest_witness :
  exists q, to_Q (4.5 / 3) = Some q
            /\ (Qabs (inject_Z 2 - q) <= 1 # 2)%Q
            /\ (forall k, (Qabs (inject_Z 2 - q) <= Qabs (inject_Z k - q))%Q)
            /\ ((Qabs (inject_Z 2 - q) == 1 # 2)%Q -> Z.even 2 = true).
Proof. exact (number_of_layers_nearest 4.5 3 2 eq_refl). Defined.

End LayerFacts.

(** ** Where the fits are undefined *)

Module UndefinedFacts.

Import Double DoubleFacts SignFacts FiniteFacts.

Local Open Scope float_scope.

Section Thickness.

Import Thickness.

Context {libm : Libm}.

(** One sample at which the model has no value (the square root of a
    negative number, at thicknesses that are too low) makes the whole of
    chi-squared NaN, and the fit then moves one step up from that thickness
    without comparing anything. *)
Theorem undefined_sample_steps_up (fuel : nat) (data : ndarray) (thickness : float) (r : row) :
  r ∈ data ->
  is_nan (transmission_coefficient (col1 r) thickness) = true ->
  is_nan (chi_squared data thickness) = true
  /\ minimise (S fuel) data thickness = minimise fuel data (thickness + step).
Proof.
  intros Hin Hnan.
  assert (H : is_nan (chi_squared data thickness) = true).
  { unfold chi_squared. apply np_sum_nan, Exists_exists.
    exists (square ((col0 r - transmission_coefficient (col1 r) thickness) / col2 r)).
    split.
    - apply list_elem_of_In, in_map_iff. exists r. split; [reflexivity|].
      apply list_elem_of_In, Hin.
    - unfold square. apply mul_nan. left. apply div_nan. left. apply sub_nan. auto. }
  split; [exact H|]. cbn [minimise]. rewrite H. reflexivity.
Qed.

(** At the fitted thickness the function that the error estimate minimises
    is exactly 1 whenever chi-squared is finite there: the search for the
    error boundary starts from 1, on a function that is never below 0. *)
Theorem objective_at_final_thickness (data : ndarray) (final_thickness thickness : float) :
  is_finite (chi_squared data final_thickness) = true ->
  function_to_be_minimised final_thickness data final_thickness = 1
  /\ (function_to_be_minimised final_thickness data thickness <? 0) = false.
Proof.
  intros H. split.
  - unfold function_to_be_minimised. rewrite (sub_diag _ H). reflexivity.
  - unfold function_to_be_minimised.
    pose proof (square_signed (chi_squared data thickness
                               - chi_squared data final_thickness - 1)) as S.
    rewrite FloatAxioms.ltb_spec. change (Prim2SF 0) with (S754_zero false).
    unfold SFltb. destruct (Prim2SF (square _)) as [s|s| |s m e];
      simpl in *; try reflexivity; rewrite S; reflexivity.
Qed.

End Thickness.

Lemma objective_at_final_thickness_witness :
  @Thickness.function_to_be_minimised Reference.libm 3.0059000000000125
     [(0.18, 0, 0.01)] 3.0059000000000125 = 1
  /\ (@Thickness.function_to_be_minimised Reference.libm 3.0059000000000125
        [(0.18, 0, 0.01)] 3 <? 0) = false.
Proof.
  apply (@objective_at_final_thickness Reference.libm). vm_compute. reflexivity.
Defined.

Lemma undefined_sample_steps_up_witness :
  is_nan (@Thickness.chi_squared Reference.libm [(0.5, 1, 0.1); (1, 0.7, 1)] 3) = true
  /\ @Thickness.minimise Reference.libm 1 [(0.5, 1, 0.1); (1, 0.7, 1)] 3
     = @Thickness.minimise Reference.libm 0 [(0.5, 1, 0.1); (1, 0.7, 1)]
         (3 + Thickness.step).
Proof.
  apply (@undefined_sample_steps_up Reference.libm 0 _ 3 (1, 0.7, 1)).
  - apply list_elem_of_In. simpl. auto.
  - vm_compute. reflexivity.
Defined.

Section Decay.

Import Decay.

Context {libm : Libm}.

Variable sc_Avogadro : float.

Lemma SFdiv_zero (a : spec_float) :
  (exists s, SFdiv prec emax a (S754_zero false) = S754_infinity s)
  \/ SFdiv prec emax a (S754_zero false) = S754_nan.
Proof. destruct a as [s|s| |s m e]; simpl; eauto. Qed.

Lemma SFmul_infinity_zero (a b : spec_float) :
  (exists s, a = S754_infinity s) \/ a = S754_nan ->
  b = S754_zero false \/ b = S754_nan ->
  SFmul prec emax a b = S754_nan.
Proof. intros [[s ->]| ->] [-> | ->]; reflexivity. Qed.

Lemma activity_equal_constants (time decay_constant : float) :
  is_nan (activity sc_Avogadro time (decay_constant, decay_constant)) = true.
Proof.
  unfold activity. cbn [fst snd]. apply is_nan_spec.
  rewrite mul_spec. apply SFmul_infinity_zero.
  - rewrite div_spec, sub_spec. unfold SF64div, SF64sub.
    destruct (SFsub_diag (Prim2SF decay_constant)) as [-> | ->].
    + apply SFdiv_zero.
    + right. destruct (Prim2SF _); reflexivity.
  - rewrite sub_spec. unfold SF64sub. apply SFsub_diag.
Qed.

(** With the two decay constants equal the model is undefined at every
    time, whatever the constant and the data: the activity is NaN (its first
    factor divides by 0.0, its second is a difference of equals), so
    [remove_outliers] keeps no sample and chi-squared over any samples is
    NaN. *)
Theorem equal_constants_undefined (time decay_constant : float) (data : ndarray) :
  is_nan (activity sc_Avogadro time (decay_constant, decay_constant)) = true
  /\ remove_outliers sc_Avogadro (decay_constant, decay_constant) data = []
  /\ (data <> [] ->
      is_nan (chi_squared sc_Avogadro (decay_constant, decay_constant) data) = true).
Proof.
  split; [apply activity_equal_constants|]. split.
  - unfold remove_outliers.
    destruct (filter _ data) as [|r kept] eqn:E; [reflexivity|]. exfalso.
    assert (Hr : r ∈ r :: kept) by left. rewrite <- E in Hr.
    apply list_elem_of_filter in Hr as [Hr _]. apply Is_true_true in Hr.
    rewrite ltb_nan in Hr; [discriminate|].
    left. unfold offset. apply abs_nan, sub_nan. right.
    apply activity_equal_constants.
  - intros Hdata. destruct data as [|r data]; [congruence|].
    unfold chi_squared. apply np_sum_nan. rewrite map_cons. apply Exists_cons_hd.
    unfold square. apply mul_nan. left. apply div_nan. left. apply sub_nan. right.
    apply activity_equal_constants.
Qed.

(** The chi-squared of the decay fit is never below 0. *)
Theorem decay_chi_squared_not_negative (decay_constants : float * float) (data : ndarray) :
  (chi_squared sc_Avogadro decay_constants data <? 0) = false.
Proof.
  pose proof (ReducedFacts.decay_chi_squared_signed sc_Avogadro decay_constants data) as H.
  rewrite FloatAxioms.ltb_spec. change (Prim2SF 0) with (S754_zero false).
  unfold SFltb.
  destruct (Prim2SF (chi_squared sc_Avogadro decay_constants data)) as [s|s| |s m e];
    simpl in *; try reflexivity; rewrite H; reflexivity.
Qed.

(** A decay constant of 0.0 raises nothing: with a positive finite
    [np.log(2)] its half-life is infinite, and the error on that half-life
    is an infinity or NaN, whatever the error on the decay constant. *)
Theorem half_life_of_zero (decay_constant_sr : float) (errors : float * float) :
  is_finite (np_log 2) = true -> (0 <? np_log 2) = true ->
  (half_lives (0, decay_constant_sr)).1 = infinity
  /\ is_finite (error_half_lives (0, decay_constant_sr) errors).1 = false.
Proof.
  intros Hf Hp. split.
  - unfold half_lives, half_life. cbn [fst].
    rewrite <- (SF2Prim_Prim2SF (np_log 2 / 0 / 60)), !div_spec.
    apply is_finite_spec in Hf. revert Hp.
    rewrite FloatAxioms.ltb_spec. change (Prim2SF 0) with (S754_zero false). unfold SFltb.
    destruct Hf as [[s ->]|(s & m & e & ->)]; simpl; [discriminate|].
    destruct s; [discriminate|]. intros _. reflexivity.
  - unfold error_half_lives, error_half_life. cbn [fst]. apply div_zero_not_finite.
Qed.

End Decay.

Lemma half_life_of_zero_witness :
  (@Decay.half_lives Reference.libm (0, 0.005)).1 = infinity
  /\ is_finite (@Decay.error_half_lives Reference.libm (0, 0.005) (0.00003, 0.0003)).1 = false.
Proof. apply (@half_life_of_zero Reference.libm); vm_compute; reflexivity. Defined.

End UndefinedFacts.

(** ** Assessment 3: the rows that are read, and what a run leaves unchanged *)

Module DecayReadFacts.

Import Double DoubleFacts SignFacts FiniteFacts Decay DecayFacts.

Local Open Scope float_scope.

(** A quotient of two finite doubles other than 0.0 takes its sign from
    both and is no NaN. *)
Lemma SFdiv_finite s m e s' m' e' :
  let q := SFdiv prec emax (S754_finite s m e) (S754_finite s' m' e') in
  q <> S754_nan /\ signed (xorb s s') q.
Proof.
  cbn [SFdiv].
  destruct (SFdiv_core_binary prec emax (Z.pos m) e (Z.pos m') e') as [[mz ez] lz] eqn:E.
  apply binary_round_aux_signed.
  unfold SFdiv_core_binary in E.
  destruct (Z.div_eucl _ (Z.pos m')) as [q r] eqn:D. injection E as <- _ _.
  match type of D with Z.div_eucl ?a ?b = _ =>
    assert (Ha : (0 <= a)%Z) end.
  { destruct (Z.sub _ _); try lia. apply Z.shiftl_nonneg. lia. }
  match type of D with Z.div_eucl ?a ?b = _ =>
    pose proof (Z.div_pos a b Ha ltac:(lia)) as Hq; unfold Z.div in Hq; rewrite D in Hq end.
  exact Hq.
Qed.

Lemma finite_below_zero (x : float) :
  is_finite x = true -> (x <? 0) = true -> exists m e, Prim2SF x = S754_finite true m e.
Proof.
  intros Hf. apply is_finite_spec in Hf.
  rewrite FloatAxioms.ltb_spec. change (Prim2SF 0) with (S754_zero false). unfold SFltb.
  destruct Hf as [[s ->]|(s & m & e & ->)]; simpl; [discriminate|].
  destruct s; [eauto | discriminate].
Qed.

Lemma finite_above_zero (x : float) :
  is_finite x = true -> (0 <? x) = true -> exists m e, Prim2SF x = S754_finite false m e.
Proof.
  intros Hf. apply is_finite_spec in Hf.
  rewrite FloatAxioms.ltb_spec. change (Prim2SF 0) with (S754_zero false). unfold SFltb.
  destruct Hf as [[s ->]|(s & m & e & ->)]; simpl; [discriminate|].
  destruct s; [discriminate | eauto].
Qed.

Lemma minus_signed_below_one (x : float) :
  signed true (Prim2SF x) -> is_nan x = false -> (x <? 1) = true.
Proof.
  rewrite is_number_spec, FloatAxioms.ltb_spec. unfold SFltb.
  destruct (Prim2SF x) as [s|s| |s m e]; simpl; try congruence; intros ->; reflexivity.
Qed.

Lemma not_zero_by_sign (x : float) m e s :
  Prim2SF x = S754_finite s m e -> (x =? 0) = false.
Proof.
  intros H. rewrite FloatAxioms.eqb_spec, H. change (Prim2SF 0) with (S754_zero false).
  destruct s; reflexivity.
Qed.

Lemma elem_of_validated (contents : ndarray) (r : row) :
  r ∈ validated contents
  <-> r ∈ contents
      /\ is_finite (col0 r) = true /\ is_finite (col1 r) = true
      /\ is_finite (col2 r) = true
      /\ (col2 r =? 0) = false /\ (col2 r / col1 r <? 1) = true.
Proof.
  unfold validated. rewrite !list_elem_of_filter, !Is_true_true.
  rewrite !andb_true_iff, negb_true_iff. tauto.
Qed.

(** The rows [read_and_validate] returns are those rows of the file, in
    the file's order, of which all three numbers are finite, the
    uncertainty is not 0, and uncertainty / measurement is below 1.
    Validation works row by row, and validating a second time removes
    nothing. *)
Theorem validated_rows (contents contents' : ndarray) :
  (forall r,
      r ∈ validated contents
      <-> r ∈ contents
          /\ is_finite (col0 r) = true /\ is_finite (col1 r) = true
          /\ is_finite (col2 r) = true
          /\ (col2 r =? 0) = false /\ (col2 r / col1 r <? 1) = true)
  /\ validated contents `sublist_of` contents
  /\ validated (contents ++ contents') = validated contents ++ validated contents'
  /\ validated (validated contents) = validated contents.
Proof.
  split; [apply elem_of_validated|]. split.
  { unfold validated. etrans; [apply sublist_filter|].
    etrans; [apply sublist_filter|]. apply sublist_filter. }
  split.
  { unfold validated. rewrite !filter_app. reflexivity. }
  assert (H : Forall (fun r => r ∈ validated contents) (validated contents))
    by (apply Forall_forall; trivial).
  revert H. generalize (validated contents) at 2 3 4. intros kept H.
  induction H as [|r kept Hr _ IH]; [reflexivity|].
  apply elem_of_validated in Hr as (_ & H0 & H1 & H2 & Hz & Hl).
  unfold validated in *. rewrite (filter_cons_True _ r).
  2: { apply Is_true_true. rewrite H0, H1, H2. reflexivity. }
  rewrite (filter_cons_True _ r).
  2: { apply Is_true_true. rewrite Hz. reflexivity. }
  rewrite (filter_cons_True _ r).
  2: { apply Is_true_true. exact Hl. }
  f_equal. exact IH.
Qed.

(** The test of the uncertainty compares uncertainty / measurement with 1,
    signs included: a row of finite numbers of which the measurement and
    the uncertainty have opposite signs always passes it and is kept,
    however large the uncertainty is. *)
Theorem opposite_signs_kept (contents : ndarray) (r : row) :
  r ∈ contents ->
  is_finite (col0 r) = true -> is_finite (col1 r) = true -> is_finite (col2 r) = true ->
  ((col1 r <? 0) = true /\ (0 <? col2 r) = true)
  \/ ((0 <? col1 r) = true /\ (col2 r <? 0) = true) ->
  r ∈ validated contents.
Proof.
  intros Hin H0 H1 H2 Hsigns. apply elem_of_validated.
  assert (exists s m e m' e',
             Prim2SF (col2 r) = S754_finite s m e
             /\ Prim2SF (col1 r) = S754_finite (negb s) m' e')
    as (s & m & e & m' & e' & E2 & E1).
  { destruct Hsigns as [[Hy Hs]|[Hy Hs]].
    - destruct (finite_below_zero _ H1 Hy) as (m' & e' & ?).
      destruct (finite_above_zero _ H2 Hs) as (m & e & ?).
      exists false, m, e, m', e'. auto.
    - destruct (finite_above_zero _ H1 Hy) as (m' & e' & ?).
      destruct (finite_below_zero _ H2 Hs) as (m & e & ?).
      exists true, m, e, m', e'. auto. }
  repeat split; trivial.
  - exact (not_zero_by_sign _ _ _ _ E2).
  - pose proof (SFdiv_finite s m e (negb s) m' e') as [Hn Hs]. cbv zeta in *.
    replace (xorb s (negb s)) with true in Hs by (destruct s; reflexivity).
    apply minus_signed_below_one.
    + rewrite div_spec, E2, E1. exact Hs.
    + apply is_number_spec. rewrite div_spec, E2, E1. exact Hn.
Qed.

Lemma opposite_signs_kept_witness :
  ((1, -2, 1000) : row) ∈ validated [(0.5, 30, 0.5); (1, -2, 1000)].
Proof.
  apply opposite_signs_kept; try reflexivity.
  - right. left.
  - left. split; reflexivity.
Defined.

Section Files.

Context {libm : Libm} {optimizer : Optimizer}.

Variable sc_Avogadro : float.
Variable np_genfromtxt : string -> option ndarray.

Lemma read_and_validate_raises (filename : string) (h : heap) :
  two_dimensional (np_genfromtxt filename) = false ->
  read_and_validate np_genfromtxt filename h = None.
Proof.
  unfold read_and_validate, two_dimensional.
  destruct (np_genfromtxt filename) as [contents|]; [|reflexivity].
  intros H. apply Nat.leb_gt in H.
  unfold bind, new, get. rewrite list_lookup_middle by reflexivity.
  rewrite (proj2 (Nat.ltb_lt (length contents) 2) H). reflexivity.
Qed.

Lemma two_dimensional_Some (filename : string) :
  two_dimensional (np_genfromtxt filename) = true ->
  exists contents, np_genfromtxt filename = Some contents /\ (2 <= length contents)%nat.
Proof.
  unfold two_dimensional. destruct (np_genfromtxt filename) as [contents|]; [|discriminate].
  intros H. apply Nat.leb_le in H. eauto.
Qed.

Lemma combine_files_unreadable (filename_1 filename_2 : string) (h : heap) :
  two_dimensional (np_genfromtxt filename_1) = false
  \/ two_dimensional (np_genfromtxt filename_2) = false ->
  combine_files np_genfromtxt filename_1 filename_2 h = None.
Proof.
  intros H. unfold combine_files.
  destruct (two_dimensional (np_genfromtxt filename_1)) eqn:T1.
  - destruct H as [H|T2]; [discriminate|].
    apply two_dimensional_Some in T1 as (c1 & E1 & L1).
    pose proof (read_and_validate_spec _ _ _ h [] E1 L1) as R1.
    rewrite app_nil_r in R1. rewrite (bind_Some _ _ _ _ _ R1).
    unfold bind at 1. rewrite (read_and_validate_raises _ _ T2). reflexivity.
  - unfold bind at 1. rewrite (read_and_validate_raises _ _ T1). reflexivity.
Qed.

(** On files of three columns [combine_files] raises exactly when, for one
    of the two files, [np.genfromtxt] raises or finds fewer than two rows:
    it then returns no array of two dimensions, and taking [.all(axis=1)]
    raises.  Rows that are not valid are dropped without an error. *)
Theorem combine_files_raises (filename_1 filename_2 : string) (h : heap) :
  combine_files np_genfromtxt filename_1 filename_2 h = None
  <-> two_dimensional (np_genfromtxt filename_1) = false
      \/ two_dimensional (np_genfromtxt filename_2) = false.
Proof.
  split; [|apply combine_files_unreadable].
  destruct (two_dimensional (np_genfromtxt filename_1)) eqn:T1; [|auto].
  destruct (two_dimensional (np_genfromtxt filename_2)) eqn:T2; [|auto].
  apply two_dimensional_Some in T1 as (c1 & E1 & L1).
  apply two_dimensional_Some in T2 as (c2 & E2 & L2).
  rewrite (combine_files_spec _ _ _ _ _ h E1 E2 L1 L2). discriminate.
Qed.

(** A call of [combine_files] that returns has changed no array that
    existed before, and the array it returns did not exist before.  That
    array is the only one in seconds: the arrays bound to [data_1], [data_2]
    and [data_combined] are left as they were read, with their times in
    hours.  The array returned has as many rows as the validated arrays of
    both files together. *)
Theorem combine_files_frame (filename_1 filename_2 : string) (h h' : heap) (data : ref) :
  combine_files np_genfromtxt filename_1 filename_2 h = Some (data, h') ->
  exists contents_1 contents_2 (data_1 data_2 data_combined : ref),
    np_genfromtxt filename_1 = Some contents_1
    /\ np_genfromtxt filename_2 = Some contents_2
    /\ (2 <= length contents_1)%nat /\ (2 <= length contents_2)%nat
    /\ h `prefix_of` h'
    /\ h !! data = None
    /\ data_1 <> data /\ data_2 <> data /\ data_combined <> data
    /\ h' !! data_1 = Some (validated contents_1)
    /\ h' !! data_2 = Some (validated contents_2)
    /\ h' !! data_combined = Some (validated contents_1 ++ validated contents_2)
    /\ length <$> h' !! data
       = Some (length (validated contents_1) + length (validated contents_2))%nat.
Proof.
  intros H.
  destruct (two_dimensional (np_genfromtxt filename_1)) eqn:T1.
  2: { rewrite combine_files_unreadable in H by (left; exact T1). discriminate. }
  destruct (two_dimensional (np_genfromtxt filename_2)) eqn:T2.
  2: { rewrite combine_files_unreadable in H by (right; exact T2). discriminate. }
  apply two_dimensional_Some in T1 as (c1 & E1 & L1).
  apply two_dimensional_Some in T2 as (c2 & E2 & L2).
  rewrite (combine_files_spec _ _ _ _ _ h E1 E2 L1 L2) in H. injection H as <- <-.
  exists c1, c2, (length h + 3)%nat, (length h + 7)%nat, (length h + 8)%nat.
  split; [exact E1|]. split; [exact E2|].
  split; [exact L1|]. split; [exact L2|].
  split; [apply prefix_app_r; reflexivity|].
  split; [apply lookup_ge_None; lia|].
  split; [lia|]. split; [lia|]. split; [lia|].
  repeat split.
  - rewrite lookup_app_r by lia.
    replace (length h + 3 - length h)%nat with 3%nat by lia. reflexivity.
  - rewrite lookup_app_r by lia.
    replace (length h + 7 - length h)%nat with 7%nat by lia. reflexivity.
  - rewrite lookup_app_r by lia.
    replace (length h + 8 - length h)%nat with 8%nat by lia. reflexivity.
  - rewrite lookup_app_r by lia.
    replace (length h + 9 - length h)%nat with 9%nat by lia. simpl.
    unfold to_seconds. rewrite length_map.
    rewrite (Permutation_length (SortFacts.insertion_sort_Permutation earlier _)).
    rewrite length_app. reflexivity.
Qed.

(** The main code on two files of at least two rows each.  Both fits run on
    the merged array, sorted and in seconds; the second one on the rows the
    preliminary fit keeps, starting from the preliminary constants.  The
    script stops as soon as one of the two fits fails; when both succeed no
    array that existed before has changed. *)
Theorem main_run (contents_1 contents_2 : ndarray) (h : heap) :
  np_genfromtxt "Nuclear_data_1.csv" = Some contents_1 ->
  np_genfromtxt "Nuclear_data_2.csv" = Some contents_2 ->
  (2 <= length contents_1)%nat -> (2 <= length contents_2)%nat ->
  let data_combined := validated contents_1 ++ validated contents_2 in
  let data := to_seconds (insertion_sort earlier data_combined) in
  match opt_fmin (fun p => chi_squared sc_Avogadro p data)
                 INITIAL_GUESS_DECAY_CONSTANTS with
  | None => main sc_Avogadro np_genfromtxt h = None
  | Some preliminary =>
      let kept := remove_outliers sc_Avogadro preliminary data in
      match opt_fmin (fun p => chi_squared sc_Avogadro p kept) preliminary with
      | None => main sc_Avogadro np_genfromtxt h = None
      | Some final =>
          exists h',
            main sc_Avogadro np_genfromtxt h
            = Some ({| data_read := data;
                       decay_constants_preliminary := preliminary;
                       data_without_outliers := kept;
                       decay_constants_final := final |}, h')
            /\ h `prefix_of` h'
      end
  end.
Proof.
  intros H1 H2 L1 L2 data_combined data. unfold main.
  rewrite (bind_Some _ _ _ _ _ (combine_files_spec _ _ _ _ _ h H1 H2 L1 L2)).
  fold data_combined. fold data.
  set (l := read_arrays contents_1 ++ read_arrays contents_2 ++ [data_combined; data]).
  assert (Hget : get (length h + 9) (h ++ l) = Some (data, h ++ l)).
  { apply get_after. reflexivity. }
  rewrite (bind_Some _ _ _ _ _ Hget).
  destruct (opt_fmin _ INITIAL_GUESS_DECAY_CONSTANTS) as [preliminary|]; [|reflexivity].
  cbv zeta.
  rewrite (bind_Some _ _ _ _ _ (new_after h l _)).
  assert (Hkept : get (length h + length l)
                      (h ++ l ++ [remove_outliers sc_Avogadro preliminary data])
                  = Some (remove_outliers sc_Avogadro preliminary data,
                          h ++ l ++ [remove_outliers sc_Avogadro preliminary data])).
  { apply get_after. apply list_lookup_middle. reflexivity. }
  rewrite (bind_Some _ _ _ _ _ Hkept).
  destruct (opt_fmin _ preliminary) as [final|]; [|reflexivity].
  eexists. split; [reflexivity|]. apply prefix_app_r. reflexivity.
Qed.

End Files.

Lemma combine_files_frame_witness :
  let h' := [[(2, 10, 0.5); (0.5, 30, 0.5); (1, 5, 0)];
             [(2, 10, 0.5); (0.5, 30, 0.5); (1, 5, 0)];
             [(2, 10, 0.5); (0.5, 30, 0.5)];
             [(2, 10, 0.5); (0.5, 30, 0.5)];
             [(1, 20, 0.5); (0.25, 40, 0.5)]; [(1, 20, 0.5); (0.25, 40, 0.5)];
             [(1, 20, 0.5); (0.25, 40, 0.5)]; [(1, 20, 0.5); (0.25, 40, 0.5)];
             [(2, 10, 0.5); (0.5, 30, 0.5); (1, 20, 0.5); (0.25, 40, 0.5)];
             [(900, 40, 0.5); (1800, 30, 0.5); (3600, 20, 0.5); (7200, 10, 0.5)]] in
  exists contents_1 contents_2 (data_1 data_2 data_combined : ref),
    two_files "Nuclear_data_1.csv" = Some contents_1
    /\ two_files "Nuclear_data_2.csv" = Some contents_2
    /\ (2 <= length contents_1)%nat /\ (2 <= length contents_2)%nat
    /\ [] `prefix_of` h'
    /\ ([] : heap) !! 9%nat = None
    /\ data_1 <> 9%nat /\ data_2 <> 9%nat /\ data_combined <> 9%nat
    /\ h' !! data_1 = Some (validated contents_1)
    /\ h' !! data_2 = Some (validated contents_2)
    /\ h' !! data_combined = Some (validated contents_1 ++ validated contents_2)
    /\ length <$> h' !! 9%nat
       = Some (length (validated contents_1) + length (validated contents_2))%nat.
Proof.
  intros h'.
  apply (combine_files_frame two_files "Nuclear_data_1.csv" "Nuclear_data_2.csv"
           [] h' 9).
  vm_compute. reflexivity.
Defined.

Lemma main_run_witness :
  let fmin_stub := {| opt_fmin := fun _ guess => Some guess |} in
  let data := [(900, 40, 0.5); (1800, 30, 0.5); (3600, 20, 0.5); (7200, 10, 0.5)] in
  exists f h',
    @main Reference.libm fmin_stub 6.02214076e23 two_files [] = Some (f, h')
    /\ data_read f = data
    /\ decay_constants_final f = INITIAL_GUESS_DECAY_CONSTANTS.
Proof.
  intros fmin_stub data.
  pose proof (@main_run Reference.libm fmin_stub 6.02214076e23 two_files
                _ _ [] eq_refl eq_refl ltac:(simpl; lia) ltac:(simpl; lia)) as H.
  cbv zeta in H. cbn [opt_fmin fmin_stub] in H.
  destruct H as (h' & H & _).
  eexists _, h'. split; [exact H|].
  split; [vm_compute; reflexivity | reflexivity].
Defined.

End DecayReadFacts.

(** ** Assessment 3: the mesh and the errors on the parameters *)

Module MeshFacts.

Import Double DoubleFacts FiniteFacts Decay DecayMesh.

Local Open Scope float_scope.

Lemma linspace_length start stop num : length (linspace start stop num) = num.
Proof.
  unfold linspace.
  destruct (1 <? Z.of_nat num)%Z; [rewrite length_insert|];
    rewrite length_map;
    destruct (0 <? Z.of_nat num - 1)%Z; try destruct (_ =? 0);
    rewrite !length_map, length_seq; reflexivity.
Qed.

(** A loop over [range(len(l))] that reads [l[i]] at every turn. *)
Lemma mapM_seq {A B : Type} (f : nat -> option B) (g : A -> B) (l : list A) :
  (forall i a, l !! i = Some a -> f i = Some (g a)) ->
  mapM f (seq 0 (length l)) = Some (map g l).
Proof.
  intros H. apply mapM_Some, Forall2_same_length_lookup_2.
  - rewrite length_seq, length_map. reflexivity.
  - intros i j b Hi Hb. apply lookup_seq in Hi as [-> _]. simpl.
    change (map g l) with (g <$> l) in Hb. rewrite list_lookup_fmap in Hb.
    destruct (l !! i) as [a|] eqn:E; [|discriminate].
    injection Hb as <-. apply (H _ _ E).
Qed.

Section Script.

Context {libm : Libm}.

Variable sc_Avogadro : float.
Variable np_linspace : float -> float -> nat -> list float.

Lemma chi_squared_mesh_meshgrid (x y : list float) (data : ndarray) :
  length x = length y ->
  chi_squared_mesh sc_Avogadro (np_meshgrid x y) data
  = Some (map (fun sr => map (fun rb => chi_squared sc_Avogadro (rb, sr) data) x) y).
Proof.
  intros Hlen. unfold chi_squared_mesh, np_meshgrid. cbn [fst snd].
  rewrite !length_map. apply mapM_seq. intros i sr Hi.
  rewrite <- Hlen. apply mapM_seq. intros j rb Hj.
  change (map ?f ?l) with (f <$> l). rewrite !list_lookup_fmap, Hi. cbn.
  rewrite Hj, list_lookup_fmap, Hj. reflexivity.
Qed.

(** The grid of the contour plot.  With an [np.linspace] that returns as
    many samples as it is asked for, for any decay constants and resolution
    [m], [chi_squared_mesh] on the mesh of [decay_constants_mesh] returns,
    without raising, [m] rows of [m] values: the one in row [i] and column
    [j] is the chi-squared of the [j]-th value of the Rb range with the
    [i]-th value of the Sr range. *)
Theorem chi_squared_mesh_entries
    (decay_constants : float * float) (data data' : ndarray) (resolution : nat) :
  (forall start stop num, length (np_linspace start stop num) = num) ->
  let rb_range := np_linspace (decay_constants.1 * 19 / 20)
                              (decay_constants.1 * 21 / 20) resolution in
  let sr_range := np_linspace (decay_constants.2 * 19 / 20)
                              (decay_constants.2 * 21 / 20) resolution in
  exists values,
    chi_squared_mesh sc_Avogadro
      (decay_constants_mesh np_linspace decay_constants data' resolution) data
    = Some values
    /\ length values = resolution
    /\ Forall (fun values_i => length values_i = resolution) values
    /\ forall i j rb sr,
         rb_range !! j = Some rb -> sr_range !! i = Some sr ->
         values !! i ≫= (.!! j) = Some (chi_squared sc_Avogadro (rb, sr) data).
Proof.
  intros Hlinspace rb_range sr_range.
  assert (Hrb : length rb_range = resolution) by apply Hlinspace.
  assert (Hsr : length sr_range = resolution) by apply Hlinspace.
  exists (map (fun sr => map (fun rb => chi_squared sc_Avogadro (rb, sr) data) rb_range)
              sr_range).
  split.
  { unfold decay_constants_mesh. apply chi_squared_mesh_meshgrid. congruence. }
  split; [rewrite length_map; exact Hsr|]. split.
  - apply Forall_map, Forall_forall. intros sr _. rewrite length_map. exact Hrb.
  - intros i j rb sr Hj Hi.
    change (map ?f ?l) with (f <$> l). rewrite list_lookup_fmap, Hi. cbn.
    rewrite list_lookup_fmap, Hj. reflexivity.
Qed.

End Script.

Lemma chi_squared_mesh_entries_witness :
  exists values,
    @chi_squared_mesh Reference.libm 6.02214076e23
      (decay_constants_mesh linspace (0.0005, 0.005) [] 3) [(1800, 30, 0.5)]
    = Some values
    /\ length values = 3%nat.
Proof.
  destruct (@chi_squared_mesh_entries Reference.libm 6.02214076e23 linspace
              (0.0005, 0.005) [(1800, 30, 0.5)] [] 3 linspace_length)
    as (values & H & Hlen & _).
  exists values. split; [exact H | exact Hlen].
Defined.

(** *** The errors on the parameters *)

Lemma maximum_nan a b :
  is_nan a = true \/ is_nan b = true -> is_nan (maximum a b) = true.
Proof.
  unfold maximum. intros [H|H].
  - rewrite H, orb_true_r. exact H.
  - destruct (is_nan a) eqn:Ha; [rewrite orb_true_r; exact Ha|].
    destruct (b <=? a) eqn:E; [|exact H].
    apply leb_is_number in E as [E _]. congruence.
Qed.

Lemma minimum_nan a b :
  is_nan a = true \/ is_nan b = true -> is_nan (minimum a b) = true.
Proof.
  unfold minimum. intros [H|H].
  - rewrite H, orb_true_r. exact H.
  - destruct (is_nan a) eqn:Ha; [rewrite orb_true_r; exact Ha|].
    destruct (a <=? b) eqn:E; [|exact H].
    apply leb_is_number in E as [_ E]. congruence.
Qed.

Lemma foldl_nan (op : float -> float -> float) acc xs :
  (forall a b, is_nan a = true \/ is_nan b = true -> is_nan (op a b) = true) ->
  Exists (fun x => is_nan x = true) (acc :: xs) -> is_nan (foldl op acc xs) = true.
Proof.
  intros Hop. revert acc. induction xs as [|x xs IH]; intros acc H; simpl.
  - inversion H as [? ? Hacc|? ? Hnil]; [exact Hacc | inversion Hnil].
  - apply IH. inversion H as [? ? Hacc|? ? Hrest]; subst.
    + left. apply Hop. auto.
    + inversion Hrest as [? ? Hx|? ? Hxs]; subst.
      * left. apply Hop. auto.
      * right. exact Hxs.
Qed.

(** On numbers, the maximum is one of them and none is above it. *)
Lemma foldl_maximum_numbers seen acc xs :
  acc ∈ seen -> Forall (fun v => (v <=? acc) = true) seen ->
  Forall (fun v => is_nan v = false) (seen ++ xs) ->
  foldl maximum acc xs ∈ seen ++ xs
  /\ Forall (fun v => (v <=? foldl maximum acc xs) = true) (seen ++ xs).
Proof.
  revert seen acc. induction xs as [|x xs IH]; intros seen acc Hin Hle Hnum; simpl.
  - rewrite app_nil_r. auto.
  - replace (seen ++ x :: xs) with ((seen ++ [x]) ++ xs) in *
      by (rewrite <- app_assoc; reflexivity).
    assert (Hacc : is_nan acc = false).
    { rewrite Forall_forall in Hnum. apply Hnum.
      apply elem_of_app. left. apply elem_of_app. left. exact Hin. }
    assert (Hx : is_nan x = false).
    { rewrite Forall_forall in Hnum. apply Hnum.
      apply elem_of_app. left. apply elem_of_app. right. left. }
    apply IH; trivial; unfold maximum; rewrite Hacc, orb_false_r;
      destruct (x <=? acc) eqn:E.
    + apply elem_of_app. auto.
    + apply elem_of_app. right. left.
    + apply Forall_app. split; [exact Hle|]. repeat constructor. exact E.
    + apply Forall_app. split.
      * eapply Forall_impl; [exact Hle|]. intros v Hv. simpl in Hv.
        apply (leb_trans _ _ _ Hv). apply leb_total; trivial.
      * repeat constructor. apply leb_refl, Hx.
Qed.

Lemma foldl_minimum_numbers seen acc xs :
  acc ∈ seen -> Forall (fun v => (acc <=? v) = true) seen ->
  Forall (fun v => is_nan v = false) (seen ++ xs) ->
  foldl minimum acc xs ∈ seen ++ xs
  /\ Forall (fun v => (foldl minimum acc xs <=? v) = true) (seen ++ xs).
Proof.
  revert seen acc. induction xs as [|x xs IH]; intros seen acc Hin Hle Hnum; simpl.
  - rewrite app_nil_r. auto.
  - replace (seen ++ x :: xs) with ((seen ++ [x]) ++ xs) in *
      by (rewrite <- app_assoc; reflexivity).
    assert (Hacc : is_nan acc = false).
    { rewrite Forall_forall in Hnum. apply Hnum.
      apply elem_of_app. left. apply elem_of_app. left. exact Hin. }
    assert (Hx : is_nan x = false).
    { rewrite Forall_forall in Hnum. apply Hnum.
      apply elem_of_app. left. apply elem_of_app. right. left. }
    apply IH; trivial; unfold minimum; rewrite Hacc, orb_false_r;
      destruct (acc <=? x) eqn:E.
    + apply elem_of_app. auto.
    + apply elem_of_app. right. left.
    + apply Forall_app. split; [exact Hle|]. repeat constructor. exact E.
    + apply Forall_app. split.
      * eapply Forall_impl; [exact Hle|]. intros v Hv. simpl in Hv.
        apply (leb_trans _ acc); [|exact Hv]. apply leb_total; trivial.
      * repeat constructor. apply leb_refl, Hx.
Qed.

Lemma np_max_min_spread (x : float) (xs : list float) :
  spread_of (x :: xs) ((foldl maximum x xs - foldl minimum x xs) / 2).
Proof.
  split.
  - intros H. apply div_nan. left. apply sub_nan. left.
    apply foldl_nan; [apply maximum_nan | exact H].
  - intros H. inversion H as [|? ? Hx _]; subst.
    destruct (foldl_maximum_numbers [x] x xs) as [Hmax Hmaxle]; trivial.
    { left. } { repeat constructor. apply leb_refl, Hx. }
    destruct (foldl_minimum_numbers [x] x xs) as [Hmin Hminle]; trivial.
    { left. } { repeat constructor. apply leb_refl, Hx. }
    exists (foldl maximum x xs), (foldl minimum x xs).
    repeat split; trivial.
    rewrite Forall_forall in *. intros v Hv. split; [apply Hminle | apply Hmaxle]; exact Hv.
Qed.

(** [errors_on_parameters] raises exactly on a contour without a point.
    Otherwise each error is half the spread of its column of the contour:
    NaN when a value of the column is NaN, and else half of the difference
    between two values of the column, one that none is above and one that
    none is below. *)
Theorem errors_on_parameters_spread (contour : list (float * float)) :
  (errors_on_parameters contour = None <-> contour = [])
  /\ forall errors,
       errors_on_parameters contour = Some errors ->
       spread_of (map fst contour) errors.1 /\ spread_of (map snd contour) errors.2.
Proof.
  destruct contour as [|p contour].
  - split; [split; reflexivity | discriminate].
  - split; [split; discriminate|].
    intros errors. unfold errors_on_parameters. cbn. intros [= <-].
    split; apply np_max_min_spread.
Qed.

End MeshFacts.
